(** * Actioned: the AI request orchestration core

    A shallow embedding of the orchestration layer of the Actionuity edX
    backend (ai_orchestrator/core.py, as given in the architecture
    document) together with models of the resilience components the
    deployment guide describes (circuit breakers and rate limiter), and the
    properties the specification states about them. *)

From stdpp Require Import gmap strings list sorting pretty.
From Stdlib Require Import Ascii PrimFloat SpecFloat FloatOps FloatAxioms.
From Stdlib Require Import QArith Lqa.

Close Scope Q_scope.

Local Open Scope string_scope.

(** ** Python values shared by the whole development *)

(** A Python call either returns a value or raises. *)
Inductive PyResult (A : Type) : Type :=
  | Ok (a : A)
  | Raise (exn : string).
Arguments Ok {A} a.
Arguments Raise {A} exn.

Definition py_bind {A B} (m : PyResult A) (k : A → PyResult B) : PyResult B :=
  match m with
  | Ok a => k a
  | Raise e => Raise e
  end.

Notation "x ←! m ; k" := (py_bind m (fun x => k))
  (at level 100, m at next level, right associativity).

(** [d[key]] on a dict: a key miss raises KeyError. *)
Definition getitem {V} (d : gmap string V) (key : string) : PyResult V :=
  match d !! key with
  | Some v => Ok v
  | None => Raise "KeyError"
  end.

(** [key in d]. *)
Definition has_key {V} (d : gmap string V) (key : string) : bool :=
  bool_decide (is_Some (d !! key)).

(** What [except Exception] catches. An exception is held as the text that
    stands for it: the class name of one of Python's own, the message of a
    provider's error. The exceptions that derive from BaseException alone
    pass the handler; asyncio.CancelledError, which ends a cancelled task
    at an [await], is one of them. *)
Definition base_exceptions : list string :=
  ["CancelledError"; "KeyboardInterrupt"; "SystemExit"; "GeneratorExit"].

Definition is_exception (exn : string) : bool :=
  negb (bool_decide (exn ∈ base_exceptions)).

(** A [str] is held as its UTF-8 encoding. A byte from 128 to 191 goes on
    with the character begun before it, so [len(s)], which counts
    characters, counts the other bytes. *)
Definition continues (c : ascii) : bool :=
  let n := nat_of_ascii c in (128 <=? n)%nat && (n <? 192)%nat.

Fixpoint len (s : string) : nat :=
  match s with
  | EmptyString => 0
  | String c s' => (if continues c then 0 else 1) + len s'
  end.

(** The bytes that go on with the character begun before [s], and the
    text after that character. *)
Fixpoint continuation (s : string) : string * string :=
  match s with
  | EmptyString => (EmptyString, EmptyString)
  | String c s' =>
      if continues c then
        let '(more, after) := continuation s' in (String c more, after)
      else (EmptyString, s)
  end.

(** [str.lower()] on an ASCII character. *)
Definition lower_ascii (c : ascii) : ascii :=
  let n := nat_of_ascii c in
  if (65 <=? n)%nat && (n <=? 90)%nat then ascii_of_nat (n + 32) else c.

(** A text of ASCII characters only, and what [str.lower()] makes of it. *)
Fixpoint ascii_only (s : string) : bool :=
  match s with
  | EmptyString => true
  | String c s' => (nat_of_ascii c <? 128)%nat && ascii_only s'
  end.

Fixpoint lower_ascii_text (s : string) : string :=
  match s with
  | EmptyString => EmptyString
  | String c s' => String (lower_ascii c) (lower_ascii_text s')
  end.

(** [sub in s] for strings. *)
Fixpoint contains (sub s : string) : bool :=
  match s with
  | EmptyString => String.prefix sub EmptyString
  | String _ s' => String.prefix sub s || contains sub s'
  end.

(** ** The orchestrator of ai_orchestrator/core.py *)

Module Orchestrator.

(** class AIModel(str, Enum) *)
Inductive AIModel :=
  | GPT_4_TURBO
  | CLAUDE_3_OPUS
  | CLAUDE_3_SONNET
  | MISTRAL_LARGE
  | GEMINI_PRO
  | LLAMA_3_70B
  | DBRX
  | CUSTOM_ACTIONUITY.

Definition value (m : AIModel) : string :=
  match m with
  | GPT_4_TURBO => "gpt-4-turbo-preview"
  | CLAUDE_3_OPUS => "claude-3-opus-20240229"
  | CLAUDE_3_SONNET => "claude-3-sonnet-20240229"
  | MISTRAL_LARGE => "mistral-large-latest"
  | GEMINI_PRO => "gemini-pro"
  | LLAMA_3_70B => "llama-3-70b-instruct"
  | DBRX => "databricks/dbrx-instruct"
  | CUSTOM_ACTIONUITY => "actionuity/action-officer-v1"
  end.

#[global] Instance AIModel_eq_dec : EqDecision AIModel.
Proof. solve_decision. Defined.

(** What the orchestrator asks of its collaborators, in call order:
    [self.call_model] and the three recorders of [self.metrics]. *)
Inductive Event :=
  | Call (model : AIModel) (prompt : string)
  | RecordSuccess (model : AIModel) (task_type : string)
  | RecordQualityIssue (model : AIModel) (task_type : string)
  | RecordFailure (model : AIModel) (task_type : string) (err : string).

(** The values stored in the result dictionary. *)
Inductive Value :=
  | VBool (b : bool)
  | VStr (s : string)
  | VNum (n : N).

(** The keys of [routing_rules] and of [validators]. *)
Definition known_task_types : list string :=
  ["strategy_audit"; "code_review"; "creative_ideation"; "ethical_assessment";
   "framework_alignment"; "real_time_tutoring"].

Definition validated_task_types : list string :=
  ["strategy_audit"; "code_review"; "creative_ideation"; "ethical_assessment"].

(** Methods of AIOrchestrator whose bodies the document leaves out, and
    the collaborators behind them. [PyDict] stands for [Dict[str, Any]]
    (the orchestrator only hands the context on) and [World] for the state
    of the model providers behind [call_model]. *)
Class Collaborators (PyDict World : Type) := {
  route_strategy_audit : PyDict → AIModel;
  route_code_review : PyDict → AIModel;
  route_creative_ideation : PyDict → AIModel;
  route_ethical_assessment : PyDict → AIModel;
  route_framework_alignment : PyDict → AIModel;
  route_real_time_tutoring : PyDict → AIModel;
  route_default : PyDict → AIModel;
  get_fallback_models : AIModel → string → list AIModel;
  call_model : AIModel → string → PyDict → World → PyResult string * World;
  generate_fallback_response : string → string;
  validate_strategy_response : string → PyResult bool;
  validate_code_response : string → PyResult bool;
  validate_creative_response : string → PyResult bool;
  validate_ethical_response : string → PyResult bool;
  banned_phrases : list string;
  check_coherence : string → float;
  (* str.lower() on one character outside ASCII, which Python reads from
     the Unicode database: the text before it, the character, the text
     after it (a capital sigma is lowered by its place in the word) *)
  lower_non_ascii : string → string → string → string;
  (* self.metrics.get_latency(), read off what was recorded so far *)
  get_latency : list Event → N
}.

Section WithCollaborators.

Context {PyDict World : Type} `{!Collaborators PyDict World}.

(** The orchestrator and what it talks to: the providers, the record of
    the calls made so far, and the contents of [self.cache]. *)
Record OState := {
  world : World;
  trace : list Event;
  cache : gmap string string
}.

Definition emit (ev : Event) (st : OState) : OState :=
  {| world := world st; trace := trace st ++ [ev]; cache := cache st |}.

Definition routing_rules : gmap string (PyDict → AIModel) :=
  list_to_map [
    ("strategy_audit", route_strategy_audit);
    ("code_review", route_code_review);
    ("creative_ideation", route_creative_ideation);
    ("ethical_assessment", route_ethical_assessment);
    ("framework_alignment", route_framework_alignment);
    ("real_time_tutoring", route_real_time_tutoring)
  ].

Definition route_request (task_type : string) (context : PyDict) : PyResult AIModel :=
  if has_key routing_rules task_type then
    rule ←! getitem routing_rules task_type;
    Ok (rule context)
  else
    Ok (route_default context).

Definition validators : gmap string (string → PyResult bool) :=
  list_to_map [
    ("strategy_audit", validate_strategy_response);
    ("code_review", validate_code_response);
    ("creative_ideation", validate_creative_response);
    ("ethical_assessment", validate_ethical_response)
  ].

(** [s.lower()], character by character: [before] is the text already
    passed. *)
Fixpoint lower_from (before s : string) : string :=
  match s with
  | EmptyString => EmptyString
  | String c s' =>
      let passed := before +:+ String c EmptyString in
      if (nat_of_ascii c <? 128)%nat then
        String (lower_ascii c) (lower_from passed s')
      else if continues c then lower_from passed s'
      else
        let '(more, after) := continuation s' in
        lower_non_ascii before (String c more) after +:+ lower_from passed s'
  end.

Definition lower (s : string) : string := lower_from EmptyString s.

Definition default_validation (response : string) : bool :=
  (50 <? len response)%nat
  && negb (existsb (fun banned => contains banned (lower response)) banned_phrases)
  && (0x1.6666666666666p-1 <? check_coherence response)%float.

Definition validate_response_quality (response task_type : string) : PyResult bool :=
  if has_key validators task_type then
    validator ←! getitem validators task_type;
    validator response
  else
    Ok (default_validation response).


(** The result dictionary handed back to the caller. *)
Definition success_result (model : AIModel) (result : string) (latency : N)
  : gmap string Value :=
  list_to_map [
    ("success", VBool true);
    ("model", VStr (value model));
    ("response", VStr result);
    ("latency", VNum latency)
  ].

Definition all_failed_error : string :=
  "All AI models failed to produce valid response".

Definition all_failed_result (task_type : string) : gmap string Value :=
  list_to_map [
    ("success", VBool false);
    ("error", VStr all_failed_error);
    ("fallback_response", VStr (generate_fallback_response task_type))
  ].

(** The body of the [try] block for one candidate: [Ok (Some d)] is
    [return d], [Ok None] is [continue], [Raise e] enters the handler. *)
Definition try_model (model : AIModel) (prompt task_type : string)
    (context : PyDict) (st : OState)
  : PyResult (option (gmap string Value)) * OState :=
  let '(called, w) := call_model model prompt context (world st) in
  let st1 := emit (Call model prompt)
               {| world := w; trace := trace st; cache := cache st |} in
  match called with
  | Raise e => (Raise e, st1)
  | Ok result =>
      match validate_response_quality result task_type with
      | Raise e => (Raise e, st1)
      | Ok true =>
          let st2 := emit (RecordSuccess model task_type) st1 in
          (Ok (Some (success_result model result (get_latency (trace st2)))), st2)
      | Ok false =>
          (Ok None, emit (RecordQualityIssue model task_type) st1)
      end
  end.

(** [for model in models_to_try: try: ... except Exception as e: ...],
    followed by the return after the loop. What the handler does not
    catch leaves the function. *)
Fixpoint try_models (models_to_try : list AIModel) (prompt task_type : string)
    (context : PyDict) (st : OState) : PyResult (gmap string Value) * OState :=
  match models_to_try with
  | [] => (Ok (all_failed_result task_type), st)
  | model :: rest =>
      match try_model model prompt task_type context st with
      | (Ok (Some d), st') => (Ok d, st')
      | (Ok None, st') => try_models rest prompt task_type context st'
      | (Raise e, st') =>
          if is_exception e then
            try_models rest prompt task_type context
              (emit (RecordFailure model task_type e) st')
          else (Raise e, st')
      end
  end.

Definition process_with_fallback (prompt task_type : string)
    (context : PyDict) (st : OState) : PyResult (gmap string Value) * OState :=
  match route_request task_type context with
  | Raise e => (Raise e, st)
  | Ok primary_model =>
      let models_to_try :=
        primary_model :: get_fallback_models primary_model task_type in
      try_models models_to_try prompt task_type context st
  end.

End WithCollaborators.

End Orchestrator.

(** ** Circuit breakers (circuit_breaker.py) *)

Module Breaker.

(** Modelled from the spec: the states of a breaker of circuit_breaker.py,
    which is missing from the sources. *)
Inductive State := CLOSED | OPEN | HALF_OPEN.

#[global] Instance State_eq_dec : EqDecision State.
Proof. solve_decision. Defined.

(** Modelled from the spec: the thresholds of one breaker of
    circuit_breaker.py; times are in seconds. *)
Record Config := {
  failureThreshold : nat;
  successThreshold : nat;
  timeoutDuration : Z
}.

(** The configurable thresholds of the deployment guide: 5 failures open
    the breaker, 2 successes close it, 60 seconds before a retry. *)
Definition default_config : Config :=
  {| failureThreshold := 5; successThreshold := 2; timeoutDuration := 60 |}.

(** Modelled from the spec: the call counts a breaker of
    circuit_breaker.py keeps. *)
Record Metrics := {
  total_calls : nat;
  total_successes : nat;
  total_failures : nat
}.

(** Modelled from the spec: the state record of one breaker of
    circuit_breaker.py. *)
Record BreakerState := {
  name : string;
  state : State;
  consecutive_failures : nat;
  consecutive_successes_in_half_open : nat;
  opened_at : Z;
  metrics : Metrics
}.

(** What can happen to a breaker: a permission check at a given time, and
    the report of a call's outcome. *)
Inductive Input :=
  | Allow (now : Z)
  | ReportSuccess
  | ReportFailure (now : Z).

Section WithConfig.

Variable cfg : Config.

(** Modelled from the spec: a new breaker of circuit_breaker.py, CLOSED
    with zero counters. *)
Definition fresh (backendId : string) : BreakerState :=
  {| name := backendId; state := CLOSED; consecutive_failures := 0;
     consecutive_successes_in_half_open := 0; opened_at := 0;
     metrics := {| total_calls := 0; total_successes := 0; total_failures := 0 |} |}.

(** Modelled from the spec: [reset] of circuit_breaker.py forces CLOSED and
    zeroes the counters. *)
Definition reset (b : BreakerState) : BreakerState := fresh (name b).

(** Modelled from the spec: [allow] of circuit_breaker.py, which is missing
    from the sources. CLOSED allows;
    HALF_OPEN allows while probes are still wanted; OPEN rejects until
    [timeoutDuration] has elapsed since it opened, then turns HALF_OPEN and
    allows. *)
Definition allow (now : Z) (b : BreakerState) : bool * BreakerState :=
  match state b with
  | CLOSED => (true, b)
  | HALF_OPEN =>
      (bool_decide (consecutive_successes_in_half_open b < successThreshold cfg)%nat, b)
  | OPEN =>
      if bool_decide (timeoutDuration cfg ≤ now - opened_at b)%Z then
        (true,
         {| name := name b; state := HALF_OPEN;
            consecutive_failures := consecutive_failures b;
            consecutive_successes_in_half_open := 0;
            opened_at := opened_at b; metrics := metrics b |})
      else (false, b)
  end.

Definition count_success (m : Metrics) : Metrics :=
  {| total_calls := S (total_calls m);
     total_successes := S (total_successes m);
     total_failures := total_failures m |}.

Definition count_failure (m : Metrics) : Metrics :=
  {| total_calls := S (total_calls m);
     total_successes := total_successes m;
     total_failures := S (total_failures m) |}.

(** Modelled from the spec: [reportSuccess] of circuit_breaker.py. A success
    ends a run of failures; in HALF_OPEN it counts towards closing. *)
Definition reportSuccess (b : BreakerState) : BreakerState :=
  let m := count_success (metrics b) in
  match state b with
  | CLOSED =>
      {| name := name b; state := CLOSED; consecutive_failures := 0;
         consecutive_successes_in_half_open := 0;
         opened_at := opened_at b; metrics := m |}
  | HALF_OPEN =>
      let successes := S (consecutive_successes_in_half_open b) in
      if bool_decide (successThreshold cfg ≤ successes)%nat then
        {| name := name b; state := CLOSED; consecutive_failures := 0;
           consecutive_successes_in_half_open := 0;
           opened_at := opened_at b; metrics := m |}
      else
        {| name := name b; state := HALF_OPEN;
           consecutive_failures := consecutive_failures b;
           consecutive_successes_in_half_open := successes;
           opened_at := opened_at b; metrics := m |}
  | OPEN =>
      {| name := name b; state := OPEN;
         consecutive_failures := consecutive_failures b;
         consecutive_successes_in_half_open := consecutive_successes_in_half_open b;
         opened_at := opened_at b; metrics := m |}
  end.

(** Modelled from the spec: [reportFailure] of circuit_breaker.py. In CLOSED
    the run of failures grows and opens the breaker at the threshold; in
    HALF_OPEN one failure opens it again and restarts the timer. *)
Definition reportFailure (now : Z) (b : BreakerState) : BreakerState :=
  let m := count_failure (metrics b) in
  match state b with
  | CLOSED =>
      let failures := S (consecutive_failures b) in
      if bool_decide (failureThreshold cfg ≤ failures)%nat then
        {| name := name b; state := OPEN; consecutive_failures := failures;
           consecutive_successes_in_half_open := 0;
           opened_at := now; metrics := m |}
      else
        {| name := name b; state := CLOSED; consecutive_failures := failures;
           consecutive_successes_in_half_open := 0;
           opened_at := opened_at b; metrics := m |}
  | HALF_OPEN =>
      {| name := name b; state := OPEN;
         consecutive_failures := S (consecutive_failures b);
         consecutive_successes_in_half_open := 0;
         opened_at := now; metrics := m |}
  | OPEN =>
      {| name := name b; state := OPEN;
         consecutive_failures := S (consecutive_failures b);
         consecutive_successes_in_half_open := consecutive_successes_in_half_open b;
         opened_at := opened_at b; metrics := m |}
  end.

Definition step (i : Input) (b : BreakerState) : BreakerState :=
  match i with
  | Allow now => snd (allow now b)
  | ReportSuccess => reportSuccess b
  | ReportFailure now => reportFailure now b
  end.

Definition run (inputs : list Input) (b : BreakerState) : BreakerState :=
  foldl (fun acc i => step i acc) b inputs.


End WithConfig.

End Breaker.

(** ** Rate limiter (rate_limiter.py) *)

Module RateLimiter.

Inductive Tier := free | basic | pro | enterprise.

Record Limits := {
  requests_per_minute : N;
  requests_per_hour : N;
  requests_per_day : N;
  ai_tokens_per_day : N
}.

(** The table of rate limit tiers of the deployment guide. *)
Definition limits (tier : Tier) : Limits :=
  match tier with
  | free =>
      {| requests_per_minute := 10; requests_per_hour := 100;
         requests_per_day := 500; ai_tokens_per_day := 50000 |}
  | basic =>
      {| requests_per_minute := 30; requests_per_hour := 500;
         requests_per_day := 5000; ai_tokens_per_day := 500000 |}
  | pro =>
      {| requests_per_minute := 100; requests_per_hour := 2000;
         requests_per_day := 20000; ai_tokens_per_day := 2000000 |}
  | enterprise =>
      {| requests_per_minute := 1000; requests_per_hour := 10000;
         requests_per_day := 100000; ai_tokens_per_day := 10000000 |}
  end.

Inductive WindowKind := minute | hour | day.

Definition window_kinds : list WindowKind := [minute; hour; day].

(** Length of a window, in seconds. *)
Definition window_seconds (k : WindowKind) : N :=
  match k with
  | minute => 60
  | hour => 3600
  | day => 86400
  end.

Definition limit_of (tier : Tier) (k : WindowKind) : N :=
  match k with
  | minute => requests_per_minute (limits tier)
  | hour => requests_per_hour (limits tier)
  | day => requests_per_day (limits tier)
  end.

(** Modelled from the spec: the fixed windows of rate_limiter.py, which is
    missing from the sources; a window is named by the timestamp truncated
    to the window length. *)
Definition window_start (k : WindowKind) (now : N) : N :=
  (window_seconds k * (now / window_seconds k))%N.

(** Seconds left until the window holding [now] ends. *)
Definition until_reset (k : WindowKind) (now : N) : N :=
  (window_start k now + window_seconds k - now)%N.

(** Modelled from the spec: the counters of rate_limiter.py. A request
    counter is keyed by user, window length and truncated timestamp, the
    token counter by user and day; a counter that is not there is zero. *)
Record Quotas := {
  requests : gmap (string * N * N) N;
  tokens : gmap (string * N) N
}.

Definition no_quotas : Quotas := {| requests := ∅; tokens := ∅ |}.

Definition request_count (userId : string) (k : WindowKind) (now : N)
    (q : Quotas) : N :=
  default 0%N (requests q !! (userId, window_seconds k, window_start k now)).

Definition tokens_today (userId : string) (now : N) (q : Quotas) : N :=
  default 0%N (tokens q !! (userId, window_start day now)).

(** Modelled from the spec: what [checkAndConsume] of rate_limiter.py
    answers. *)
Record Admission := {
  allowed : bool;
  retryAfter : option N
}.

(** The windows a request of the given weight would overrun. *)
Definition exceeded (userId : string) (tier : Tier) (endpointWeight now : N)
    (q : Quotas) : list WindowKind :=
  filter (fun k => limit_of tier k < request_count userId k now q + endpointWeight)%N
         window_kinds.

Definition token_budget_spent (userId : string) (tier : Tier) (now : N)
    (q : Quotas) : bool :=
  bool_decide (ai_tokens_per_day (limits tier) ≤ tokens_today userId now q)%N.

Definition bump (userId : string) (endpointWeight now : N) (k : WindowKind)
    (reqs : gmap (string * N * N) N) : gmap (string * N * N) N :=
  let key := (userId, window_seconds k, window_start k now) in
  <[key := (default 0%N (reqs !! key) + endpointWeight)%N]> reqs.

(** Modelled from the spec: [checkAndConsume] of rate_limiter.py. All
    windows and the daily token budget are checked first; a rejection
    leaves every counter as it was and says how long to wait for the
    overrun windows to end, an admission adds the weight to every window. *)
Definition checkAndConsume (userId : string) (tier : Tier)
    (endpointWeight now : N) (q : Quotas) : Admission * Quotas :=
  let over := exceeded userId tier endpointWeight now q in
  let spent := token_budget_spent userId tier now q in
  match over, spent with
  | [], false =>
      ({| allowed := true; retryAfter := None |},
       {| requests := foldr (bump userId endpointWeight now) (requests q) window_kinds;
          tokens := tokens q |})
  | _, _ =>
      let waits :=
        (map (fun k => until_reset k now) over
         ++ (if spent then [until_reset day now] else []))%list in
      ({| allowed := false; retryAfter := Some (foldr N.max 0%N waits) |}, q)
  end.

(** The calls of weight one that a window, and that all the windows and
    the token budget together, still leave to the user at [now]. *)
Definition room (userId : string) (tier : Tier) (k : WindowKind) (now : N)
    (q : Quotas) : N :=
  (limit_of tier k - request_count userId k now q)%N.

Definition headroom (userId : string) (tier : Tier) (now : N) (q : Quotas) : N :=
  if token_budget_spent userId tier now q then 0%N
  else N.min (room userId tier minute now q)
         (N.min (room userId tier hour now q) (room userId tier day now q)).

(** Modelled from the spec: [consumeTokens] of rate_limiter.py. *)
Definition consumeTokens (userId : string) (tokenCount now : N) (q : Quotas)
  : Quotas :=
  {| requests := requests q;
     tokens := <[(userId, window_start day now) :=
                 (tokens_today userId now q + tokenCount)%N]> (tokens q) |}.

(** Modelled from the spec: [reset] of rate_limiter.py zeroes the user's
    windows. *)
Definition reset (userId : string) (q : Quotas) : Quotas :=
  {| requests := filter (fun kv => kv.1.1.1 ≠ userId) (requests q);
     tokens := filter (fun kv => kv.1.1 ≠ userId) (tokens q) |}.

(** Modelled from the spec: the error kinds a caller can be handed. *)
Inductive ErrorKind :=
  | RATE_LIMITED
  | CIRCUIT_OPEN
  | VALIDATION_FAILED
  | ALL_BACKENDS_UNAVAILABLE
  | ALL_BACKENDS_FAILED
  | CACHE_UNAVAILABLE.

(** Modelled from the spec: how the outcome of [checkAndConsume] surfaces
    to the caller, an error kind with the time to wait. *)
Definition rejection (a : Admission) : option (ErrorKind * option N) :=
  if allowed a then None else Some (RATE_LIMITED, retryAfter a).

(** A burst of admissions of weight one, at the given times. *)
Fixpoint admissions (userId : string) (tier : Tier) (times : list N)
    (q : Quotas) : list Admission * Quotas :=
  match times with
  | [] => ([], q)
  | now :: later =>
      let '(a, q1) := checkAndConsume userId tier 1 now q in
      let '(rest, q2) := admissions userId tier later q1 in
      (a :: rest, q2)
  end.

End RateLimiter.

(** ** Breaker registry and model router *)

Module Router.

Import Breaker.

(** Modelled from the spec: the static registry entry of a backend, with
    its capability flags per task type, cost and nominal latency. *)
Record Backend := {
  id : string;
  supports : string → bool;
  cost_per_unit : Q;
  max_output_size : N;
  nominal_latency : N
}.

(** Modelled from the spec: the breaker registry of circuit_breaker.py, one
    breaker per backend id, each with its own thresholds. *)
Record Registry := {
  config_of : string → Config;
  breakers : gmap string BreakerState
}.

(** Modelled from the spec: [snapshot], [allow], [reportSuccess] and
    [reportFailure] of the registry of circuit_breaker.py act on the
    breaker of the named backend; a backend not seen before has a new
    breaker. *)
Definition snapshot (backendId : string) (reg : Registry) : BreakerState :=
  default (fresh backendId) (breakers reg !! backendId).

(** A breaker that rejects at [now]: OPEN, and its timeout not yet over. *)
Definition blocked (backendId : string) (now : Z) (reg : Registry) : Prop :=
  state (snapshot backendId reg) = OPEN
  ∧ (now - opened_at (snapshot backendId reg)
     < timeoutDuration (config_of reg backendId))%Z.

Definition put (backendId : string) (b : BreakerState) (reg : Registry) : Registry :=
  {| config_of := config_of reg; breakers := <[backendId := b]> (breakers reg) |}.

Definition allow (backendId : string) (now : Z) (reg : Registry) : bool * Registry :=
  let '(ok, b) := Breaker.allow (config_of reg backendId) now (snapshot backendId reg) in
  (ok, put backendId b reg).

Definition reportSuccess (backendId : string) (reg : Registry) : Registry :=
  put backendId
    (Breaker.reportSuccess (config_of reg backendId) (snapshot backendId reg)) reg.

Definition reportFailure (backendId : string) (now : Z) (reg : Registry) : Registry :=
  put backendId
    (Breaker.reportFailure (config_of reg backendId) now (snapshot backendId reg)) reg.

(** Modelled from the spec: the order of fallbacks, which is decided in
    get_fallback_models (missing from the sources): ascending cost, ties
    broken by ascending nominal latency. *)
Definition cheaper (a b : Backend) : bool :=
  match (cost_per_unit a ?= cost_per_unit b)%Q with
  | Lt => true
  | Eq => (nominal_latency a <=? nominal_latency b)%N
  | Gt => false
  end.

(** A breaker that would allow a call at [now]. *)
Definition permits (backendId : string) (now : Z) (reg : Registry) : Prop :=
  (allow backendId now reg).1 = true.

(** The order of the fallback chain, spelled out. *)
Definition before (a b : Backend) : Prop :=
  (cost_per_unit a < cost_per_unit b)%Q
  ∨ ((cost_per_unit a == cost_per_unit b)%Q
     ∧ (nominal_latency a ≤ nominal_latency b)%N).

Fixpoint insert_by (le : Backend → Backend → bool) (x : Backend)
    (l : list Backend) : list Backend :=
  match l with
  | [] => [x]
  | y :: l' => if le x y then x :: y :: l' else y :: insert_by le x l'
  end.

Definition sort_by (le : Backend → Backend → bool) (l : list Backend) : list Backend :=
  foldr (insert_by le) [] l.

(** Modelled from the spec: the routing table, a primary backend per task
    type over a static list of backends. *)
Record Table := {
  backends : list Backend;
  primary_of : string → string
}.

(** Modelled from the spec: the candidates for a task type before the
    breakers are asked, the primary first and then the other capable
    backends by cost and latency. *)
Definition chain (tbl : Table) (taskType : string) : list Backend :=
  let able := filter (fun b => supports b taskType = true) (backends tbl) in
  (filter (fun b => id b = primary_of tbl taskType) able
   ++ sort_by cheaper (filter (fun b => id b ≠ primary_of tbl taskType) able))%list.

(** Modelled from the spec: the breaker gate of the router; each
    candidate's breaker is asked in turn and those that allow are kept. *)
Fixpoint gate (now : Z) (candidates : list Backend) (reg : Registry)
  : list Backend * Registry :=
  match candidates with
  | [] => ([], reg)
  | b :: rest =>
      let '(ok, reg1) := allow (id b) now reg in
      let '(kept, reg2) := gate now rest reg1 in
      (if ok then b :: kept else kept, reg2)
  end.

(** Modelled from the spec: [route] of the model router, whose capability
    filter, breaker gate and fallback order are in helpers missing from the
    sources (the route_* methods and get_fallback_models). *)
Definition route {PyDict : Type} (tbl : Table) (taskType : string)
    (context : PyDict) (now : Z) (reg : Registry) : list string * Registry :=
  let '(kept, reg') := gate now (chain tbl taskType) reg in
  (id <$> kept, reg').

End Router.

(** ** The running system *)

Module System.

Import Orchestrator.

Section WithCollaborators.

Context {PyDict World : Type} `{!Collaborators PyDict World}.

(** How one candidate's attempt ended, read off [call_model] and the
    validator: the loop goes on to the next candidate when the call or the
    validator raised an Exception, or the response was rejected. *)
Definition candidate_failed (task_type : string) (called : PyResult string) : Prop :=
  match called with
  | Raise e => is_exception e = true
  | Ok result =>
      match validate_response_quality result task_type with
      | Ok valid => valid = false
      | Raise e => is_exception e = true
      end
  end.

Fixpoint all_fail (models : list AIModel) (prompt task_type : string)
    (context : PyDict) (w : World) : Prop :=
  match models with
  | [] => True
  | model :: rest =>
      candidate_failed task_type (call_model model prompt context w).1
      ∧ all_fail rest prompt task_type context (call_model model prompt context w).2
  end.

(** The calls a run of the loop over [models] makes from provider state
    [w], and how it ends: on a candidate and its response, on the end of
    the list, or on an exception that the handler does not catch. *)
Inductive attempts (prompt task_type : string) (context : PyDict)
  : list AIModel → World → list Event → World
    → PyResult (option (AIModel * string)) → Prop :=
  | attempts_exhausted w :
      attempts prompt task_type context [] w [] w (Ok None)
  | attempts_valid model rest w result w' :
      call_model model prompt context w = (Ok result, w') →
      validate_response_quality result task_type = Ok true →
      attempts prompt task_type context (model :: rest) w
        [Call model prompt; RecordSuccess model task_type] w'
        (Ok (Some (model, result)))
  | attempts_rejected model rest w result w' evs w'' res :
      call_model model prompt context w = (Ok result, w') →
      validate_response_quality result task_type = Ok false →
      attempts prompt task_type context rest w' evs w'' res →
      attempts prompt task_type context (model :: rest) w
        (Call model prompt :: RecordQualityIssue model task_type :: evs) w'' res
  | attempts_validator_raised model rest w result w' e evs w'' res :
      call_model model prompt context w = (Ok result, w') →
      validate_response_quality result task_type = Raise e →
      is_exception e = true →
      attempts prompt task_type context rest w' evs w'' res →
      attempts prompt task_type context (model :: rest) w
        (Call model prompt :: RecordFailure model task_type e :: evs) w'' res
  | attempts_raised model rest w e w' evs w'' res :
      call_model model prompt context w = (Raise e, w') →
      is_exception e = true →
      attempts prompt task_type context rest w' evs w'' res →
      attempts prompt task_type context (model :: rest) w
        (Call model prompt :: RecordFailure model task_type e :: evs) w'' res
  | attempts_validator_escaped model rest w result w' e :
      call_model model prompt context w = (Ok result, w') →
      validate_response_quality result task_type = Raise e →
      is_exception e = false →
      attempts prompt task_type context (model :: rest) w
        [Call model prompt] w' (Raise e)
  | attempts_escaped model rest w e w' :
      call_model model prompt context w = (Raise e, w') →
      is_exception e = false →
      attempts prompt task_type context (model :: rest) w
        [Call model prompt] w' (Raise e).

(** The dictionary a run of the loop returns, from how it ended and what
    was recorded by then. *)
Definition outcome (task_type : string) (events : list Event)
    (res : option (AIModel * string)) : gmap string Value :=
  match res with
  | Some (model, result) => success_result model result (get_latency events)
  | None => all_failed_result task_type
  end.

(** What [process_with_fallback] hands its caller at the end of a run. *)
Definition returned (task_type : string) (events : list Event)
    (res : PyResult (option (AIModel * string))) : PyResult (gmap string Value) :=
  match res with
  | Ok ended => Ok (outcome task_type events ended)
  | Raise e => Raise e
  end.

(** The models called, in order. *)
Definition called (events : list Event) : list AIModel :=
  omap (fun ev => match ev with Call model _ => Some model | _ => None end) events.

(** The entry the metrics collector gets after a call of [model]: of its
    success, of a rejected response or of a failure, for the task type. *)
Definition records (model : AIModel) (task_type : string) (ev : Event) : bool :=
  match ev with
  | Call _ _ => false
  | RecordSuccess m t | RecordQualityIssue m t | RecordFailure m t _ =>
      bool_decide (m = model) && bool_decide (t = task_type)
  end.

(** A record of calls in which every call of a model with the prompt is
    followed by exactly one entry for that model with the metrics
    collector, and nothing else is recorded. *)
Fixpoint paired (prompt task_type : string) (events : list Event) : bool :=
  match events with
  | [] => true
  | Call model p :: record :: rest =>
      bool_decide (p = prompt) && records model task_type record
      && paired prompt task_type rest
  | _ => false
  end.

(** The orchestrator of core.py holds a model registry, a cache and a
    metrics collector. The breaker registry and the rate limiter are
    components of their own, which it holds no reference to. *)
Record System := {
  orchestrator : OState (World := World);
  registry : Router.Registry;
  quotas : RateLimiter.Quotas
}.

(** A request served by the system: [process_with_fallback] on the
    orchestrator; nothing in it reaches the breakers or the quotas. *)
Definition process (prompt task_type : string) (context : PyDict)
    (sys : System) : PyResult (gmap string Value) * System :=
  let '(r, o) := process_with_fallback prompt task_type context (orchestrator sys) in
  (r, {| orchestrator := o; registry := registry sys; quotas := quotas sys |}).

End WithCollaborators.

End System.

(** ** A small deployment to run the definitions on *)

Module Scenario.

Import Orchestrator.

Definition apology : string :=
  "We could not generate a response right now. Please try again shortly.".

Definition long_answer : string :=
  "Start with the riskiest assumption, test it with five users, and record what you learn each week.".

(** Three providers: the first is down, the second answers too briefly,
    the third answers well. The provider state counts the calls made.
    Ethical assessments fall back on the first provider only. *)
Definition provider (model : AIModel) (prompt : string)
    (context : list (string * string)) (calls : nat) : PyResult string * nat :=
  match model with
  | GPT_4_TURBO => (Raise "503 upstream connect error: provider unavailable", S calls)
  | CLAUDE_3_SONNET => (Ok "ok", S calls)
  | _ => (Ok long_answer, S calls)
  end.

Definition long_enough (response : string) : PyResult bool :=
  Ok (50 <? String.length response)%nat.

#[global] Instance collaborators : Collaborators (list (string * string)) nat := {|
  route_strategy_audit := fun _ => GPT_4_TURBO;
  route_code_review := fun _ => GEMINI_PRO;
  route_creative_ideation := fun _ => GEMINI_PRO;
  route_ethical_assessment := fun _ => CLAUDE_3_SONNET;
  route_framework_alignment := fun _ => GPT_4_TURBO;
  route_real_time_tutoring := fun _ => CLAUDE_3_SONNET;
  route_default := fun _ => CLAUDE_3_SONNET;
  get_fallback_models := fun primary task_type =>
    if bool_decide (task_type = "ethical_assessment") then [GPT_4_TURBO]
    else List.filter (fun m => negb (bool_decide (m = primary)))
                     [GPT_4_TURBO; CLAUDE_3_SONNET; GEMINI_PRO];
  call_model := provider;
  generate_fallback_response := fun _ => apology;
  validate_strategy_response := long_enough;
  validate_code_response := long_enough;
  validate_creative_response := long_enough;
  validate_ethical_response := long_enough;
  banned_phrases := ["as an ai language model"; "i cannot help"];
  check_coherence := fun response =>
    if (50 <? String.length response)%nat then 0.875%float else 0.125%float;
  lower_non_ascii := fun _ character _ => character;
  get_latency := fun events => N.of_nat (List.length events)
|}.

Definition cached_answer : string :=
  "A stored answer: map your stakeholders first, then rank the nine pillars by evidence.".

(** A request that asks for the cache, and an orchestrator whose cache
    holds an answer under the request's fingerprint, whatever function of
    task type, prompt and context the fingerprint is. *)
Definition cache_wanted : list (string * string) := [("use_cache", "True")].

Definition warm (fingerprint : string → string → list (string * string) → string)
  : OState (World := nat) :=
  {| world := 0; trace := [];
     cache := {[ fingerprint "real_time_tutoring" "How do I start?" cache_wanted
                 := cached_answer ]} |}.

(** A long response that shouts a banned phrase, and one of exactly fifty
    characters, six of them outside ASCII. *)
Definition shouted : string :=
  "AS AN AI LANGUAGE MODEL I would rather not say how to start a venture.".

Definition fifty_characters : string :=
  "Début: hypothèse clé, testée auprès de cinq usagés".

Definition cold : OState (World := nat) :=
  {| world := 0; trace := []; cache := ∅ |}.

Definition no_breakers : Router.Registry :=
  {| Router.config_of := fun _ => Breaker.default_config; Router.breakers := ∅ |}.

Definition system (o : OState (World := nat)) : System.System :=
  {| System.orchestrator := o; System.registry := no_breakers;
     System.quotas := RateLimiter.no_quotas |}.

(** Two backends able to audit strategies, A cheap and B expensive, and
    one that cannot. *)
Definition backend_A : Router.Backend :=
  {| Router.id := "A"; Router.supports := fun t => bool_decide (t = "strategy_audit");
     Router.cost_per_unit := (1 # 1000)%Q; Router.max_output_size := 4096;
     Router.nominal_latency := 800 |}.

Definition backend_B : Router.Backend :=
  {| Router.id := "B"; Router.supports := fun _ => true;
     Router.cost_per_unit := (3 # 100)%Q; Router.max_output_size := 8192;
     Router.nominal_latency := 1500 |}.

Definition backend_C : Router.Backend :=
  {| Router.id := "C"; Router.supports := fun t => bool_decide (t = "code_review");
     Router.cost_per_unit := (1 # 100)%Q; Router.max_output_size := 4096;
     Router.nominal_latency := 500 |}.

Definition table : Router.Table :=
  {| Router.backends := [backend_B; backend_C; backend_A];
     Router.primary_of := fun _ => "A" |}.

(** Two more backends able to audit strategies: D costs as much as B and
    answers sooner, E is cheaper than both. *)
Definition backend_D : Router.Backend :=
  {| Router.id := "D"; Router.supports := fun t => bool_decide (t = "strategy_audit");
     Router.cost_per_unit := (3 # 100)%Q; Router.max_output_size := 4096;
     Router.nominal_latency := 900 |}.

Definition backend_E : Router.Backend :=
  {| Router.id := "E"; Router.supports := fun _ => true;
     Router.cost_per_unit := (5 # 1000)%Q; Router.max_output_size := 2048;
     Router.nominal_latency := 2000 |}.

Definition wide_table : Router.Table :=
  {| Router.backends := [backend_B; backend_C; backend_D; backend_A; backend_E];
     Router.primary_of := fun _ => "A" |}.

(** A registry in which A's breaker was opened at time 1000. *)
Definition A_open : Router.Registry :=
  {| Router.config_of := fun _ => Breaker.default_config;
     Router.breakers :=
       {[ "A" := {| Breaker.name := "A"; Breaker.state := Breaker.OPEN;
                    Breaker.consecutive_failures := 5;
                    Breaker.consecutive_successes_in_half_open := 0;
                    Breaker.opened_at := 1000;
                    Breaker.metrics :=
                      {| Breaker.total_calls := 5; Breaker.total_successes := 0;
                         Breaker.total_failures := 5 |} |} ]} |}.

(** Ten calls within the minute that starts at second 1200. *)
Definition burst : list N :=
  [1200; 1201; 1202; 1203; 1204; 1205; 1206; 1207; 1208; 1209]%N.

End Scenario.

(** ** Python's sorted and float comparisons *)

Module Py.

(** [sorted(l, key=...)] is stable: of two items with equal keys the one
    that came first stays first. [le x y] says that [x] may stand before
    [y]; an item is put in front of the first item it may stand before,
    and the items are put in from the last to the first. *)
Fixpoint insert {A : Type} (le : A → A → bool) (x : A) (l : list A) : list A :=
  match l with
  | [] => [x]
  | y :: l' => if le x y then x :: y :: l' else y :: insert le x l'
  end.

Definition sorted {A : Type} (le : A → A → bool) (l : list A) : list A :=
  foldr (insert le) [] l.

(** The place of a float that is a number in the order of the numbers:
    its sign class first, then exponent and mantissa, which count
    backwards for a negative number. The two zeros share a place. *)
Definition rank_sf (f : spec_float) : Z * Z * Z :=
  match f with
  | S754_nan | S754_zero _ => (0, 0, 0)%Z
  | S754_infinity true => (-2, 0, 0)%Z
  | S754_infinity false => (2, 0, 0)%Z
  | S754_finite false m e => (1, e, Z.pos m)%Z
  | S754_finite true m e => (-1, - e, Z.neg m)%Z
  end.

Definition rank (x : float) : Z * Z * Z := rank_sf (Prim2SF x).

Definition rank_lt (r s : Z * Z * Z) : Prop :=
  (r.1.1 < s.1.1
   ∨ (r.1.1 = s.1.1 ∧ (r.1.2 < s.1.2 ∨ (r.1.2 = s.1.2 ∧ r.2 < s.2))))%Z.

(** [min(a, b)] and [max(a, b)] on floats: the first argument is kept
    unless the second is strictly smaller (larger). *)
Definition min (a b : float) : float := if (b <? a)%float then b else a.

Definition max (a b : float) : float := if (a <? b)%float then b else a.

(** [d.get(key, default)] *)
Definition get {V : Type} (d : gmap string V) (key : string) (default : V) : V :=
  match d !! key with
  | Some v => v
  | None => default
  end.

End Py.

(** ** The learning analytics engine of analytics/learning_engine.py *)

Module Analytics.

#[local] Set Warnings "-inexact-float".

(** @dataclass LearningPattern *)
Record LearningPattern := {
  pattern_type : string;
  confidence : float;
  characteristics : gmap string bool;
  recommendations : list string;
  predicted_outcomes : gmap string float
}.

Definition rapid_prototyper : LearningPattern :=
  {| pattern_type := "rapid_prototyper";
     confidence := 0.85;
     characteristics :=
       list_to_map [("quick_start", true); ("high_iteration", true);
                    ("experimentation_focused", true)];
     recommendations :=
       ["Channel experimentation into structured validation";
        "Document learning from each iteration";
        "Schedule reflection sessions between prototypes"];
     predicted_outcomes :=
       list_to_map [("speed_score", 0.9); ("depth_score", 0.6);
                    ("completion_probability", 0.75)]%float |}.

Definition deep_thinker : LearningPattern :=
  {| pattern_type := "deep_thinker";
     confidence := 0.78;
     characteristics :=
       list_to_map [("thorough_planning", true); ("deliberate_action", true);
                    ("analysis_heavy", true)];
     recommendations :=
       ["Set time-bound planning phases";
        "Implement 'minimum viable action' approach";
        "Schedule weekly execution sprints"];
     predicted_outcomes :=
       list_to_map [("quality_score", 0.9); ("speed_score", 0.4);
                    ("completion_probability", 0.65)]%float |}.

Definition social_learner : LearningPattern :=
  {| pattern_type := "social_learner";
     confidence := 0.82;
     characteristics :=
       list_to_map [("high_collaboration", true); ("peer_feedback_seeking", true);
                    ("community_engaged", true)];
     recommendations :=
       ["Lead peer review sessions";
        "Document collaborative learnings";
        "Mentor newer learners"];
     predicted_outcomes :=
       list_to_map [("engagement_score", 0.95); ("network_growth", 0.8);
                    ("completion_probability", 0.85)]%float |}.

Definition needs_support : LearningPattern :=
  {| pattern_type := "needs_support";
     confidence := 0.7;
     characteristics :=
       list_to_map [("high_frustration", true); ("low_progress_rate", true);
                    ("frequent_help_seeking", true)];
     recommendations :=
       ["Schedule 1:1 coaching session";
        "Simplify current objectives";
        "Celebrate small wins"];
     predicted_outcomes :=
       list_to_map [("dropout_risk", 0.6); ("intervention_effectiveness", 0.9);
                    ("recovery_probability", 0.7)]%float |}.

(** The numeric features are binary64 floats; [a > b] is [b < a]. *)
Definition detect_learning_patterns (features : gmap string float)
  : list LearningPattern :=
  let patterns := [] in
  let patterns :=
    if (Py.get features "avg_time_to_first_submission" 100 <? 24)%float
       && (5 <? Py.get features "iteration_count" 0)%float
    then (patterns ++ [rapid_prototyper])%list else patterns in
  let patterns :=
    if (10 <? Py.get features "avg_research_time_before_action" 0)%float
       && (0.7 <? Py.get features "planning_to_execution_ratio" 0)%float
    then (patterns ++ [deep_thinker])%list else patterns in
  let patterns :=
    if (0.5 <? Py.get features "peer_interaction_rate" 0)%float
       && (0.7 <? Py.get features "collaboration_score" 0)%float
    then (patterns ++ [social_learner])%list else patterns in
  let patterns :=
    if (0.3 <? Py.get features "abandonment_rate" 0)%float
       || (0.5 <? Py.get features "help_request_frequency" 0)%float
    then (patterns ++ [needs_support])%list else patterns in
  patterns.

(** The keys [detect_learning_patterns] reads. *)
Definition pattern_features : list string :=
  ["avg_time_to_first_submission"; "iteration_count";
   "avg_research_time_before_action"; "planning_to_execution_ratio";
   "peer_interaction_rate"; "collaboration_score";
   "abandonment_rate"; "help_request_frequency"].

(** Methods of LearningAnalyticsEngine whose bodies the document leaves
    out: the statistical model behind [self.model.predict] and two
    helpers. [identify_weakest_pillar] returns a name or None. *)
Class Engine := {
  predict : gmap string float → gmap string float;
  calculate_pattern_adjustments : list LearningPattern → gmap string float;
  identify_weakest_pillar : gmap string float → option string
}.

Section WithEngine.

Context `{!Engine}.

Definition predict_learning_outcomes (features : gmap string float)
    (patterns : list LearningPattern) : gmap string float :=
  let base_predictions := predict features in
  let pattern_adjustments := calculate_pattern_adjustments patterns in
  let final_predictions :=
    map_imap (fun key base =>
                let adjustment := Py.get pattern_adjustments key 1%float in
                Some (base * adjustment)%float)
             base_predictions in
  (fun v => Py.max 0 (Py.min 1 v)) <$> final_predictions.








End WithEngine.

End Analytics.

(** ** The adaptive path generator of learning/adaptive_paths.py *)

Module Paths.

#[local] Set Warnings "-inexact-float".

(** @dataclass LearningNode *)
Record LearningNode := {
  id : string;
  node_type : string;
  difficulty : float;
  estimated_duration : Z;
  prerequisites : list string;
  competencies : list string;
  resources : list (gmap string string);
  metadata : gmap string string
}.

(** [key=lambda x: x.difficulty]: sorting compares keys with [<], and [a]
    may stand before [b] unless [b]'s key is less than [a]'s. *)
Definition by_difficulty (a b : LearningNode) : bool :=
  negb (difficulty b <? difficulty a)%float.

Definition sequence_sequential (nodes : list LearningNode) : list string :=
  let easy_nodes := List.filter (fun n => (difficulty n <? 0.3)%float) nodes in
  let medium_nodes :=
    List.filter (fun n => (0.3 <=? difficulty n)%float
                          && (difficulty n <? 0.7)%float) nodes in
  let hard_nodes := List.filter (fun n => (0.7 <=? difficulty n)%float) nodes in
  let easy_sorted := Py.sorted by_difficulty easy_nodes in
  let medium_sorted := Py.sorted by_difficulty medium_nodes in
  let hard_sorted := Py.sorted by_difficulty hard_nodes in
  let all_sorted := (easy_sorted ++ medium_sorted ++ hard_sorted)%list in
  id <$> all_sorted.

Definition has_type (t : string) (n : LearningNode) : bool :=
  bool_decide (node_type n = t).

Definition sequence_spiral (nodes : list LearningNode) : list string :=
  let core_nodes := List.filter (has_type "concept") nodes in
  let skill_nodes := List.filter (has_type "skill") nodes in
  let project_nodes := List.filter (has_type "project") nodes in
  let sequence := [] in
  let sequence :=
    (sequence
     ++ (id <$> List.filter (fun concept => (difficulty concept <? 0.4)%float)
                  core_nodes))%list in
  let sequence :=
    (sequence
     ++ (id <$> List.filter (fun skill => (difficulty skill <? 0.4)%float)
                  skill_nodes))%list in
  let sequence :=
    (sequence
     ++ (id <$> List.filter (fun project => (difficulty project <? 0.5)%float)
                  project_nodes))%list in
  let sequence :=
    (sequence
     ++ (id <$> List.filter (fun concept =>
                               (0.4 <=? difficulty concept)%float
                               && (difficulty concept <? 0.7)%float)
                  core_nodes))%list in
  sequence.

(** The nodes [sequence_spiral] has a place for. *)
Definition in_spiral (n : LearningNode) : bool :=
  (has_type "concept" n && (difficulty n <? 0.7)%float)
  || (has_type "skill" n && (difficulty n <? 0.4)%float)
  || (has_type "project" n && (difficulty n <? 0.5)%float).

(** The three sequencing methods of AdaptivePathGenerator whose bodies the
    document leaves out, and [score_path]: its weighted sum is over four
    scoring methods the document leaves out, and [select_best_path] only
    compares its results, so it is kept as a whole. A score is a finite
    float, taken as the rational it denotes; the constraints are only
    handed on. *)
Class Generator (Constraints : Type) := {
  score_path : list string → Constraints → Q;
  sequence_project_based : list LearningNode → list string;
  sequence_challenge_based : list LearningNode → list string;
  sequence_default : list LearningNode → list string
}.

Section WithGenerator.

Context {Constraints : Type} `{!Generator Constraints}.


Definition sequencing_strategies
  : gmap string (list LearningNode → list string) :=
  list_to_map [
    ("sequential", sequence_sequential);
    ("spiral", sequence_spiral);
    ("project_based", sequence_project_based);
    ("challenge_based", sequence_challenge_based)
  ].

Definition sequence_nodes (nodes : list LearningNode) (learning_style : string)
  : PyResult (list string) :=
  if has_key sequencing_strategies learning_style then
    strategy ←! getitem sequencing_strategies learning_style;
    Ok (strategy nodes)
  else
    Ok (sequence_default nodes).

End WithGenerator.

End Paths.

(** ** The real-time assistant of services/ai_assistant/main.py *)

Module Assistant.

Import Orchestrator.

#[local] Set Warnings "-register-all".

(** The values of [Dict[str, Any]] that arrive over the WebSocket. *)
Inductive Json :=
  | JNull
  | JBool (b : bool)
  | JNum (z : Z)
  | JStr (s : string)
  | JList (l : list Json)
  | JDict (d : list (string * Json)).

(** What [send_json] puts on a WebSocket, by its "type". *)
Inductive Frame :=
  | Message (role content timestamp : string)
  | StreamStart (task_type model : string)
  | StreamChunk (content timestamp : string)
  | StreamError (error : string)
  | StreamEnd (timestamp : string).

(** An entry of "message_history". *)
Record HistoryEntry := {
  role : string;
  content : Json;
  timestamp : string
}.

(** The dictionary kept per session in [self.session_contexts]. *)
Record SessionContext := {
  connected_at : string;
  message_history : list HistoryEntry;
  current_track : option string;
  user_context : gmap string Json
}.

Section WithWorld.

Context {World : Type}.

(** The assistant: a WebSocket is modelled by the frames sent on it. *)
Record AState := {
  active_sessions : gmap string (list Frame);
  session_contexts : gmap string SessionContext;
  orchestrator : OState (World := World)
}.

(** Methods of RealTimeAIAssistant whose bodies the document leaves out,
    the prompt engine, the evidence locker and the clock. The handlers act
    on the assistant as a whole; [stream_model] yields its chunks and may
    end by raising. *)
Class Helpers := {
  utcnow : World → string * World;
  classify_intent : Json → SessionContext → World → string * World;
  handle_strategy_chat : string → Json → AState → PyResult () * AState;
  handle_technical_chat : string → Json → AState → PyResult () * AState;
  handle_framework_chat : string → Json → AState → PyResult () * AState;
  handle_support_chat : string → Json → AState → PyResult () * AState;
  handle_general_chat : string → Json → AState → PyResult () * AState;
  handle_code_review : string → gmap string Json → AState → PyResult () * AState;
  handle_qc_audit : string → gmap string Json → AState → PyResult () * AState;
  handle_framework_guidance :
    string → gmap string Json → AState → PyResult () * AState;
  handle_execution_planning :
    string → gmap string Json → AState → PyResult () * AState;
  build_9_pillar_prompt : Json → Json → string;
  format_audit_report : Value → string;
  extract_next_steps : string → string;
  store_audit_evidence : string → string → Json → World → World;
  stream_model :
    AIModel → string → SessionContext → World → (list string * option string) * World
}.

Context `{!Helpers} `{!Collaborators SessionContext World}.

Definition with_world (w : World) (st : AState) : AState :=
  {| active_sessions := active_sessions st;
     session_contexts := session_contexts st;
     orchestrator := {| world := w; trace := trace (orchestrator st);
                        cache := cache (orchestrator st) |} |}.

(** [datetime.utcnow().isoformat()] *)
Definition now (st : AState) : string * AState :=
  let '(t, w) := utcnow (world (orchestrator st)) in (t, with_world w st).

(** [self.active_sessions[session_id].send_json(frame)] *)
Definition send_json (session_id : string) (frame : Frame) (st : AState) : AState :=
  {| active_sessions :=
       <[session_id := (Py.get (active_sessions st) session_id [] ++ [frame])%list]>
         (active_sessions st);
     session_contexts := session_contexts st;
     orchestrator := orchestrator st |}.

(** [context["message_history"] = history] *)
Definition set_history (history : list HistoryEntry) (context : SessionContext)
  : SessionContext :=
  {| connected_at := connected_at context; message_history := history;
     current_track := current_track context;
     user_context := user_context context |}.

Definition set_context (session_id : string) (context : SessionContext)
    (st : AState) : AState :=
  {| active_sessions := active_sessions st;
     session_contexts := <[session_id := context]> (session_contexts st);
     orchestrator := orchestrator st |}.

Definition send_message (session_id role content : string) (st : AState) : AState :=
  if has_key (active_sessions st) session_id then
    let '(t, st) := now st in
    let st := send_json session_id (Message role content t) st in
    match session_contexts st !! session_id with
    | Some context =>
        let '(t, st) := now st in
        set_context session_id
          (set_history
             (message_history context
              ++ [{| role := role; content := JStr content; timestamp := t |}])%list
             context)
          st
    | None => st
    end
  else st.

Definition welcome : string :=
  "🤖 **Actionuity AI Assistant Connected**

I'm here to help you execute your innovation journey. How can I assist you today?".

(** [connect]: the accepted WebSocket has nothing sent on it yet. *)
Definition connect (session_id : string) (st : AState) : AState :=
  let st :=
    {| active_sessions := <[session_id := []]> (active_sessions st);
       session_contexts := session_contexts st;
       orchestrator := orchestrator st |} in
  let '(t, st) := now st in
  let st :=
    set_context session_id
      {| connected_at := t; message_history := []; current_track := None;
         user_context := ∅ |} st in
  send_message session_id "system" welcome st.

(** Lines 352 to 364 of [handle_chat_message]: the user's message joins the
    history, which is cut to its last 20 entries. *)
Definition record_user_message (session_id : string) (message : gmap string Json)
    (st : AState) : PyResult Json * AState :=
  let user_message := Py.get message "content" (JStr "") in
  match session_contexts st !! session_id with
  | None => (Raise "KeyError", st)
  | Some context =>
      let '(t, st) := now st in
      let history :=
        (message_history context
         ++ [{| role := "user"; content := user_message; timestamp := t |}])%list in
      let history :=
        if (20 <? length history)%nat
        then drop (length history - 20) history else history in
      (Ok user_message, set_context session_id (set_history history context) st)
  end.

(** Lines 366 to 378 of [handle_chat_message]. *)
Definition respond_by_intent (session_id : string) (user_message : Json)
    (st : AState) : PyResult () * AState :=
  match session_contexts st !! session_id with
  | None => (Raise "KeyError", st)
  | Some context =>
      let '(intent, w) :=
        classify_intent user_message context (world (orchestrator st)) in
      let st := with_world w st in
      if bool_decide (intent = "strategy_question") then
        handle_strategy_chat session_id user_message st
      else if bool_decide (intent = "technical_question") then
        handle_technical_chat session_id user_message st
      else if bool_decide (intent = "framework_question") then
        handle_framework_chat session_id user_message st
      else if bool_decide (intent = "emotional_support") then
        handle_support_chat session_id user_message st
      else
        handle_general_chat session_id user_message st
  end.

Definition handle_chat_message (session_id : string) (message : gmap string Json)
    (st : AState) : PyResult () * AState :=
  match record_user_message session_id message st with
  | (Raise e, st) => (Raise e, st)
  | (Ok user_message, st) => respond_by_intent session_id user_message st
  end.

Definition audit_started : string :=
  "🔍 **Initiating 9-Pillar Strategy Audit**

Analyzing your project against Actionuity's framework...".

Definition audit_failed : string :=
  "Unable to complete strategy audit at this time. Please try again or contact support.".

Definition next_steps_message (next_steps : string) : string :=
  "## 🎯 Recommended Next Steps

" +:+ next_steps.

(** [project_data.get("id")]: only a dictionary has [get]. *)
Definition json_get (d : Json) (key : string) : PyResult Json :=
  match d with
  | JDict entries =>
      Ok (from_option id JNull
            (snd <$> List.find (fun kv => bool_decide (fst kv = key)) (reverse entries)))
  | _ => Raise "AttributeError"
  end.

(** [if result["success"]:] *)
Definition is_true (v : Value) : bool :=
  match v with
  | VBool b => b
  | VStr s => negb (bool_decide (s = ""))
  | VNum n => negb (bool_decide (n = 0%N))
  end.

Definition handle_strategy_audit (session_id : string) (message : gmap string Json)
    (st : AState) : PyResult () * AState :=
  let project_data := Py.get message "project_data" (JDict []) in
  match session_contexts st !! session_id with
  | None => (Raise "KeyError", st)
  | Some _ =>
      let st := send_message session_id "system" audit_started st in
      let prompt :=
        build_9_pillar_prompt project_data (Py.get message "focus_pillars" JNull) in
      (* context is the session's dictionary, as it is now *)
      match session_contexts st !! session_id with
      | None => (Raise "KeyError", st)
      | Some context =>
          let '(called, o) :=
            process_with_fallback prompt "strategy_audit" context (orchestrator st) in
          let st :=
            {| active_sessions := active_sessions st;
               session_contexts := session_contexts st; orchestrator := o |} in
          match called with
          | Raise e => (Raise e, st)
          | Ok result =>
              match getitem result "success" with
              | Raise e => (Raise e, st)
              | Ok success =>
                  if is_true success then
                    match getitem result "response" with
                    | Raise e => (Raise e, st)
                    | Ok response =>
                        let audit_report := format_audit_report response in
                        let st := send_message session_id "assistant" audit_report st in
                        match json_get project_data "id" with
                        | Raise e => (Raise e, st)
                        | Ok project_id =>
                            let st :=
                              with_world
                                (store_audit_evidence session_id audit_report
                                   project_id (world (orchestrator st))) st in
                            let next_steps := extract_next_steps audit_report in
                            (Ok (),
                             send_message session_id "assistant"
                               (next_steps_message next_steps) st)
                        end
                    end
                  else
                    (Ok (), send_message session_id "error" audit_failed st)
              end
          end
      end
  end.

Definition handlers
  : gmap string (string → gmap string Json → AState → PyResult () * AState) :=
  list_to_map [
    ("chat", handle_chat_message);
    ("strategy_audit", handle_strategy_audit);
    ("code_review", handle_code_review);
    ("qc_audit_request", handle_qc_audit);
    ("framework_guidance", handle_framework_guidance);
    ("execution_planning", handle_execution_planning)
  ].

Definition message_types : list string :=
  ["chat"; "strategy_audit"; "code_review"; "qc_audit_request";
   "framework_guidance"; "execution_planning"].

(** [message_type in handlers] hashes the type: a list or a dictionary
    raises TypeError, any other value that is not a string is no key. *)
Definition handle_message (session_id : string) (message : gmap string Json)
    (st : AState) : PyResult () * AState :=
  let message_type := Py.get message "type" (JStr "chat") in
  match message_type with
  | JList _ | JDict _ => (Raise "TypeError", st)
  | JStr name =>
      if has_key handlers name then
        match getitem handlers name with
        | Raise e => (Raise e, st)
        | Ok handler => handler session_id message st
        end
      else handle_chat_message session_id message st
  | _ => handle_chat_message session_id message st
  end.

(** The loop of [stream_response]: one frame per chunk, each with the time
    it is sent at. The chunks are those the loop got before the stream
    ended or something was raised in the loop, be it by the stream or by a
    cancellation at one of its awaits. *)
Fixpoint send_chunks (session_id : string) (chunks : list string) (st : AState)
  : AState :=
  match chunks with
  | [] => st
  | chunk :: rest =>
      let '(t, st) := now st in
      send_chunks session_id rest (send_json session_id (StreamChunk chunk t) st)
  end.

Definition stream_response (session_id prompt task_type : string)
    (context : SessionContext) (st : AState) : PyResult () * AState :=
  if has_key (active_sessions st) session_id then
    match route_request task_type context with
    | Raise e => (Raise e, st)
    | Ok model =>
        let st := send_json session_id (StreamStart task_type (value model)) st in
        let '((chunks, raised), w) :=
          stream_model model prompt context (world (orchestrator st)) in
        let st := send_chunks session_id chunks (with_world w st) in
        (* except Exception as e: *)
        let st :=
          match raised with
          | Some e =>
              if is_exception e then send_json session_id (StreamError e) st
              else st
          | None => st
          end in
        (* finally: *)
        let '(t, st) := now st in
        let st := send_json session_id (StreamEnd t) st in
        match raised with
        | Some e => if is_exception e then (Ok (), st) else (Raise e, st)
        | None => (Ok (), st)
        end
    end
  else (Raise "KeyError", st).

End WithWorld.

End Assistant.

(** ** The collaboration mediator of collaboration/ai_mediator.py *)

Module Mediator.

Import Orchestrator.

(** The message dictionary that [process_collaboration_message] builds and
    hands on as [artifact]. *)
Record Artifact := {
  artifact_id : string;
  artifact_type : string;
  user_id : string;
  artifact_content : string;
  analysis : Assistant.Json;
  artifact_timestamp : string
}.

(** The dictionary [generate_ai_response] returns; "content" and "model"
    are taken from the orchestrator's result as they are. *)
Record Suggestion := {
  suggestion_type : string;
  suggestion_content : Value;
  suggestion_model : Value;
  suggestion_timestamp : string;
  triggers : list string
}.

(** @dataclass CollaborationSession; a datetime is held as its
    [isoformat()]. *)
Record CollaborationSession := {
  session_id : string;
  crew_id : string;
  participants : list string;
  focus_area : string;
  artifacts : list Artifact;
  ai_suggestions : list Suggestion;
  started_at : string;
  last_activity : string
}.

(** The [context] dictionaries the mediator hands to the orchestrator:
    "session" always, "artifact" from [generate_ai_response] only. *)
Record Context := {
  session : CollaborationSession;
  artifact : option Artifact
}.

(** The values of the dictionary [create_session_summary] returns. *)
Inductive Field :=
  | FStr (s : string)
  | FValue (v : Value)
  | FStrs (l : list string)
  | FDicts (l : list (gmap string Assistant.Json)).

Definition quote : string := String "034"%char EmptyString.
Definition newline : string := String "010"%char EmptyString.

(** [sep.join(parts)] *)
Definition join (sep : string) (parts : list string) : string :=
  match parts with
  | [] => EmptyString
  | part :: rest => foldl (fun joined p => joined +:+ sep +:+ p) part rest
  end.

(** A generator expression consumed to its end: the first element whose
    body raises ends it. *)
Fixpoint py_map {A B} (f : A → PyResult B) (l : list A) : PyResult (list B) :=
  match l with
  | [] => Ok []
  | x :: rest => y ←! f x; ys ←! py_map f rest; Ok (y :: ys)
  end.

(** [str(dt)] of a datetime is its [isoformat] with a space for the T. *)
Fixpoint datetime_str (iso : string) : string :=
  match iso with
  | EmptyString => EmptyString
  | String c rest =>
      String (if Ascii.eqb c "T"%char then " "%char else c) (datetime_str rest)
  end.

Section WithWorld.

Context {World : Type}.

(** Methods of AICollaborationMediator whose bodies the document leaves
    out, the clock, and Python's own formatting of a string ([repr]) and
    of a dictionary value inside an f-string. The three methods that
    [generate_ai_response] calls outside any handler may raise. *)
Class Facilitator := {
  utcnow : World → string * World;
  should_ai_respond :
    Artifact → CollaborationSession → World → PyResult bool * World;
  determine_response_type : Artifact → CollaborationSession → PyResult string;
  build_synthesis_prompt : Artifact → CollaborationSession → string;
  build_question_prompt : Artifact → CollaborationSession → string;
  build_suggestion_prompt : Artifact → CollaborationSession → string;
  build_conflict_resolution_prompt : Artifact → CollaborationSession → string;
  build_default_prompt : Artifact → CollaborationSession → string;
  get_recent_context : CollaborationSession → nat → string;
  extract_response_triggers : Value → PyResult (list string);
  repr : string → string;
  format_value : Assistant.Json → string
}.

Context `{!Facilitator} `{!Collaborators Context World}.

Definition set_world (w : World) (st : OState (World := World))
  : OState (World := World) :=
  {| world := w; trace := trace st; cache := cache st |}.

Definition build_facilitation_prompt (artifact : Artifact)
    (session : CollaborationSession) : string :=
  "You are facilitating a collaborative learning session.

SESSION CONTEXT:
Focus Area: " +:+ focus_area session +:+ "
Participants: " +:+ pretty (length (participants session)) +:+ " crew members
Recent Activity: " +:+ pretty (length (artifacts session)) +:+ " artifacts created

NEW MESSAGE FROM PARTICIPANT:
" +:+ artifact_content artifact +:+ "

PREVIOUS DISCUSSION CONTEXT:
" +:+ get_recent_context session 5 +:+ "

YOUR ROLE: FACILITATOR

Your task is to:
1. Acknowledge the contribution
2. Connect it to previous discussion
3. Ask a question to deepen the conversation
4. Suggest a concrete next step

Guidelines:
- Keep it brief (2-3 sentences max)
- Use inclusive language (" +:+ quote +:+ "we" +:+ quote +:+ ", "
  +:+ quote +:+ "our" +:+ quote +:+ ")
- Be encouraging but focused
- Reference specific ideas from the discussion
- End with a clear question or action

Format your response as a natural conversation facilitator would speak.
".

Definition prompts : gmap string (Artifact → CollaborationSession → string) :=
  list_to_map [
    ("facilitation", build_facilitation_prompt);
    ("synthesis", build_synthesis_prompt);
    ("question", build_question_prompt);
    ("suggestion", build_suggestion_prompt);
    ("conflict_resolution", build_conflict_resolution_prompt)
  ].

Definition build_collaboration_prompt (artifact : Artifact)
    (session : CollaborationSession) (response_type : string) : PyResult string :=
  if has_key prompts response_type then
    build ←! getitem prompts response_type;
    Ok (build artifact session)
  else
    Ok (build_default_prompt artifact session).

Definition generate_ai_response (artifact : Artifact)
    (session : CollaborationSession) (st : OState)
  : PyResult (option Suggestion) * OState :=
  let '(should_respond, w) := should_ai_respond artifact session (world st) in
  let st := set_world w st in
  match should_respond with
  | Raise e => (Raise e, st)
  | Ok false => (Ok None, st)
  | Ok true =>
      match determine_response_type artifact session with
      | Raise e => (Raise e, st)
      | Ok response_type =>
          match build_collaboration_prompt artifact session response_type with
          | Raise e => (Raise e, st)
          | Ok prompt =>
              let '(called, st) :=
                process_with_fallback prompt "collaboration_facilitation"
                  {| session := session; artifact := Some artifact |} st in
              match called with
              | Raise e => (Raise e, st)
              | Ok response =>
                  match getitem response "success" with
                  | Raise e => (Raise e, st)
                  | Ok success =>
                      if Assistant.is_true success then
                        match getitem response "response",
                              getitem response "model" with
                        | Raise e, _ | Ok _, Raise e => (Raise e, st)
                        | Ok content, Ok model =>
                            let '(t, w) := utcnow (world st) in
                            let st := set_world w st in
                            match extract_response_triggers content with
                            | Raise e => (Raise e, st)
                            | Ok found =>
                                (Ok (Some {| suggestion_type := response_type;
                                             suggestion_content := content;
                                             suggestion_model := model;
                                             suggestion_timestamp := t;
                                             triggers := found |}),
                                 st)
                            end
                        end
                      else (Ok None, st)
                  end
              end
          end
      end
  end.

(** The lines under DECISIONS MADE and ACTION ITEMS: a dictionary without
    the key read raises KeyError. *)
Definition decision_line (d : gmap string Assistant.Json) : PyResult string :=
  description ←! getitem d "description";
  Ok ("- " +:+ format_value description).

Definition action_line (a : gmap string Assistant.Json) : PyResult string :=
  description ←! getitem a "description";
  owner ←! getitem a "owner";
  due_date ←! getitem a "due_date";
  Ok ("- " +:+ format_value description +:+ " (Owner: " +:+ format_value owner
      +:+ ", Due: " +:+ format_value due_date +:+ ")").

(** The f-string of [create_session_summary], with the clock already read
    as [now]. *)
Definition summary_prompt (session : CollaborationSession) (now : string)
    (key_points : list string) (decisions action_items : list (gmap string Assistant.Json))
  : PyResult string :=
  decision_lines ←! py_map decision_line decisions;
  action_lines ←! py_map action_line action_items;
  Ok ("Create a comprehensive summary of this collaboration session.

SESSION DETAILS:
Focus: " +:+ focus_area session +:+ "
Duration: " +:+ datetime_str (started_at session) +:+ " to " +:+ datetime_str now +:+ "
Participants: [" +:+ join ", " (repr <$> participants session) +:+ "]

KEY POINTS IDENTIFIED:
" +:+ join newline ((fun point => "- " +:+ point) <$> key_points) +:+ "

DECISIONS MADE:
" +:+ join newline decision_lines +:+ "

ACTION ITEMS:
" +:+ join newline action_lines +:+ "

Please create a structured summary including:
1. Executive Overview (2-3 sentences)
2. Key Insights & Learnings
3. Decisions & Rationale
4. Action Plan with Owners & Deadlines
5. Next Session Preparation Items
6. Recommended Follow-up Resources

Format in markdown with clear sections and bullet points.
").

Definition summary_failed : string :=
  "Session summary generation failed. Please review artifacts manually.".

Definition create_session_summary (session : CollaborationSession)
    (key_points : list string)
    (decisions action_items : list (gmap string Assistant.Json)) (st : OState)
  : PyResult (gmap string Field) * OState :=
  let '(t, w) := utcnow (world st) in
  let st := set_world w st in
  match summary_prompt session t key_points decisions action_items with
  | Raise e => (Raise e, st)
  | Ok prompt =>
      let '(called, st) :=
        process_with_fallback prompt "document_synthesis"
          {| session := session; artifact := None |} st in
      match called with
      | Raise e => (Raise e, st)
      | Ok response =>
          match getitem response "success" with
          | Raise e => (Raise e, st)
          | Ok success =>
              if Assistant.is_true success then
                match getitem response "response" with
                | Raise e => (Raise e, st)
                | Ok summary =>
                    let '(t, w) := utcnow (world st) in
                    (Ok (list_to_map [
                           ("session_id", FStr (session_id session));
                           ("summary", FValue summary);
                           ("key_points", FStrs key_points);
                           ("decisions", FDicts decisions);
                           ("action_items", FDicts action_items);
                           ("created_at", FStr t);
                           ("participants", FStrs (participants session));
                           ("focus_area", FStr (focus_area session))
                         ]),
                     set_world w st)
                end
              else
                let '(t, w) := utcnow (world st) in
                (Ok (list_to_map [
                       ("session_id", FStr (session_id session));
                       ("summary", FValue (VStr summary_failed));
                       ("key_points", FStrs key_points);
                       ("decisions", FDicts decisions);
                       ("action_items", FDicts action_items);
                       ("created_at", FStr t)
                     ]),
                 set_world w st)
          end
      end
  end.

End WithWorld.

End Mediator.

(** ** Small instances to run the definitions on *)

Module Examples.

#[local] Set Warnings "-inexact-float".

(** A generator that prefers short paths. *)
Definition shortest_first : Paths.Generator unit := {|
  Paths.score_path := fun path _ => (1 # Pos.of_succ_nat (length path))%Q;
  Paths.sequence_project_based := fun nodes => Paths.id <$> nodes;
  Paths.sequence_challenge_based := fun nodes => Paths.id <$> reverse nodes;
  Paths.sequence_default := fun nodes => Paths.id <$> nodes
|}.

(** An engine whose model is sure of completion and whose adjustment
    doubles it. *)
Definition engine : Analytics.Engine := {|
  Analytics.predict := fun _ =>
    list_to_map [("completion_probability", 0.9); ("dropout_risk", 0.2)]%float;
  Analytics.calculate_pattern_adjustments := fun _ =>
    {[ "completion_probability" := 2%float ]};
  Analytics.identify_weakest_pillar := fun _ => Some "Evidence"
|}.

(** Two providers that never give a valid answer, behind an assistant
    whose clock always reads the same and whose model stream breaks off
    after two chunks. *)
Definition failing_provider (model : Orchestrator.AIModel) (prompt : string)
    (context : Assistant.SessionContext) (calls : nat) : PyResult string * nat :=
  match model with
  | Orchestrator.GPT_4_TURBO => (Raise "429 rate limit exceeded at provider", S calls)
  | _ => (Ok "n/a", S calls)
  end.

Definition failing_collaborators
  : Orchestrator.Collaborators Assistant.SessionContext nat := {|
  Orchestrator.route_strategy_audit := fun _ => Orchestrator.GPT_4_TURBO;
  Orchestrator.route_code_review := fun _ => Orchestrator.GPT_4_TURBO;
  Orchestrator.route_creative_ideation := fun _ => Orchestrator.GPT_4_TURBO;
  Orchestrator.route_ethical_assessment := fun _ => Orchestrator.GPT_4_TURBO;
  Orchestrator.route_framework_alignment := fun _ => Orchestrator.GPT_4_TURBO;
  Orchestrator.route_real_time_tutoring := fun _ => Orchestrator.GPT_4_TURBO;
  Orchestrator.route_default := fun _ => Orchestrator.CLAUDE_3_SONNET;
  Orchestrator.get_fallback_models := fun _ _ => [Orchestrator.CLAUDE_3_SONNET];
  Orchestrator.call_model := failing_provider;
  Orchestrator.generate_fallback_response := fun _ => "Please try again later.";
  Orchestrator.validate_strategy_response := Scenario.long_enough;
  Orchestrator.validate_code_response := Scenario.long_enough;
  Orchestrator.validate_creative_response := Scenario.long_enough;
  Orchestrator.validate_ethical_response := Scenario.long_enough;
  Orchestrator.banned_phrases := [];
  Orchestrator.check_coherence := fun _ => 0.875%float;
  Orchestrator.lower_non_ascii := fun _ character _ => character;
  Orchestrator.get_latency := fun events => N.of_nat (length events)
|}.

Definition helpers : Assistant.Helpers (World := nat) := {|
  Assistant.utcnow := fun w => ("2025-12-23T10:00:00", w);
  Assistant.classify_intent := fun _ _ w => ("general", w);
  Assistant.handle_strategy_chat := fun _ _ st => (Ok (), st);
  Assistant.handle_technical_chat := fun _ _ st => (Ok (), st);
  Assistant.handle_framework_chat := fun _ _ st => (Ok (), st);
  Assistant.handle_support_chat := fun _ _ st => (Ok (), st);
  Assistant.handle_general_chat := fun _ _ st => (Ok (), st);
  Assistant.handle_code_review := fun _ _ st => (Ok (), st);
  Assistant.handle_qc_audit := fun _ _ st => (Ok (), st);
  Assistant.handle_framework_guidance := fun _ _ st => (Ok (), st);
  Assistant.handle_execution_planning := fun _ _ st => (Ok (), st);
  Assistant.build_9_pillar_prompt := fun _ _ => "Audit the project.";
  Assistant.format_audit_report := fun _ => "report";
  Assistant.extract_next_steps := fun _ => "next";
  Assistant.store_audit_evidence := fun _ _ _ w => w;
  Assistant.stream_model := fun _ _ _ w => ((["Hel"; "lo"], Some "stream broken"), w)
|}.

(** The same assistant behind a stream that is cancelled after its first
    chunk. *)
Definition cancelled_stream : Assistant.Helpers (World := nat) := {|
  Assistant.utcnow := fun w => ("2025-12-23T10:00:00", w);
  Assistant.classify_intent := fun _ _ w => ("general", w);
  Assistant.handle_strategy_chat := fun _ _ st => (Ok (), st);
  Assistant.handle_technical_chat := fun _ _ st => (Ok (), st);
  Assistant.handle_framework_chat := fun _ _ st => (Ok (), st);
  Assistant.handle_support_chat := fun _ _ st => (Ok (), st);
  Assistant.handle_general_chat := fun _ _ st => (Ok (), st);
  Assistant.handle_code_review := fun _ _ st => (Ok (), st);
  Assistant.handle_qc_audit := fun _ _ st => (Ok (), st);
  Assistant.handle_framework_guidance := fun _ _ st => (Ok (), st);
  Assistant.handle_execution_planning := fun _ _ st => (Ok (), st);
  Assistant.build_9_pillar_prompt := fun _ _ => "Audit the project.";
  Assistant.format_audit_report := fun _ => "report";
  Assistant.extract_next_steps := fun _ => "next";
  Assistant.store_audit_evidence := fun _ _ _ w => w;
  Assistant.stream_model := fun _ _ _ w => ((["Hel"], Some "CancelledError"), w)
|}.

(** Five lessons, one of them with a difficulty that is not a number. *)
Definition lesson (id node_type : string) (difficulty : float)
  : Paths.LearningNode :=
  {| Paths.id := id; Paths.node_type := node_type;
     Paths.difficulty := difficulty; Paths.estimated_duration := 30;
     Paths.prerequisites := []; Paths.competencies := [];
     Paths.resources := []; Paths.metadata := ∅ |}.

Definition lessons : list Paths.LearningNode :=
  [lesson "loops" "concept" 0.8; lesson "intro" "concept" 0.1;
   lesson "broken" "concept" (0 / 0); lesson "drill" "skill" 0.35;
   lesson "types" "concept" 0.5]%float.

Definition nobody : Assistant.AState (World := nat) :=
  {| Assistant.active_sessions := ∅; Assistant.session_contexts := ∅;
     Assistant.orchestrator :=
       {| Orchestrator.world := 0; Orchestrator.trace := [];
          Orchestrator.cache := ∅ |} |}.

(** One connected session. *)
Definition one_session : Assistant.AState (World := nat) :=
  Assistant.connect (H := helpers) "s1" nobody.

Definition no_context : Assistant.SessionContext :=
  {| Assistant.connected_at := ""; Assistant.message_history := [];
     Assistant.current_track := None; Assistant.user_context := ∅ |}.

Definition clock_reading : string := "2025-12-23T10:00:00".

(** The context of a session that has only been welcomed. *)
Definition welcomed : Assistant.SessionContext :=
  {| Assistant.connected_at := clock_reading;
     Assistant.message_history :=
       [{| Assistant.role := "system";
           Assistant.content := Assistant.JStr Assistant.welcome;
           Assistant.timestamp := clock_reading |}];
     Assistant.current_track := None; Assistant.user_context := ∅ |}.

(** A mediator that answers everybody but the observer, in front of
    providers that always answer at length. *)
Definition facilitator : Mediator.Facilitator (World := nat) := {|
  Mediator.utcnow := fun w => (clock_reading, w);
  Mediator.should_ai_respond := fun a _ w =>
    (Ok (negb (bool_decide (Mediator.user_id a = "observer"))), w);
  Mediator.determine_response_type := fun _ _ => Ok "facilitation";
  Mediator.build_synthesis_prompt := fun _ _ => "Synthesize the discussion.";
  Mediator.build_question_prompt := fun _ _ => "Ask a question.";
  Mediator.build_suggestion_prompt := fun _ _ => "Suggest a next step.";
  Mediator.build_conflict_resolution_prompt := fun _ _ => "Resolve the conflict.";
  Mediator.build_default_prompt := fun _ _ => "Respond to the message.";
  Mediator.get_recent_context := fun _ _ => "(nothing yet)";
  Mediator.extract_response_triggers := fun _ => Ok ["next step"];
  Mediator.repr := fun s => "'" +:+ s +:+ "'";
  Mediator.format_value := fun v =>
    match v with Assistant.JStr s => s | _ => "None" end
|}.

Definition answer : string :=
  "Great point. Let us connect it to the earlier idea and pick one next step.".

Definition answering_collaborators
  : Orchestrator.Collaborators Mediator.Context nat := {|
  Orchestrator.route_strategy_audit := fun _ => Orchestrator.GPT_4_TURBO;
  Orchestrator.route_code_review := fun _ => Orchestrator.GPT_4_TURBO;
  Orchestrator.route_creative_ideation := fun _ => Orchestrator.GPT_4_TURBO;
  Orchestrator.route_ethical_assessment := fun _ => Orchestrator.GPT_4_TURBO;
  Orchestrator.route_framework_alignment := fun _ => Orchestrator.GPT_4_TURBO;
  Orchestrator.route_real_time_tutoring := fun _ => Orchestrator.GPT_4_TURBO;
  Orchestrator.route_default := fun _ => Orchestrator.CLAUDE_3_SONNET;
  Orchestrator.get_fallback_models := fun _ _ => [Orchestrator.GPT_4_TURBO];
  Orchestrator.call_model := fun _ _ _ calls => (Ok answer, S calls);
  Orchestrator.generate_fallback_response := fun _ => "Please try again later.";
  Orchestrator.validate_strategy_response := Scenario.long_enough;
  Orchestrator.validate_code_response := Scenario.long_enough;
  Orchestrator.validate_creative_response := Scenario.long_enough;
  Orchestrator.validate_ethical_response := Scenario.long_enough;
  Orchestrator.banned_phrases := ["as an ai"];
  Orchestrator.check_coherence := fun _ => 0.875%float;
  Orchestrator.lower_non_ascii := fun _ character _ => character;
  Orchestrator.get_latency := fun events => N.of_nat (length events)
|}.

Definition crew_session : Mediator.CollaborationSession :=
  {| Mediator.session_id := "collab_crew7_0a1b2c3d"; Mediator.crew_id := "crew7";
     Mediator.participants := ["ada"; "lin"];
     Mediator.focus_area := "Evidence gathering";
     Mediator.artifacts := []; Mediator.ai_suggestions := [];
     Mediator.started_at := clock_reading; Mediator.last_activity := clock_reading |}.

Definition idea (user_id : string) : Mediator.Artifact :=
  {| Mediator.artifact_id := "7f9c"; Mediator.artifact_type := "message";
     Mediator.user_id := user_id;
     Mediator.artifact_content := "Interview five users first";
     Mediator.analysis := Assistant.JNull;
     Mediator.artifact_timestamp := clock_reading |}.

Definition fresh : Orchestrator.OState (World := nat) :=
  {| Orchestrator.world := 0; Orchestrator.trace := []; Orchestrator.cache := ∅ |}.

(** What the mediator answers to ada's idea. *)
Definition ada_suggestion : Mediator.Suggestion :=
  {| Mediator.suggestion_type := "facilitation";
     Mediator.suggestion_content := Orchestrator.VStr answer;
     Mediator.suggestion_model := Orchestrator.VStr "claude-3-sonnet-20240229";
     Mediator.suggestion_timestamp := clock_reading;
     Mediator.triggers := ["next step"] |}.

(** Providers whose call is cancelled while it is awaited. *)
Definition cancelled_collaborators
  : Orchestrator.Collaborators (list (string * string)) nat := {|
  Orchestrator.route_strategy_audit := fun _ => Orchestrator.GPT_4_TURBO;
  Orchestrator.route_code_review := fun _ => Orchestrator.GEMINI_PRO;
  Orchestrator.route_creative_ideation := fun _ => Orchestrator.GEMINI_PRO;
  Orchestrator.route_ethical_assessment := fun _ => Orchestrator.CLAUDE_3_SONNET;
  Orchestrator.route_framework_alignment := fun _ => Orchestrator.GPT_4_TURBO;
  Orchestrator.route_real_time_tutoring := fun _ => Orchestrator.CLAUDE_3_SONNET;
  Orchestrator.route_default := fun _ => Orchestrator.CLAUDE_3_SONNET;
  Orchestrator.get_fallback_models := fun _ _ => [Orchestrator.GPT_4_TURBO];
  Orchestrator.call_model := fun _ _ _ calls => (Raise "CancelledError", S calls);
  Orchestrator.generate_fallback_response := fun _ => Scenario.apology;
  Orchestrator.validate_strategy_response := Scenario.long_enough;
  Orchestrator.validate_code_response := Scenario.long_enough;
  Orchestrator.validate_creative_response := Scenario.long_enough;
  Orchestrator.validate_ethical_response := Scenario.long_enough;
  Orchestrator.banned_phrases := [];
  Orchestrator.check_coherence := fun _ => 0.875%float;
  Orchestrator.lower_non_ascii := fun _ character _ => character;
  Orchestrator.get_latency := fun events => N.of_nat (length events)
|}.

End Examples.

(** * Properties *)

(** ** Routing and validation in core.py *)

Module OrchestratorFacts.

Import Orchestrator.

Section WithCollaborators.

Context {PyDict World : Type} `{!Collaborators PyDict World}.

Lemma has_key_getitem {V} (d : gmap string V) (key : string) :
  has_key d key = true → ∃ v, getitem d key = Ok v.
Proof.
  unfold has_key, getitem. intros Hk.
  apply bool_decide_eq_true in Hk as [v Hv]. rewrite Hv. by exists v.
Qed.

Lemma has_key_false {V} (d : gmap string V) (key : string) :
  d !! key = None → has_key d key = false.
Proof.
  intros Hnone. unfold has_key. apply bool_decide_eq_false.
  rewrite Hnone. by intros [v ?].
Qed.

Lemma routing_rules_unknown (task_type : string) :
  task_type ∉ known_task_types → routing_rules !! task_type = None.
Proof.
  intros Hnot. unfold routing_rules. apply not_elem_of_list_to_map_1.
  simpl. exact Hnot.
Qed.

Lemma validators_unknown (task_type : string) :
  task_type ∉ validated_task_types → validators !! task_type = None.
Proof.
  intros Hnot. unfold validators. apply not_elem_of_list_to_map_1.
  simpl. exact Hnot.
Qed.

Lemma route_request_total (task_type : string) (context : PyDict) :
  ∃ model, route_request task_type context = Ok model.
Proof.
  unfold route_request. destruct (has_key routing_rules task_type) eqn:Hk.
  - destruct (has_key_getitem _ _ Hk) as [rule Hrule]. rewrite Hrule. simpl. eauto.
  - eauto.
Qed.

(** C10: every task type string gets a model from [route_request], with
    no key miss on [routing_rules]; a task type outside the six routing
    keys is served by [route_default]. *)
Theorem route_request_unknown_default (task_type : string) (context : PyDict) :
  ∃ model,
    route_request task_type context = Ok model
    ∧ (task_type ∉ known_task_types → model = route_default context).
Proof.
  destruct (route_request_total task_type context) as [model Hm].
  exists model. split; [exact Hm|].
  intros Hnot. unfold route_request in Hm.
  rewrite (has_key_false _ _ (routing_rules_unknown _ Hnot)) in Hm.
  by inversion Hm.
Qed.

Lemma len_ascii_only (s : string) :
  ascii_only s = true → len s = String.length s.
Proof.
  induction s as [|c s IH]; simpl; [done|].
  intros [Hc Hs]%andb_prop. rewrite (IH Hs). unfold continues.
  apply Nat.ltb_lt in Hc.
  destruct (128 <=? nat_of_ascii c)%nat eqn:Hge; [|done].
  apply Nat.leb_le in Hge. lia.
Qed.

Lemma lower_from_ascii_only (before s : string) :
  ascii_only s = true → lower_from before s = lower_ascii_text s.
Proof.
  revert before. induction s as [|c s IH]; intros before; simpl; [done|].
  intros [Hc Hs]%andb_prop. rewrite Hc. by rewrite IH.
Qed.

(** C8: for a task type without a validator of its own, a response is
    accepted exactly when it is longer than 50 characters, its lowercased
    text contains none of the banned phrases, and its coherence score is
    above 0.7. The length counts characters, which for a text of ASCII
    characters are its bytes, and lowering such a text lowers its capital
    letters one by one. *)
Theorem validate_default_iff (response task_type : string) :
  task_type ∉ validated_task_types →
  (validate_response_quality response task_type = Ok true
   ↔ (50 < len response)%nat
     ∧ Forall (fun banned => contains banned (lower response) = false)
         banned_phrases
     ∧ (0x1.6666666666666p-1 <? check_coherence response)%float = true)
  ∧ (ascii_only response = true →
     len response = String.length response
     ∧ lower response = lower_ascii_text response).
Proof.
  intros Hnot.
  split; [|intros Hascii; split;
            [by apply len_ascii_only|by apply lower_from_ascii_only]].
  unfold validate_response_quality.
  rewrite (has_key_false _ _ (validators_unknown _ Hnot)).
  unfold default_validation. split.
  - intros Hok. injection Hok as Hb.
    apply andb_prop in Hb as [Hb Hcoh]. apply andb_prop in Hb as [Hlen Hban].
    split; [by apply Nat.ltb_lt|]. split; [|exact Hcoh].
    apply negb_true_iff in Hban. apply Forall_forall. intros banned Hin.
    destruct (contains banned (lower response)) eqn:Hc; [|done].
    assert (existsb (fun b => contains b (lower response)) banned_phrases = true)
      as Hex; [|congruence].
    apply existsb_exists. exists banned. split; [|exact Hc].
    by apply list_elem_of_In.
  - intros (Hlen & Hban & Hcoh). f_equal.
    apply andb_true_intro. split; [|exact Hcoh].
    apply andb_true_intro. split; [by apply Nat.ltb_lt|].
    apply negb_true_iff.
    destruct (existsb _ banned_phrases) eqn:Hex; [|done].
    apply existsb_exists in Hex as (banned & Hin & Hc).
    apply list_elem_of_In in Hin.
    rewrite Forall_forall in Hban. specialize (Hban banned Hin). congruence.
Qed.

End WithCollaborators.

End OrchestratorFacts.

(** ** The fallback loop of process_with_fallback *)

Module ProcessFacts.

Import Orchestrator System.

Section WithCollaborators.

Context {PyDict World : Type} `{!Collaborators PyDict World}.

Lemma emit_twice (e1 e2 : Event) (w : World) (events : list Event)
    (c : gmap string string) :
  emit e2 (emit e1 {| world := w; trace := events; cache := c |})
  = {| world := w; trace := events ++ [e1; e2]; cache := c |}.
Proof. unfold emit. simpl. by rewrite <- app_assoc. Qed.

Lemma try_models_attempts (models : list AIModel) (prompt task_type : string)
    (context : PyDict) (st : OState) :
  ∃ evs w' res,
    attempts prompt task_type context models (world st) evs w' res
    ∧ (try_models models prompt task_type context st).2
      = {| world := w'; trace := trace st ++ evs; cache := cache st |}
    ∧ (try_models models prompt task_type context st).1
      = returned task_type (trace st ++ evs) res.
Proof.
  revert st. induction models as [|model rest IH]; intros st.
  - exists [], (world st), (Ok None). simpl. rewrite app_nil_r.
    split; [constructor|]. by destruct st.
  - simpl. unfold try_model.
    destruct (call_model model prompt context (world st)) as [called w] eqn:Hcall.
    destruct called as [result|e].
    + destruct (validate_response_quality result task_type) as [[|]|e] eqn:Hval.
      * rewrite emit_twice.
        exists [Call model prompt; RecordSuccess model task_type], w,
          (Ok (Some (model, result))).
        split; [by eapply attempts_valid|]. done.
      * rewrite emit_twice.
        match goal with |- context [try_models rest _ _ _ ?s] =>
          destruct (IH s) as (evs & w' & res & Hatt & Hst & Hres) end.
        exists (Call model prompt :: RecordQualityIssue model task_type :: evs), w', res.
        split; [by eapply attempts_rejected|].
        rewrite Hst, Hres. simpl. rewrite <- !app_assoc. done.
      * destruct (is_exception e) eqn:Hexn.
        -- rewrite emit_twice.
           match goal with |- context [try_models rest _ _ _ ?s] =>
             destruct (IH s) as (evs & w' & res & Hatt & Hst & Hres) end.
           exists (Call model prompt :: RecordFailure model task_type e :: evs),
             w', res.
           split; [by eapply attempts_validator_raised|].
           rewrite Hst, Hres. simpl. rewrite <- !app_assoc. done.
        -- exists [Call model prompt], w, (Raise e).
           split; [by eapply attempts_validator_escaped|]. done.
    + destruct (is_exception e) eqn:Hexn.
      * rewrite emit_twice.
        match goal with |- context [try_models rest _ _ _ ?s] =>
          destruct (IH s) as (evs & w' & res & Hatt & Hst & Hres) end.
        exists (Call model prompt :: RecordFailure model task_type e :: evs), w', res.
        split; [by eapply attempts_raised|].
        rewrite Hst, Hres. simpl. rewrite <- !app_assoc. done.
      * exists [Call model prompt], w, (Raise e).
        split; [by eapply attempts_escaped|]. done.
Qed.

Lemma process_attempts (prompt task_type : string) (context : PyDict) (st : OState) :
  ∃ primary evs w' res,
    route_request task_type context = Ok primary
    ∧ attempts prompt task_type context
        (primary :: get_fallback_models primary task_type) (world st) evs w' res
    ∧ process_with_fallback prompt task_type context st
      = (returned task_type (trace st ++ evs) res,
         {| world := w'; trace := trace st ++ evs; cache := cache st |}).
Proof.
  destruct (OrchestratorFacts.route_request_total task_type context) as [primary Hp].
  destruct (try_models_attempts (primary :: get_fallback_models primary task_type)
              prompt task_type context st) as (evs & w' & res & Hatt & Hst & Hres).
  exists primary, evs, w', res. split; [exact Hp|]. split; [exact Hatt|].
  unfold process_with_fallback. rewrite Hp.
  destruct (try_models _ prompt task_type context st) as [d st'].
  simpl in Hst, Hres. by subst.
Qed.

Lemma attempts_called (prompt task_type : string) (context : PyDict)
    (models : list AIModel) (w w' : World) (evs : list Event)
    (res : PyResult (option (AIModel * string))) :
  attempts prompt task_type context models w evs w' res →
  called evs `prefix_of` models
  ∧ match res with
    | Ok (Some (model, result)) =>
        last (called evs) = Some model
        ∧ validate_response_quality result task_type = Ok true
    | Ok None => called evs = models
    | Raise e =>
        is_exception e = false
        ∧ ∃ model, last (called evs) = Some model
                   ∧ last evs = Some (Call model prompt)
    end.
Proof.
  assert (Hstep : ∀ model rest record evs res,
            called evs `prefix_of` rest
            ∧ match res with
              | Ok (Some (m, result)) =>
                  last (called evs) = Some m
                  ∧ validate_response_quality result task_type = Ok true
              | Ok None => called evs = rest
              | Raise e =>
                  is_exception e = false
                  ∧ ∃ m, last (called evs) = Some m
                         ∧ last evs = Some (Call m prompt)
              end →
            called evs = called (record :: evs) →
            called (Call model prompt :: record :: evs) `prefix_of` model :: rest
            ∧ match res with
              | Ok (Some (m, result)) =>
                  last (called (Call model prompt :: record :: evs)) = Some m
                  ∧ validate_response_quality result task_type = Ok true
              | Ok None => called (Call model prompt :: record :: evs) = model :: rest
              | Raise e =>
                  is_exception e = false
                  ∧ ∃ m, last (called (Call model prompt :: record :: evs)) = Some m
                         ∧ last (Call model prompt :: record :: evs)
                           = Some (Call m prompt)
              end).
  { intros model rest record evs0 res0 [Hp Hr] Hrec.
    change (called (Call model prompt :: record :: evs0))
      with (model :: called (record :: evs0)).
    rewrite <- Hrec. split; [by apply prefix_cons|].
    destruct res0 as [[[m r]|]|e'].
    - destruct Hr as [Hl Hv]. split; [|done]. by destruct (called evs0).
    - by f_equal.
    - destruct Hr as (Hexn & m & Hl & Hlast). split; [done|]. exists m.
      split; [by destruct (called evs0)|]. by destruct evs0. }
  induction 1.
  - done.
  - by split; [apply prefix_cons, prefix_nil|].
  - by apply Hstep.
  - by apply Hstep.
  - by apply Hstep.
  - split; [apply prefix_cons, prefix_nil|]. split; [done|]. by exists model.
  - split; [apply prefix_cons, prefix_nil|]. split; [done|]. by exists model.
Qed.

Lemma attempts_all_fail (prompt task_type : string) (context : PyDict)
    (models : list AIModel) (w w' : World) (evs : list Event)
    (res : PyResult (option (AIModel * string))) :
  attempts prompt task_type context models w evs w' res →
  all_fail models prompt task_type context w → res = Ok None.
Proof.
  induction 1; simpl; [done|..]; intros [Hfail Hrest];
    match goal with H : call_model _ _ _ _ = _ |- _ =>
      rewrite H in Hfail, Hrest; simpl in Hfail, Hrest end;
    try match goal with H : validate_response_quality _ _ = _ |- _ =>
      rewrite H in Hfail end;
    auto; congruence.
Qed.

Lemma attempts_exhausted_all_fail (prompt task_type : string) (context : PyDict)
    (models : list AIModel) (w w' : World) (evs : list Event) :
  attempts prompt task_type context models w evs w' (Ok None) →
  all_fail models prompt task_type context w.
Proof.
  remember (Ok None) as res eqn:Hres.
  induction 1; simpl; try done;
    match goal with Hcall : call_model _ _ _ _ = _ |- _ => rewrite Hcall end;
    simpl;
    try match goal with Hval : validate_response_quality _ _ = _ |- _ =>
      rewrite Hval end;
    (split; [done|auto]).
Qed.

Lemma attempts_recorded (prompt task_type : string) (context : PyDict)
    (models : list AIModel) (w w' : World) (evs : list Event)
    (res : PyResult (option (AIModel * string))) :
  attempts prompt task_type context models w evs w' res →
  ∀ model t e, RecordFailure model t e ∈ evs → is_exception e = true.
Proof.
  induction 1; intros m t e' Hin;
    repeat (apply elem_of_cons in Hin as [Heq|Hin]; [by simplify_eq|]);
    first [by apply elem_of_nil in Hin | by eapply IHattempts].
Qed.

Lemma success_result_fields (model : AIModel) (result : string) (latency : N) :
  success_result model result latency !! "success" = Some (VBool true)
  ∧ success_result model result latency !! "model" = Some (VStr (value model))
  ∧ success_result model result latency !! "response" = Some (VStr result)
  ∧ success_result model result latency !! "from_cache" = None.
Proof. repeat split; reflexivity. Qed.

Lemma all_failed_result_fields (task_type : string) :
  all_failed_result task_type !! "success" = Some (VBool false)
  ∧ all_failed_result task_type !! "error" = Some (VStr all_failed_error)
  ∧ all_failed_result task_type !! "fallback_response"
    = Some (VStr (generate_fallback_response task_type))
  ∧ all_failed_result task_type !! "response" = None
  ∧ all_failed_result task_type !! "from_cache" = None.
Proof. repeat split; reflexivity. Qed.

Lemma all_failed_result_dom (task_type : string) :
  dom (all_failed_result task_type)
  = ({["success"; "error"; "fallback_response"]} : gset string).
Proof.
  unfold all_failed_result. rewrite dom_list_to_map_L. simpl. set_solver.
Qed.

Lemma attempts_head (prompt task_type : string) (context : PyDict)
    (model : AIModel) (rest : list AIModel) (w w' : World) (evs : list Event)
    (res : PyResult (option (AIModel * string))) :
  attempts prompt task_type context (model :: rest) w evs w' res →
  head (called evs) = Some model.
Proof. by inversion 1. Qed.

Lemma outcome_from_cache (task_type : string) (events : list Event)
    (res : option (AIModel * string)) :
  outcome task_type events res !! "from_cache" = None.
Proof. by destruct res as [[model result]|]. Qed.

Lemma outcome_response (task_type : string) (events : list Event)
    (res : option (AIModel * string)) (s : string) :
  outcome task_type events res !! "response" = Some (VStr s) →
  ∃ model, res = Some (model, s).
Proof.
  destruct res as [[model result]|]; simpl.
  - destruct (success_result_fields model result (get_latency events))
      as (_ & _ & Hr & _).
    rewrite Hr. intros [= ->]. by exists model.
  - destruct (all_failed_result_fields task_type) as (_ & _ & _ & Hr & _).
    by rewrite Hr.
Qed.

(** The response of a valid attempt is what a call of this run returned. *)
Lemma attempts_response (prompt task_type : string) (context : PyDict)
    (models : list AIModel) (w w' : World) (evs : list Event)
    (model : AIModel) (result : string) :
  attempts prompt task_type context models w evs w' (Ok (Some (model, result))) →
  ∃ w0 w1, call_model model prompt context w0 = (Ok result, w1)
           ∧ Call model prompt ∈ evs.
Proof.
  remember (Ok (Some (model, result))) as res eqn:Hres.
  induction 1; try done.
  1: { injection Hres as -> ->. eexists _, _. split; [done|]. left. }
  all: destruct (IHattempts Hres) as (w0 & w1 & Hcall & Hin).
  all: exists w0, w1; split; [done|]; by do 2 right.
Qed.

Lemma try_models_response_valid (models : list AIModel) (prompt task_type : string)
    (context : PyDict) (st : OState) (d : gmap string Value) (s : string) :
  (try_models models prompt task_type context st).1 = Ok d →
  d !! "response" = Some (VStr s) →
  validate_response_quality s task_type = Ok true.
Proof.
  destruct (try_models_attempts models prompt task_type context st)
    as (evs & w' & res & Hatt & _ & Hres).
  rewrite Hres. destruct res as [ended|e]; [|done]. simpl.
  intros [= <-] [model ->]%outcome_response.
  by destruct (attempts_called _ _ _ _ _ _ _ _ Hatt) as [_ [_ Hv]].
Qed.

Lemma try_models_rejected (model : AIModel) (rest : list AIModel)
    (prompt task_type : string) (context : PyDict) (st : OState)
    (result : string) (w : World) :
  call_model model prompt context (world st) = (Ok result, w) →
  validate_response_quality result task_type = Ok false →
  try_models (model :: rest) prompt task_type context st
  = try_models rest prompt task_type context
      {| world := w;
         trace := trace st ++ [Call model prompt; RecordQualityIssue model task_type];
         cache := cache st |}.
Proof.
  intros Hcall Hval. simpl. unfold try_model. rewrite Hcall, Hval.
  by rewrite emit_twice.
Qed.

Lemma try_models_raised (model : AIModel) (rest : list AIModel)
    (prompt task_type : string) (context : PyDict) (st : OState)
    (e : string) (w : World) :
  call_model model prompt context (world st) = (Raise e, w) →
  is_exception e = true →
  try_models (model :: rest) prompt task_type context st
  = try_models rest prompt task_type context
      {| world := w;
         trace := trace st ++ [Call model prompt; RecordFailure model task_type e];
         cache := cache st |}.
Proof.
  intros Hcall Hexn. simpl. unfold try_model. rewrite Hcall, Hexn.
  by rewrite emit_twice.
Qed.

Lemma try_models_escaped (model : AIModel) (rest : list AIModel)
    (prompt task_type : string) (context : PyDict) (st : OState)
    (e : string) (w : World) :
  call_model model prompt context (world st) = (Raise e, w) →
  is_exception e = false →
  try_models (model :: rest) prompt task_type context st
  = (Raise e,
     {| world := w; trace := trace st ++ [Call model prompt]; cache := cache st |}).
Proof.
  intros Hcall Hexn. simpl. unfold try_model. by rewrite Hcall, Hexn.
Qed.

(** C2 (amended): the orchestrator tries the router's primary and then the
    fallback models one at a time, in order; it returns a success result
    naming the model used at the first candidate whose response passes
    validation and calls no later candidate; each earlier candidate that
    failed has that recorded with the metrics collector (record_failure for
    an exception, record_quality_issue for a rejected response) before the
    next candidate is called. A run that ends on an exception which the
    handler does not catch has called the candidates in order up to the
    one that raised it. *)
Theorem fallback_in_order (prompt task_type : string) (context : PyDict)
    (st : OState) :
  ∃ primary evs w' res,
    route_request task_type context = Ok primary
    ∧ attempts prompt task_type context
        (primary :: get_fallback_models primary task_type) (world st) evs w' res
    ∧ process_with_fallback prompt task_type context st
      = (returned task_type (trace st ++ evs) res,
         {| world := w'; trace := trace st ++ evs; cache := cache st |})
    ∧ head (called evs) = Some primary
    ∧ called evs `prefix_of` (primary :: get_fallback_models primary task_type)
    ∧ match res with
      | Ok (Some (model, result)) =>
          last (called evs) = Some model
          ∧ validate_response_quality result task_type = Ok true
          ∧ outcome task_type (trace st ++ evs) (Some (model, result)) !! "success"
            = Some (VBool true)
          ∧ outcome task_type (trace st ++ evs) (Some (model, result)) !! "model"
            = Some (VStr (value model))
          ∧ outcome task_type (trace st ++ evs) (Some (model, result)) !! "response"
            = Some (VStr result)
      | Ok None =>
          called evs = primary :: get_fallback_models primary task_type
          ∧ outcome task_type (trace st ++ evs) None !! "success"
            = Some (VBool false)
      | Raise e =>
          is_exception e = false
          ∧ ∃ model, last (called evs) = Some model
                     ∧ last evs = Some (Call model prompt)
      end.
Proof.
  destruct (process_attempts prompt task_type context st)
    as (primary & evs & w' & res & Hp & Hatt & Hrun).
  exists primary, evs, w', res.
  destruct (attempts_called _ _ _ _ _ _ _ _ Hatt) as [Hpre Hres].
  repeat (split; [done || by eapply attempts_head|]).
  destruct res as [[[model result]|]|e]; [|done|done].
  destruct Hres as [Hlast Hval]. done.
Qed.

(** C6: when every candidate fails transport or validation, the result is
    the non-success dictionary with the fixed error of the all-failed
    branch and the fallback payload of the task type, and it has no other
    field: nothing a provider returned or raised reaches the caller. *)
Theorem all_failed_static_fallback (prompt task_type : string)
    (context : PyDict) (st : OState) (primary : AIModel) :
  route_request task_type context = Ok primary →
  all_fail (primary :: get_fallback_models primary task_type)
    prompt task_type context (world st) →
  ∃ d,
    (process_with_fallback prompt task_type context st).1 = Ok d
    ∧ d !! "success" = Some (VBool false)
    ∧ d !! "error" = Some (VStr all_failed_error)
    ∧ d !! "fallback_response" = Some (VStr (generate_fallback_response task_type))
    ∧ dom d = ({["success"; "error"; "fallback_response"]} : gset string).
Proof.
  intros Hp Hfail.
  destruct (process_attempts prompt task_type context st)
    as (primary' & evs & w' & res & Hp' & Hatt & Hrun).
  rewrite Hp in Hp'. injection Hp' as <-.
  rewrite (attempts_all_fail _ _ _ _ _ _ _ _ Hatt Hfail) in Hrun.
  exists (all_failed_result task_type). rewrite Hrun. simpl.
  destruct (all_failed_result_fields task_type) as (Hs & He & Hf & _).
  repeat (split; [done|]). apply all_failed_result_dom.
Qed.

(** C7 (amended): when the validator rejects a response that the backend
    call returned, the orchestrator records a quality issue for that model
    with the metrics collector and goes on with the next candidate; the
    rejected text is not the response handed to the caller. *)
Theorem rejected_response_not_surfaced (model : AIModel) (rest : list AIModel)
    (prompt task_type : string) (context : PyDict) (st : OState)
    (result : string) (w : World) :
  call_model model prompt context (world st) = (Ok result, w) →
  validate_response_quality result task_type = Ok false →
  try_models (model :: rest) prompt task_type context st
  = try_models rest prompt task_type context
      {| world := w;
         trace := trace st ++ [Call model prompt; RecordQualityIssue model task_type];
         cache := cache st |}
  ∧ ∀ d, (try_models (model :: rest) prompt task_type context st).1 = Ok d →
         d !! "response" ≠ Some (VStr result).
Proof.
  intros Hcall Hval. split; [by eapply try_models_rejected|].
  intros d Hd Hresp.
  pose proof (try_models_response_valid _ _ _ _ _ _ _ Hd Hresp). congruence.
Qed.

(** C9 (amended): process_with_fallback runs the loop over the router's
    primary and the fallbacks. An exception of class Exception raised by a
    candidate's call is caught and recorded as a failure of that model,
    after which the loop goes on with the next candidate, and only such
    exceptions are recorded; when none other is raised the function
    returns a dictionary with a boolean "success", with "model" and
    "response" when it is true and "fallback_response" when it is false.
    An exception outside Exception, as asyncio.CancelledError is, is not
    caught: it leaves the function right after the call, with no failure
    recorded and no further candidate tried. *)
Theorem process_catches_exceptions (prompt task_type : string)
    (context : PyDict) (st : OState) :
  (∃ primary evs w' res,
     route_request task_type context = Ok primary
     ∧ attempts prompt task_type context
         (primary :: get_fallback_models primary task_type) (world st) evs w' res
     ∧ process_with_fallback prompt task_type context st
       = (returned task_type (trace st ++ evs) res,
          {| world := w'; trace := trace st ++ evs; cache := cache st |})
     ∧ (∀ model t e, RecordFailure model t e ∈ evs → is_exception e = true)
     ∧ match (process_with_fallback prompt task_type context st).1 with
       | Ok d =>
           (d !! "success" = Some (VBool true)
            ∧ is_Some (d !! "model") ∧ is_Some (d !! "response"))
           ∨ (d !! "success" = Some (VBool false)
              ∧ is_Some (d !! "fallback_response"))
       | Raise e =>
           is_exception e = false
           ∧ ∃ model, last evs = Some (Call model prompt)
       end)
  ∧ (∀ model rest e w,
       call_model model prompt context (world st) = (Raise e, w) →
       is_exception e = true →
       try_models (model :: rest) prompt task_type context st
       = try_models rest prompt task_type context
           {| world := w;
              trace := trace st ++ [Call model prompt;
                                    RecordFailure model task_type e];
              cache := cache st |})
  ∧ (∀ model rest e w,
       call_model model prompt context (world st) = (Raise e, w) →
       is_exception e = false →
       try_models (model :: rest) prompt task_type context st
       = (Raise e,
          {| world := w; trace := trace st ++ [Call model prompt];
             cache := cache st |})).
Proof.
  split; [|split; [intros model rest e w; apply try_models_raised
                  |intros model rest e w; apply try_models_escaped]].
  destruct (process_attempts prompt task_type context st)
    as (primary & evs & w' & res & Hp & Hatt & Hrun).
  exists primary, evs, w', res. repeat (split; [done|]).
  split; [by eapply attempts_recorded|].
  rewrite Hrun. simpl.
  destruct (attempts_called _ _ _ _ _ _ _ _ Hatt) as [_ Hres].
  destruct res as [[[model result]|]|e]; simpl.
  - left. destruct (success_result_fields model result
                      (get_latency (trace st ++ evs))) as (Hs & Hm & Hr & _).
    rewrite Hs, Hm, Hr. eauto.
  - right. destruct (all_failed_result_fields task_type) as (Hs & _ & Hf & _).
    rewrite Hs, Hf. eauto.
  - destruct Hres as (Hexn & model & _ & Hlast). eauto.
Qed.

(** C1 (amended): process_with_fallback has no path that answers from the
    cache. Whatever the cache holds and whatever the context says, it
    calls the router's primary model first; a dictionary it returns has no
    from_cache field, and a response in it is one that a model returned in
    this very run. *)
Theorem process_answers_from_models (prompt task_type : string)
    (context : PyDict) (st : OState) :
  ∃ primary evs,
    route_request task_type context = Ok primary
    ∧ trace (process_with_fallback prompt task_type context st).2
      = (trace st ++ evs)%list
    ∧ head evs = Some (Call primary prompt)
    ∧ ∀ d, (process_with_fallback prompt task_type context st).1 = Ok d →
           d !! "from_cache" = None
           ∧ ∀ response, d !! "response" = Some (VStr response) →
               ∃ model w0 w1,
                 call_model model prompt context w0 = (Ok response, w1)
                 ∧ Call model prompt ∈ evs.
Proof.
  destruct (process_attempts prompt task_type context st)
    as (primary & evs & w' & res & Hp & Hatt & Hrun).
  exists primary, evs. rewrite Hrun. simpl.
  split; [done|]. split; [done|]. split; [by inversion Hatt|].
  intros d Hd. destruct res as [ended|e]; [|done].
  injection Hd as <-. split; [apply outcome_from_cache|].
  intros response [model ->]%outcome_response.
  destruct (attempts_response _ _ _ _ _ _ _ _ _ Hatt) as (w0 & w1 & Hcall & Hin).
  by exists model, w0, w1.
Qed.

End WithCollaborators.

End ProcessFacts.

(** ** Circuit breaker transitions *)

Module BreakerFacts.

Import Breaker.

Section WithConfig.

Variable cfg : Config.
Hypothesis failures_needed : (0 < failureThreshold cfg)%nat.
Hypothesis successes_needed : (0 < successThreshold cfg)%nat.












End WithConfig.

End BreakerFacts.

(** ** Rate limiter admissions *)

Module RateLimiterFacts.

Import RateLimiter.

Local Open Scope N_scope.

Lemma window_seconds_pos (k : WindowKind) : window_seconds k ≠ 0.
Proof. by destruct k. Qed.

Lemma until_reset_pos (k : WindowKind) (now : N) : 0 < until_reset k now.
Proof.
  unfold until_reset, window_start.
  pose proof (N.mul_succ_div_gt now _ (window_seconds_pos k)) as Hgt.
  pose proof (N.Div0.mul_div_le now (window_seconds k)) as Hle.
  lia.
Qed.

Lemma window_start_same_minute (k : WindowKind) (now t0 : N) :
  now / 60 = t0 / 60 → window_start k now = window_start k t0.
Proof.
  intros Hsame. unfold window_start. f_equal. destruct k; simpl.
  - exact Hsame.
  - change 3600 with (60 * 60). by rewrite <- !N.Div0.div_div, Hsame.
  - change 86400 with (60 * 1440). by rewrite <- !N.Div0.div_div, Hsame.
Qed.

Lemma request_count_same_window (userId : string) (k : WindowKind)
    (now t0 : N) (q : Quotas) :
  window_start k now = window_start k t0 →
  request_count userId k now q = request_count userId k t0 q.
Proof. intros Hsame. unfold request_count. by rewrite Hsame. Qed.

Lemma tokens_today_same_window (userId : string) (now t0 : N) (q : Quotas) :
  window_start day now = window_start day t0 →
  tokens_today userId now q = tokens_today userId t0 q.
Proof. intros Hsame. unfold tokens_today. by rewrite Hsame. Qed.

Lemma exceeded_nil (userId : string) (tier : Tier) (weight now : N) (q : Quotas) :
  exceeded userId tier weight now q = []
  ↔ ∀ k, request_count userId k now q + weight ≤ limit_of tier k.
Proof.
  unfold exceeded, window_kinds. rewrite !filter_cons, filter_nil.
  split.
  - intros Hnil k. repeat case_decide; try done. destruct k; lia.
  - intros Hall.
    pose proof (Hall minute). pose proof (Hall hour). pose proof (Hall day).
    repeat case_decide; try done; lia.
Qed.

Lemma rejected_unchanged (userId : string) (tier : Tier) (weight now : N)
    (q : Quotas) :
  allowed (checkAndConsume userId tier weight now q).1 = false →
  (checkAndConsume userId tier weight now q).2 = q
  ∧ ∃ d, retryAfter (checkAndConsume userId tier weight now q).1 = Some d
         ∧ 0 < d.
Proof.
  unfold checkAndConsume.
  destruct (exceeded userId tier weight now q) as [|k over] eqn:Hover;
    destruct (token_budget_spent userId tier now q) eqn:Hspent; simpl;
    intros Hrej; try done; (split; [done|]); eexists; (split; [done|]).
  - pose proof (until_reset_pos day now). lia.
  - pose proof (until_reset_pos k now). lia.
  - pose proof (until_reset_pos k now). lia.
Qed.

Lemma admitted_counts (userId : string) (tier : Tier) (weight now : N)
    (q : Quotas) :
  exceeded userId tier weight now q = [] →
  token_budget_spent userId tier now q = false →
  allowed (checkAndConsume userId tier weight now q).1 = true
  ∧ (∀ k, request_count userId k now (checkAndConsume userId tier weight now q).2
          = request_count userId k now q + weight)
  ∧ tokens (checkAndConsume userId tier weight now q).2 = tokens q.
Proof.
  intros Hover Hspent. unfold checkAndConsume. rewrite Hover, Hspent. simpl.
  split; [done|]. split; [|done].
  intros k. unfold request_count, bump. simpl.
  destruct k; simpl; by simplify_map_eq.
Qed.

Lemma allowed_fits (userId : string) (tier : Tier) (weight now : N)
    (q : Quotas) :
  allowed (checkAndConsume userId tier weight now q).1 = true →
  (∀ k, request_count userId k now q + weight ≤ limit_of tier k)
  ∧ tokens_today userId now q < ai_tokens_per_day (limits tier).
Proof.
  unfold checkAndConsume.
  destruct (exceeded userId tier weight now q) as [|k over] eqn:Hover;
    destruct (token_budget_spent userId tier now q) eqn:Hspent; simpl;
    try done.
  intros _. split; [by apply exceeded_nil|].
  unfold token_budget_spent in Hspent. apply bool_decide_eq_false in Hspent. lia.
Qed.

Lemma admissions_app (userId : string) (tier : Tier) (times : list N)
    (last : N) (q : Quotas) :
  admissions userId tier (times ++ [last]) q
  = ((admissions userId tier times q).1
       ++ [(checkAndConsume userId tier 1 last (admissions userId tier times q).2).1],
     (checkAndConsume userId tier 1 last (admissions userId tier times q).2).2)%list.
Proof.
  revert q. induction times as [|now times IH]; intros q; simpl.
  - by destruct (checkAndConsume userId tier 1 last q).
  - destruct (checkAndConsume userId tier 1 now q) as [a q1].
    rewrite IH. by destruct (admissions userId tier times q1).
Qed.

Lemma admissions_within (userId : string) (tier : Tier) (t0 : N)
    (times : list N) (q : Quotas) :
  (∀ t, t ∈ times → t / 60 = t0 / 60) →
  (∀ k, request_count userId k t0 q + N.of_nat (length times) ≤ limit_of tier k) →
  tokens_today userId t0 q < ai_tokens_per_day (limits tier) →
  Forall (fun a => allowed a = true) (admissions userId tier times q).1
  ∧ length (admissions userId tier times q).1 = length times
  ∧ (∀ k, request_count userId k t0 (admissions userId tier times q).2
          = request_count userId k t0 q + N.of_nat (length times))
  ∧ tokens_today userId t0 (admissions userId tier times q).2
    = tokens_today userId t0 q.
Proof.
  revert q. induction times as [|now times IH]; intros q Hmin Hroom Htok.
  - simpl. repeat split; [constructor|]. intros k. lia.
  - assert (Hnow : ∀ k, window_start k now = window_start k t0).
    { intros k. apply window_start_same_minute, Hmin. left. }
    assert (Hover : exceeded userId tier 1 now q = []).
    { apply exceeded_nil. intros k.
      rewrite (request_count_same_window _ _ _ _ _ (Hnow k)).
      specialize (Hroom k). simpl length in Hroom. lia. }
    assert (Hspent : token_budget_spent userId tier now q = false).
    { unfold token_budget_spent. apply bool_decide_eq_false.
      rewrite (tokens_today_same_window _ _ _ _ (Hnow day)). lia. }
    destruct (admitted_counts _ _ _ _ _ Hover Hspent) as (Hallow & Hcount & Htokens).
    simpl admissions.
    destruct (checkAndConsume userId tier 1 now q) as [a q1]. simpl in *.
    assert (Hcount0 : ∀ k, request_count userId k t0 q1
                           = request_count userId k t0 q + 1).
    { intros k. rewrite <- !(request_count_same_window _ _ _ _ _ (Hnow k)).
      apply Hcount. }
    assert (Htok1 : tokens_today userId t0 q1 = tokens_today userId t0 q).
    { unfold tokens_today. by rewrite Htokens. }
    destruct (IH q1) as (Hall & Hlen & Hcounts & Htoks).
    { intros t Ht. apply Hmin. by right. }
    { intros k. rewrite Hcount0. specialize (Hroom k). lia. }
    { by rewrite Htok1. }
    destruct (admissions userId tier times q1) as [rest q2]. simpl in *.
    split; [by constructor|]. split; [by f_equal|]. split.
    + intros k. rewrite Hcounts, Hcount0. lia.
    + by rewrite Htoks.
Qed.

Lemma allowed_iff (userId : string) (tier : Tier) (weight now : N) (q : Quotas) :
  allowed (checkAndConsume userId tier weight now q).1 = true
  ↔ (∀ k, request_count userId k now q + weight ≤ limit_of tier k)
    ∧ tokens_today userId now q < ai_tokens_per_day (limits tier).
Proof.
  split; [apply allowed_fits|]. intros [Hfits Htok].
  apply admitted_counts; [by apply exceeded_nil|].
  unfold token_budget_spent. apply bool_decide_eq_false. lia.
Qed.

Lemma admitted_effect (userId : string) (tier : Tier) (weight now : N)
    (q : Quotas) :
  allowed (checkAndConsume userId tier weight now q).1 = true →
  (∀ k, request_count userId k now (checkAndConsume userId tier weight now q).2
        = request_count userId k now q + weight)
  ∧ tokens (checkAndConsume userId tier weight now q).2 = tokens q
  ∧ ∀ other k t, other ≠ userId →
      request_count other k t (checkAndConsume userId tier weight now q).2
      = request_count other k t q.
Proof.
  intros Hallow. pose proof Hallow as [Hfits Htok]%allowed_iff.
  assert (Hover : exceeded userId tier weight now q = [])
    by (by apply exceeded_nil).
  assert (Hspent : token_budget_spent userId tier now q = false).
  { unfold token_budget_spent. apply bool_decide_eq_false. lia. }
  destruct (admitted_counts _ _ _ _ _ Hover Hspent) as (_ & Hcount & Htokens).
  split; [done|]. split; [done|].
  intros other k t Hother. unfold checkAndConsume. rewrite Hover, Hspent.
  unfold request_count, bump. simpl.
  rewrite !lookup_insert_ne by congruence. done.
Qed.

Lemma headroom_same_minute (userId : string) (tier : Tier) (now t0 : N)
    (q : Quotas) :
  now / 60 = t0 / 60 → headroom userId tier now q = headroom userId tier t0 q.
Proof.
  intros Hsame. unfold headroom, room, token_budget_spent.
  rewrite !(request_count_same_window _ _ now t0)
    by (by apply window_start_same_minute).
  by rewrite (tokens_today_same_window _ now t0)
    by (by apply window_start_same_minute).
Qed.

Lemma allowed_headroom (userId : string) (tier : Tier) (now : N) (q : Quotas) :
  allowed (checkAndConsume userId tier 1 now q).1 = true
  ↔ 0 < headroom userId tier now q.
Proof.
  rewrite allowed_iff. unfold headroom, room, token_budget_spent.
  case_bool_decide as Hspent.
  - split; [intros [_ ?]|]; lia.
  - split.
    + intros [Hfits _].
      pose proof (Hfits minute). pose proof (Hfits hour). pose proof (Hfits day).
      lia.
    + intros Hroom. split; [|lia]. intros k. destruct k; lia.
Qed.

Lemma headroom_admitted (userId : string) (tier : Tier) (now : N) (q : Quotas) :
  allowed (checkAndConsume userId tier 1 now q).1 = true →
  headroom userId tier now (checkAndConsume userId tier 1 now q).2
  = headroom userId tier now q - 1.
Proof.
  intros Hallow. pose proof Hallow as [Hfits Htok]%allowed_iff.
  destruct (admitted_effect _ _ _ _ _ Hallow) as (Hcount & Htokens & _).
  unfold headroom, room, token_budget_spent, tokens_today.
  rewrite !Hcount, Htokens. fold (tokens_today userId now q).
  pose proof (Hfits minute). pose proof (Hfits hour). pose proof (Hfits day).
  rewrite !bool_decide_eq_false_2 by lia. lia.
Qed.

(** A burst within one minute: exactly the calls that the headroom allows
    are admitted, the first ones, and each adds one to every window. *)
Lemma burst_admitted (userId : string) (tier : Tier) (t0 : N)
    (times : list N) (q : Quotas) :
  (∀ t, t ∈ times → t / 60 = t0 / 60) →
  let fits := (length times `min` N.to_nat (headroom userId tier t0 q))%nat in
  allowed <$> (admissions userId tier times q).1
  = (replicate fits true ++ replicate (length times - fits) false)%list
  ∧ (∀ k, request_count userId k t0 (admissions userId tier times q).2
          = request_count userId k t0 q + N.of_nat fits)
  ∧ tokens (admissions userId tier times q).2 = tokens q.
Proof.
  revert q. induction times as [|now times IH]; intros q Hmin; simpl.
  - split; [done|]. split; [|done]. intros k. lia.
  - assert (Hnow : now / 60 = t0 / 60) by (apply Hmin; left).
    assert (Hwin : ∀ k, window_start k now = window_start k t0)
      by (intros k; by apply window_start_same_minute).
    pose proof (allowed_headroom userId tier now q) as Hhead.
    pose proof (headroom_admitted userId tier now q) as Hless.
    pose proof (admitted_effect userId tier 1 now q) as Heffect.
    pose proof (rejected_unchanged userId tier 1 now q) as Hrej.
    rewrite (headroom_same_minute _ _ now t0 q Hnow) in Hhead, Hless.
    destruct (checkAndConsume userId tier 1 now q) as [a q1]. simpl in *.
    specialize (IH q1 ltac:(intros t Ht; apply Hmin; by right)).
    destruct (admissions userId tier times q1) as [rest q2]. simpl in *.
    destruct IH as (Hflags & Hcounts & Htokens).
    destruct (allowed a) eqn:Hallow.
    + destruct (Heffect eq_refl) as (Hcount & Htok1 & _).
      rewrite (headroom_same_minute _ _ now t0 q1 Hnow) in Hless.
      specialize (Hless eq_refl). apply proj1 in Hhead. specialize (Hhead eq_refl).
      rewrite Hless in Hflags, Hcounts.
      replace (N.to_nat (headroom userId tier t0 q - 1))
        with (N.to_nat (headroom userId tier t0 q) - 1)%nat in * by lia.
      destruct (N.to_nat (headroom userId tier t0 q)) as [|h] eqn:Hh; [lia|].
      simpl in *. rewrite Nat.sub_0_r in *.
      split; [f_equal; exact Hflags|]. split; [|congruence].
      intros k. rewrite Hcounts.
      rewrite <- !(request_count_same_window _ _ now t0) by done.
      rewrite Hcount. lia.
    + destruct (Hrej eq_refl) as [-> _].
      assert (headroom userId tier t0 q = 0) as Hzero.
      { destruct (headroom userId tier t0 q) eqn:Hh; [done|].
        assert (false = true) by (apply Hhead; lia). done. }
      rewrite Hzero in *. simpl in *. rewrite Nat.min_0_r in *.
      rewrite Nat.sub_0_r in *. simpl in *.
      split; [f_equal; exact Hflags|]. split; [|done].
      intros k. rewrite Hcounts. lia.
Qed.

(** In one window of any length the calls admitted are counted, and their
    count does not pass the limit of the window. *)
Lemma window_cap (userId : string) (tier : Tier) (k : WindowKind) (t0 : N)
    (times : list N) (q : Quotas) :
  (∀ t, t ∈ times → window_start k t = window_start k t0) →
  request_count userId k t0 (admissions userId tier times q).2
  = request_count userId k t0 q
    + N.of_nat (length (List.filter allowed (admissions userId tier times q).1))
  ∧ (request_count userId k t0 q ≤ limit_of tier k →
     request_count userId k t0 (admissions userId tier times q).2
     ≤ limit_of tier k).
Proof.
  revert q. induction times as [|now times IH]; intros q Hwin; simpl.
  - split; [lia|done].
  - assert (Hnow : window_start k now = window_start k t0) by (apply Hwin; left).
    pose proof (allowed_iff userId tier 1 now q) as Hiff.
    pose proof (admitted_effect userId tier 1 now q) as Heffect.
    pose proof (rejected_unchanged userId tier 1 now q) as Hrej.
    destruct (checkAndConsume userId tier 1 now q) as [a q1]. simpl in *.
    specialize (IH q1 ltac:(intros t Ht; apply Hwin; by right)).
    destruct (admissions userId tier times q1) as [rest q2]. simpl in *.
    destruct IH as [Hcount Hcap].
    destruct (allowed a) eqn:Hallow; simpl.
    + destruct (Heffect eq_refl) as (Hone & _).
      apply proj1 in Hiff. destruct (Hiff eq_refl) as [Hfits _].
      specialize (Hone k). specialize (Hfits k).
      rewrite (request_count_same_window _ _ now t0 q1),
        (request_count_same_window _ _ now t0 q) in Hone by done.
      rewrite (request_count_same_window _ _ now t0 q) in Hfits by done.
      rewrite Hone in Hcount, Hcap. split; [lia|]. intros _. apply Hcap. lia.
    + destruct (Hrej eq_refl) as [-> _]. done.
Qed.

Lemma headroom_new_user (userId : string) (tier : Tier) (now : N) :
  headroom userId tier now no_quotas = limit_of tier minute.
Proof. by destruct tier. Qed.

(** C4: checkAndConsume admits a call exactly when every window has room
    for it and the token budget is not spent; an admitted call is counted
    in every window of the user, and in no window of another user, and a
    rejected one in none: it leaves every counter as it was and surfaces
    as RATE_LIMITED with a positive time to wait. Once the calls counted
    in a window have reached the tier's limit for it, the next call is
    rejected, and in no window of any length does the count pass the
    limit. Of a burst within one minute exactly the first calls that the
    windows and the budget leave room for are admitted, and all later ones
    are rejected; for a new user these are the first [limit] calls of the
    minute, 10 on the free tier. *)
Theorem limit_then_reject (userId : string) (tier : Tier) :
  (∀ weight now q,
     allowed (checkAndConsume userId tier weight now q).1 = true
     ↔ (∀ k, request_count userId k now q + weight ≤ limit_of tier k)
       ∧ tokens_today userId now q < ai_tokens_per_day (limits tier))
  ∧ (∀ weight now q,
       allowed (checkAndConsume userId tier weight now q).1 = true →
       (∀ k, request_count userId k now (checkAndConsume userId tier weight now q).2
             = request_count userId k now q + weight)
       ∧ tokens (checkAndConsume userId tier weight now q).2 = tokens q
       ∧ ∀ other k t, other ≠ userId →
           request_count other k t (checkAndConsume userId tier weight now q).2
           = request_count other k t q)
  ∧ (∀ weight now q,
       allowed (checkAndConsume userId tier weight now q).1 = false →
       (checkAndConsume userId tier weight now q).2 = q
       ∧ ∃ d, rejection (checkAndConsume userId tier weight now q).1
              = Some (RATE_LIMITED, Some d)
              ∧ 0 < d)
  ∧ (∀ k now q,
       limit_of tier k ≤ request_count userId k now q →
       allowed (checkAndConsume userId tier 1 now q).1 = false)
  ∧ (∀ k t0 times q,
       (∀ t, t ∈ times → window_start k t = window_start k t0) →
       request_count userId k t0 (admissions userId tier times q).2
       = request_count userId k t0 q
         + N.of_nat (length (List.filter allowed
                               (admissions userId tier times q).1))
       ∧ (request_count userId k t0 q ≤ limit_of tier k →
          request_count userId k t0 (admissions userId tier times q).2
          ≤ limit_of tier k))
  ∧ (∀ t0 times q,
       (∀ t, t ∈ times → t / 60 = t0 / 60) →
       let fits :=
         (length times `min` N.to_nat (headroom userId tier t0 q))%nat in
       allowed <$> (admissions userId tier times q).1
       = (replicate fits true ++ replicate (length times - fits) false)%list
       ∧ (∀ k, request_count userId k t0 (admissions userId tier times q).2
               = request_count userId k t0 q + N.of_nat fits))
  ∧ (∀ now, headroom userId tier now no_quotas = limit_of tier minute)
  ∧ limit_of free minute = 10.
Proof.
  assert (Hreject : ∀ weight now q,
            allowed (checkAndConsume userId tier weight now q).1 = false →
            (checkAndConsume userId tier weight now q).2 = q
            ∧ ∃ d, rejection (checkAndConsume userId tier weight now q).1
                   = Some (RATE_LIMITED, Some d)
                   ∧ 0 < d).
  { intros weight now q Hrej.
    destruct (rejected_unchanged _ _ _ _ _ Hrej) as (Hsame & d & Hd & Hpos).
    split; [done|]. exists d. split; [|done].
    unfold rejection. by rewrite Hrej, Hd. }
  split; [intros; apply allowed_iff|].
  split; [intros weight now q; apply admitted_effect|].
  split; [exact Hreject|].
  split.
  { intros k now q Hk.
    destruct (allowed (checkAndConsume userId tier 1 now q).1) eqn:Hallow;
      [|done].
    apply allowed_fits in Hallow as [Hfits _]. specialize (Hfits k). lia. }
  split; [intros k t0 times q; apply window_cap|].
  split.
  { intros t0 times q Hmin fits.
    destruct (burst_admitted userId tier t0 times q Hmin) as (Hflags & Hcounts & _).
    done. }
  split; [intros now; apply headroom_new_user|done].
Qed.

End RateLimiterFacts.

(** ** Breaker-aware routing *)

Module RouterFacts.

Import Breaker Router.

Lemma cheaper_spec (a b : Backend) : cheaper a b = true ↔ before a b.
Proof.
  unfold before, cheaper. rewrite Qlt_alt, Qeq_alt.
  destruct (cost_per_unit a ?= cost_per_unit b)%Q; rewrite ?N.leb_le;
    intuition congruence.
Qed.

Lemma before_total (a b : Backend) : before a b ∨ before b a.
Proof.
  unfold before.
  destruct (Q_dec (cost_per_unit a) (cost_per_unit b)) as [[Hlt|Hgt]|Heq];
    [by left; left|by right; left|].
  destruct (N.le_ge_cases (nominal_latency a) (nominal_latency b)).
  - left. right. done.
  - right. right. split; [by symmetry|done].
Qed.

Lemma before_trans (a b c : Backend) : before a b → before b c → before a c.
Proof.
  unfold before. intros [Hab|[Hab Lab]] [Hbc|[Hbc Lbc]].
  - left. lra.
  - left. lra.
  - left. lra.
  - right. split; [lra|lia].
Qed.

Lemma elem_of_insert_by (x y : Backend) (l : list Backend) :
  y ∈ insert_by cheaper x l ↔ y = x ∨ y ∈ l.
Proof.
  induction l as [|z l IH]; simpl.
  - set_solver.
  - destruct (cheaper x z).
    + rewrite !elem_of_cons. tauto.
    + rewrite !elem_of_cons, IH. tauto.
Qed.

Lemma elem_of_sort_by (y : Backend) (l : list Backend) :
  y ∈ sort_by cheaper l ↔ y ∈ l.
Proof.
  induction l as [|x l IH]; simpl; [done|].
  rewrite elem_of_insert_by, elem_of_cons, IH. done.
Qed.

Lemma insert_by_sorted (x : Backend) (l : list Backend) :
  StronglySorted before l → StronglySorted before (insert_by cheaper x l).
Proof.
  induction l as [|z l IH]; simpl; intros Hs.
  - repeat constructor.
  - apply StronglySorted_inv in Hs as [Hl Hz].
    destruct (cheaper x z) eqn:Hxz.
    + apply cheaper_spec in Hxz.
      constructor; [by constructor|]. constructor; [exact Hxz|].
      eapply Forall_impl; [exact Hz|]. intros w Hzw.
      by apply (before_trans x z w).
    + constructor; [by apply IH|].
      apply Forall_forall. intros w Hw. apply elem_of_insert_by in Hw as [->|Hw].
      * destruct (before_total x z) as [Hb|Hb]; [|done].
        apply cheaper_spec in Hb. congruence.
      * rewrite Forall_forall in Hz. by apply Hz.
Qed.

Lemma sort_by_sorted (l : list Backend) :
  StronglySorted before (sort_by cheaper l).
Proof.
  induction l as [|x l IH]; simpl; [constructor|by apply insert_by_sorted].
Qed.

Lemma gate_Forall (P : Backend → Prop) (now : Z) (candidates : list Backend)
    (reg : Registry) :
  Forall P candidates → Forall P (gate now candidates reg).1.
Proof.
  revert reg. induction candidates as [|b rest IH]; intros reg Hall; simpl.
  - constructor.
  - apply Forall_cons in Hall as [Hb Hrest].
    destruct (allow (id b) now reg) as [ok reg1].
    specialize (IH reg1 Hrest).
    destruct (gate now rest reg1) as [kept reg2]. simpl in *.
    destruct ok; [by constructor|done].
Qed.

Lemma gate_sorted (now : Z) (candidates : list Backend) (reg : Registry) :
  StronglySorted before candidates →
  StronglySorted before (gate now candidates reg).1.
Proof.
  revert reg. induction candidates as [|b rest IH]; intros reg Hs; simpl.
  - constructor.
  - apply StronglySorted_inv in Hs as [Hrest Hb].
    pose proof (gate_Forall (before b) now rest) as Hkeep.
    destruct (allow (id b) now reg) as [ok reg1].
    specialize (IH reg1 Hrest). specialize (Hkeep reg1 Hb).
    destruct (gate now rest reg1) as [kept reg2]. simpl in *.
    destruct ok; [by constructor|done].
Qed.

Lemma gate_app (now : Z) (l1 l2 : list Backend) (reg : Registry) :
  gate now (l1 ++ l2) reg
  = (((gate now l1 reg).1 ++ (gate now l2 (gate now l1 reg).2).1)%list,
     (gate now l2 (gate now l1 reg).2).2).
Proof.
  revert reg. induction l1 as [|b l1 IH]; intros reg; simpl.
  - by destruct (gate now l2 reg).
  - destruct (allow (id b) now reg) as [ok reg1]. rewrite IH.
    destruct (gate now l1 reg1) as [kept1 reg2]. simpl.
    by destruct ok.
Qed.

Lemma snapshot_put (x y : string) (b : BreakerState) (reg : Registry) :
  snapshot y (put x b reg) = if decide (x = y) then b else snapshot y reg.
Proof.
  unfold snapshot, put. simpl. case_decide as Hxy.
  - subst. by rewrite lookup_insert_eq.
  - by rewrite lookup_insert_ne.
Qed.

Lemma allow_step (x : string) (now : Z) (reg : Registry) :
  config_of (allow x now reg).2 = config_of reg
  ∧ (∀ y, state (snapshot y reg) ≠ OPEN →
          state (snapshot y (allow x now reg).2) ≠ OPEN)
  ∧ (∀ y, blocked y now reg → blocked y now (allow x now reg).2)
  ∧ ((allow x now reg).1 = true → state (snapshot x (allow x now reg).2) ≠ OPEN)
  ∧ (blocked x now reg → (allow x now reg).1 = false)
  ∧ ((0 < successThreshold (config_of reg x))%nat →
     (∀ y, permits y now reg → permits y now (allow x now reg).2)
     ∧ ((allow x now reg).1 = true → permits x now (allow x now reg).2)).
Proof.
  unfold permits, allow.
  destruct (Breaker.allow (config_of reg x) now (snapshot x reg))
    as [ok b'] eqn:Hallow. simpl.
  assert (Hb' : (state (snapshot x reg) ≠ OPEN → state b' ≠ OPEN)
                ∧ (ok = true → state b' ≠ OPEN)
                ∧ (blocked x now reg → ok = false ∧ b' = snapshot x reg)
                ∧ ((0 < successThreshold (config_of reg x))%nat → ok = true →
                   (Breaker.allow (config_of reg x) now b').1 = true)).
  { unfold Breaker.allow, blocked in *.
    destruct (state (snapshot x reg)) eqn:Hst;
      [| case_bool_decide as Helapsed |]; simplify_eq; simpl;
      rewrite ?Hst; (split; [|split; [|split]]); try done.
    - by intros [? _].
    - intros [_ ?]. lia.
    - intros Hpos _. by apply bool_decide_eq_true.
    - by intros [? _]. }
  destruct Hb' as (Hno & Hok & Hblk & Hagain).
  split; [done|]. split; [|split; [|split; [|split]]].
  - intros y Hy. rewrite snapshot_put. case_decide; subst; auto.
  - intros y [Hy1 Hy2]. unfold blocked. simpl. rewrite snapshot_put.
    case_decide; subst; [|done].
    by destruct (Hblk (conj Hy1 Hy2)) as [_ ->].
  - intros Hk. rewrite snapshot_put, decide_True by done. auto.
  - intros Hb. by destruct (Hblk Hb).
  - intros Hpos. split.
    + intros y.
      destruct (Breaker.allow (config_of reg y) now (snapshot y reg))
        as [oky by'] eqn:Hy.
      destruct (Breaker.allow (config_of reg y) now
                  (snapshot y (put x b' reg))) as [oky' by''] eqn:Hy'.
      simpl. intros ->. rewrite snapshot_put in Hy'.
      case_decide; subst; [|congruence].
      rewrite Hallow in Hy. injection Hy as -> ->.
      specialize (Hagain Hpos eq_refl). by rewrite Hy' in Hagain.
    + intros ->.
      destruct (Breaker.allow (config_of reg x) now
                  (snapshot x (put x b' reg))) as [okx bx] eqn:Hx.
      simpl. rewrite snapshot_put, decide_True in Hx by done.
      specialize (Hagain Hpos eq_refl). by rewrite Hx in Hagain.
Qed.

Lemma gate_breakers (now : Z) (candidates : list Backend) (reg : Registry) :
  config_of (gate now candidates reg).2 = config_of reg
  ∧ (∀ y, state (snapshot y reg) ≠ OPEN →
          state (snapshot y (gate now candidates reg).2) ≠ OPEN)
  ∧ (∀ y, blocked y now reg → blocked y now (gate now candidates reg).2)
  ∧ Forall (fun b => state (snapshot (id b) (gate now candidates reg).2) ≠ OPEN)
      (gate now candidates reg).1
  ∧ (∀ y, blocked y now reg →
          Forall (fun b => id b ≠ y) (gate now candidates reg).1).
Proof.
  revert reg. induction candidates as [|b rest IH]; intros reg; simpl.
  - split; [done|]. split; [done|]. split; [done|].
    split; [constructor|]. intros; constructor.
  - destruct (allow_step (id b) now reg)
      as (Hcfg & Hkeep & Hblk & Hok & Hrej & _).
    destruct (allow (id b) now reg) as [ok reg1]. simpl in *.
    destruct (IH reg1) as (Hcfg' & Hkeep' & Hblk' & Hall & Hout).
    destruct (gate now rest reg1) as [kept reg2]. simpl in *.
    split; [congruence|]. split; [by auto|]. split; [by auto|]. split.
    + destruct ok; [|done]. constructor; [|done]. by auto.
    + intros y Hy. specialize (Hout y (Hblk y Hy)).
      destruct ok; [|done]. constructor; [|done].
      intros Heq. subst y. specialize (Hrej Hy). done.
Qed.

Lemma gate_permits (now : Z) (candidates : list Backend) (reg : Registry) :
  (∀ x, 0 < successThreshold (config_of reg x))%nat →
  (∀ y, permits y now reg → permits y now (gate now candidates reg).2)
  ∧ Forall (fun b => permits (id b) now (gate now candidates reg).2)
      (gate now candidates reg).1.
Proof.
  revert reg. induction candidates as [|b rest IH]; intros reg Hpos; simpl.
  - split; [done|constructor].
  - destruct (allow_step (id b) now reg) as (Hcfg & _ & _ & _ & _ & Hperm).
    destruct (Hperm (Hpos (id b))) as [Hstay Hnow].
    destruct (allow (id b) now reg) as [ok reg1]. simpl in *.
    destruct (IH reg1) as [Hstay' Hall].
    { intros x. rewrite Hcfg. apply Hpos. }
    destruct (gate now rest reg1) as [kept reg2]. simpl in *.
    split; [by auto|].
    destruct ok; [|done]. constructor; [|done]. by auto.
Qed.

Lemma elem_of_chain (tbl : Table) (taskType : string) (b : Backend) :
  b ∈ chain tbl taskType → b ∈ backends tbl ∧ supports b taskType = true.
Proof.
  unfold chain. rewrite elem_of_app, elem_of_sort_by, !list_elem_of_filter.
  tauto.
Qed.

Lemma insert_by_perm (x : Backend) (l : list Backend) :
  insert_by cheaper x l ≡ₚ x :: l.
Proof.
  induction l as [|y l IH]; simpl; [done|].
  destruct (cheaper x y); [done|]. rewrite IH. apply perm_swap.
Qed.

Lemma sort_by_perm (l : list Backend) : sort_by cheaper l ≡ₚ l.
Proof.
  induction l as [|x l IH]; simpl; [done|]. rewrite insert_by_perm. by f_equiv.
Qed.

(** Asking a breaker does not change what any breaker answers at the same
    time. *)
Lemma allow_stable (x y : string) (now : Z) (reg : Registry) :
  (∀ z, 0 < successThreshold (config_of reg z))%nat →
  (allow y now (allow x now reg).2).1 = (allow y now reg).1.
Proof.
  intros Hpos. unfold allow.
  destruct (Breaker.allow (config_of reg x) now (snapshot x reg))
    as [ok b'] eqn:Hx. simpl.
  rewrite snapshot_put. case_decide as Hxy; [subst y|].
  - assert ((Breaker.allow (config_of reg x) now b').1 = ok) as Hagain.
    { specialize (Hpos x). unfold Breaker.allow in *.
      destruct (state (snapshot x reg)) eqn:Hst;
        [| case_bool_decide as Helapsed |]; simplify_eq; simpl;
        rewrite ?Hst; simpl; try done.
      - by apply bool_decide_eq_true.
      - by rewrite bool_decide_eq_false_2. }
    rewrite Hx. simpl.
    by destruct (Breaker.allow (config_of reg x) now b').
  - by destruct (Breaker.allow (config_of reg y) now (snapshot y reg)).
Qed.

Lemma gate_stable (y : string) (now : Z) (candidates : list Backend)
    (reg : Registry) :
  (∀ z, 0 < successThreshold (config_of reg z))%nat →
  (allow y now (gate now candidates reg).2).1 = (allow y now reg).1.
Proof.
  revert reg. induction candidates as [|b rest IH]; intros reg Hpos; simpl;
    [done|].
  pose proof (allow_stable (id b) y now reg Hpos) as Hb.
  destruct (allow_step (id b) now reg) as (Hcfg & _).
  destruct (allow (id b) now reg) as [ok reg1]. simpl in *.
  specialize (IH reg1 ltac:(intros z; rewrite Hcfg; apply Hpos)).
  destruct (gate now rest reg1) as [kept reg2]. simpl in *. congruence.
Qed.

(** The gate keeps exactly the candidates whose breaker allows a call. *)
Lemma gate_filter (now : Z) (candidates : list Backend) (reg : Registry) :
  (∀ z, 0 < successThreshold (config_of reg z))%nat →
  (gate now candidates reg).1
  = filter (fun b => (allow (id b) now reg).1 = true) candidates.
Proof.
  revert reg. induction candidates as [|b rest IH]; intros reg Hpos; simpl;
    [done|].
  pose proof (fun y => allow_stable (id b) y now reg Hpos) as Hb.
  destruct (allow_step (id b) now reg) as (Hcfg & _).
  rewrite filter_cons.
  destruct (allow (id b) now reg) as [ok reg1]. simpl in *.
  specialize (IH reg1 ltac:(intros z; rewrite Hcfg; apply Hpos)).
  destruct (gate now rest reg1) as [kept reg2]. simpl in *.
  assert (kept = filter (fun b0 => (allow (id b0) now reg).1 = true) rest)
    as ->.
  { rewrite IH. apply list_filter_iff. intros b0. by rewrite Hb. }
  destruct ok; by rewrite ?decide_True, ?decide_False by done.
Qed.

(** C5: of the backends of the table, [route] lists those that are capable
    of the task type and whose breaker allows a call, all of them and no
    other: first the entries for the primary, then every other such
    backend, in ascending cost, ties in ascending nominal latency. No
    listed backend has an OPEN breaker when [route] returns, and a backend
    whose breaker is OPEN with its timeout still running is not in the
    list, whatever else is available. That the list is exactly the capable
    backends whose breaker allows is for breakers that need at least one
    success to close, as every configured breaker does. *)
Theorem route_allowed_capable_ordered {PyDict : Type} (tbl : Table)
    (taskType : string) (context : PyDict) (now : Z) (reg : Registry) :
  let able := filter (fun b => supports b taskType = true) (backends tbl) in
  (∀ backendId, blocked backendId now reg →
     backendId ∉ (route tbl taskType context now reg).1)
  ∧ ∃ first fallbacks,
      (route tbl taskType context now reg).1 = id <$> (first ++ fallbacks)%list
      ∧ Forall (fun b => b ∈ backends tbl
                         ∧ supports b taskType = true
                         ∧ state (snapshot (id b)
                                    (route tbl taskType context now reg).2) ≠ OPEN)
          (first ++ fallbacks)%list
      ∧ Forall (fun b => id b = primary_of tbl taskType) first
      ∧ Forall (fun b => id b ≠ primary_of tbl taskType) fallbacks
      ∧ StronglySorted before fallbacks
      ∧ ((∀ x, 0 < successThreshold (config_of reg x))%nat →
         Forall (fun b => permits (id b) now
                            (route tbl taskType context now reg).2)
           (first ++ fallbacks)%list
         ∧ first
           = filter (fun b => (allow (id b) now reg).1 = true)
               (filter (fun b => id b = primary_of tbl taskType) able)
         ∧ fallbacks
           ≡ₚ filter (fun b => (allow (id b) now reg).1 = true)
                (filter (fun b => id b ≠ primary_of tbl taskType) able)).
Proof.
  intros able. unfold route.
  pose proof (gate_breakers now (chain tbl taskType) reg)
    as (_ & _ & _ & Hclosed & Hout).
  pose proof (gate_Forall (fun b => b ∈ backends tbl ∧ supports b taskType = true)
                now (chain tbl taskType) reg) as Hable.
  pose proof (gate_permits now (chain tbl taskType) reg) as Hperm.
  destruct (gate now (chain tbl taskType) reg) as [kept reg'] eqn:Hgate.
  simpl in *. split.
  - intros backendId Hblk [b [-> Hb]]%list_elem_of_fmap.
    specialize (Hout _ Hblk). rewrite Forall_forall in Hout.
    by apply (Hout b Hb).
  - assert (Hkept : kept = (gate now (chain tbl taskType) reg).1)
      by (by rewrite Hgate).
    unfold chain in Hkept. rewrite gate_app in Hkept. simpl in Hkept.
    fold able in Hkept.
    eexists _, _. split; [by rewrite Hkept|]. rewrite <- Hkept.
    split; [|split; [|split; [|split]]].
    + specialize (Hable ltac:(apply Forall_forall; apply elem_of_chain)).
      rewrite Forall_forall in Hable, Hclosed. apply Forall_forall.
      intros b Hb. destruct (Hable b Hb). auto.
    + apply gate_Forall, Forall_forall. by intros b [? _]%list_elem_of_filter.
    + apply gate_Forall, Forall_forall.
      by intros b [? _]%elem_of_sort_by%list_elem_of_filter.
    + apply gate_sorted, sort_by_sorted.
    + intros Hpos. split; [by destruct (Hperm Hpos)|].
      split; [by apply gate_filter|].
      destruct (gate_breakers now
                  (filter (fun b => id b = primary_of tbl taskType) able) reg)
        as (Hcfg & _).
      rewrite gate_filter by (intros z; rewrite Hcfg; apply Hpos).
      rewrite (list_filter_iff _ (fun b => (allow (id b) now reg).1 = true))
        by (intros b; by rewrite (gate_stable _ _ _ _ Hpos)).
      by rewrite sort_by_perm.
Qed.

End RouterFacts.

(** ** The orchestrator on the small deployment *)

Module ScenarioFacts.

Import Orchestrator System Scenario.

Lemma route_request_unknown_default_witness :
  ∃ model,
    route_request "collaboration_facilitation" [] = Ok model
    ∧ model = route_default [].
Proof.
  destruct (OrchestratorFacts.route_request_unknown_default
              "collaboration_facilitation" []) as (model & Hroute & Hdefault).
  exists model. split; [exact Hroute|]. apply Hdefault.
  apply (bool_decide_unpack _). vm_compute. exact I.
Defined.

Lemma validate_default_iff_witness :
  (validate_response_quality shouted "real_time_tutoring" = Ok true
   ↔ (50 < len shouted)%nat
     ∧ Forall (fun banned => contains banned (lower shouted) = false)
         banned_phrases
     ∧ (0x1.6666666666666p-1 <? check_coherence shouted)%float = true)
  ∧ len shouted = String.length shouted
  ∧ lower shouted = lower_ascii_text shouted.
Proof.
  destruct (OrchestratorFacts.validate_default_iff shouted "real_time_tutoring")
    as [Hiff Hascii].
  - apply (bool_decide_unpack _). vm_compute. exact I.
  - split; [exact Hiff|]. apply Hascii. reflexivity.
Defined.

(** The default validation lowers the response before it looks for the
    banned phrases, and counts characters, not bytes: a shouted banned
    phrase is found, and a response of fifty characters is too short
    although it takes fifty-six bytes. *)
Example default_validation_lowers_and_counts_characters :
  validate_response_quality shouted "real_time_tutoring" = Ok false
  ∧ contains "as an ai language model" (lower shouted) = true
  ∧ contains "as an ai language model" shouted = false
  ∧ validate_response_quality long_answer "real_time_tutoring" = Ok true
  ∧ len fifty_characters = 50%nat
  ∧ String.length fifty_characters = 56%nat
  ∧ validate_response_quality fifty_characters "real_time_tutoring" = Ok false.
Proof. vm_compute. repeat split. Qed.

Lemma all_failed_static_fallback_witness :
  ∃ d,
    (process_with_fallback "Is this plan fair?" "ethical_assessment" [] cold).1 = Ok d
    ∧ d !! "success" = Some (VBool false)
    ∧ d !! "error" = Some (VStr all_failed_error)
    ∧ d !! "fallback_response"
      = Some (VStr (generate_fallback_response "ethical_assessment"))
    ∧ dom d = ({["success"; "error"; "fallback_response"]} : gset string).
Proof.
  apply (ProcessFacts.all_failed_static_fallback
           "Is this plan fair?" "ethical_assessment" [] cold CLAUDE_3_SONNET).
  - reflexivity.
  - vm_compute. repeat split.
Defined.

Lemma rejected_response_not_surfaced_witness :
  try_models [CLAUDE_3_SONNET; GEMINI_PRO] "How do I start?" "real_time_tutoring" [] cold
  = try_models [GEMINI_PRO] "How do I start?" "real_time_tutoring" []
      {| world := 1;
         trace := [Call CLAUDE_3_SONNET "How do I start?";
                   RecordQualityIssue CLAUDE_3_SONNET "real_time_tutoring"];
         cache := ∅ |}
  ∧ ∀ d, (try_models [CLAUDE_3_SONNET; GEMINI_PRO] "How do I start?"
            "real_time_tutoring" [] cold).1 = Ok d →
         d !! "response" ≠ Some (VStr "ok").
Proof.
  apply (ProcessFacts.rejected_response_not_surfaced
           CLAUDE_3_SONNET [GEMINI_PRO] "How do I start?" "real_time_tutoring"
           [] cold "ok" 1).
  - reflexivity.
  - vm_compute. reflexivity.
Defined.

Lemma process_catches_exceptions_witness :
  try_models [GPT_4_TURBO; GEMINI_PRO] "Audit my plan" "strategy_audit" [] cold
  = try_models [GEMINI_PRO] "Audit my plan" "strategy_audit" []
      {| world := 1;
         trace := [Call GPT_4_TURBO "Audit my plan";
                   RecordFailure GPT_4_TURBO "strategy_audit"
                     "503 upstream connect error: provider unavailable"];
         cache := ∅ |}.
Proof.
  apply (proj1 (proj2 (ProcessFacts.process_catches_exceptions
                         "Audit my plan" "strategy_audit" [] cold))).
  - reflexivity.
  - reflexivity.
Defined.

(** C9 (counterexample): the call of the primary model is cancelled while
    it is awaited. The CancelledError leaves process_with_fallback: no
    dictionary is returned, no failure is recorded and no other model is
    tried. *)
Lemma cancelled_call_propagates :
  process_with_fallback (Collaborators0 := Examples.cancelled_collaborators)
    "How do I start?" "real_time_tutoring" [] cold
  = (Raise "CancelledError",
     {| world := 1; trace := [Call CLAUDE_3_SONNET "How do I start?"];
        cache := ∅ |}).
Proof. vm_compute. reflexivity. Qed.

(** C1 (counterexample): the request asks for the cache and the cache
    holds an answer under its fingerprint, whatever the fingerprint
    function is, and process_with_fallback still calls three models and
    returns the last one's fresh answer, with no from_cache field. *)
Lemma cached_request_still_calls_models :
  (∀ fingerprint : string → string → list (string * string) → string,
     cache (warm fingerprint)
       !! fingerprint "real_time_tutoring" "How do I start?" cache_wanted
     = Some cached_answer)
  ∧ (∀ fingerprint : string → string → list (string * string) → string,
       let run :=
         process_with_fallback "How do I start?" "real_time_tutoring"
           cache_wanted (warm fingerprint) in
       called (trace run.2) = [CLAUDE_3_SONNET; GPT_4_TURBO; GEMINI_PRO]
       ∧ match run.1 with
         | Ok d =>
             d !! "response" = Some (VStr long_answer)
             ∧ d !! "response" ≠ Some (VStr cached_answer)
             ∧ d !! "from_cache" = None
         | Raise _ => False
         end).
Proof.
  split; intros fingerprint; [apply lookup_singleton_eq|].
  vm_compute. repeat split; discriminate.
Qed.

(** C2 (counterexample): the primary model of a strategy audit raises and
    the next one is tried, yet no breaker has a failure reported: the
    breaker registry is as it was, with no failure counted for the model. *)
Lemma failed_primary_breaker_untouched :
  let run := process "Audit my plan" "strategy_audit" [] (system cold) in
  take 3 (trace (orchestrator run.2))
  = [Call GPT_4_TURBO "Audit my plan";
     RecordFailure GPT_4_TURBO "strategy_audit"
       "503 upstream connect error: provider unavailable";
     Call CLAUDE_3_SONNET "Audit my plan"]
  ∧ registry run.2 = registry (system cold)
  ∧ Breaker.total_failures
      (Breaker.metrics (Router.snapshot (value GPT_4_TURBO) (registry run.2))) = 0%nat.
Proof. vm_compute. repeat split. Qed.

(** C7 (counterexample): the primary model of a tutoring request returns a
    response that is too short and the next model is tried, yet no breaker
    has a failure reported for it: the rejection is a quality issue in the
    metrics, and the breaker registry is as it was. *)
Lemma rejected_response_breaker_untouched :
  let run := process "How do I start?" "real_time_tutoring" [] (system cold) in
  call_model CLAUDE_3_SONNET "How do I start?" [] 0%nat = (Ok "ok", 1%nat)
  ∧ validate_response_quality "ok" "real_time_tutoring" = Ok false
  ∧ take 3 (trace (orchestrator run.2))
    = [Call CLAUDE_3_SONNET "How do I start?";
       RecordQualityIssue CLAUDE_3_SONNET "real_time_tutoring";
       Call GPT_4_TURBO "How do I start?"]
  ∧ registry run.2 = registry (system cold)
  ∧ Breaker.total_failures
      (Breaker.metrics (Router.snapshot (value CLAUDE_3_SONNET) (registry run.2)))
    = 0%nat.
Proof. vm_compute. repeat split. Qed.


(** The breaker is still closed after four failures in a row. *)
Example four_failures_stay_closed :
  Breaker.state
    (Breaker.run Breaker.default_config
       (Breaker.ReportFailure <$> [1; 2; 3; 4]%Z)
       (Breaker.fresh "ai_model_gpt-4o"))
  = Breaker.CLOSED.
Proof. reflexivity. Qed.

(** One round of a breaker with the default thresholds: five failures open
    it, a check after 30 seconds is refused, a check after 64 seconds turns
    it HALF_OPEN, and a failure after one success opens it again with the
    timer restarted. *)
Example half_open_failure_reopens :
  let opened :=
    Breaker.run Breaker.default_config
      (Breaker.ReportFailure <$> [0; 1; 2; 3; 4]%Z)
      (Breaker.fresh "ai_model_gpt-4o") in
  let probing := (Breaker.allow Breaker.default_config 68 opened).2 in
  let reopened :=
    Breaker.run Breaker.default_config
      [Breaker.ReportSuccess; Breaker.ReportFailure 70] probing in
  Breaker.state opened = Breaker.OPEN
  ∧ Breaker.opened_at opened = 4%Z
  ∧ Breaker.allow Breaker.default_config 34 opened = (false, opened)
  ∧ (Breaker.allow Breaker.default_config 68 opened).1 = true
  ∧ Breaker.state probing = Breaker.HALF_OPEN
  ∧ Breaker.state reopened = Breaker.OPEN
  ∧ Breaker.opened_at reopened = 70%Z.
Proof. vm_compute. done. Qed.

Lemma limit_then_reject_witness :
  (RateLimiter.allowed
     <$> (RateLimiter.admissions "u1" RateLimiter.free (burst ++ [1210%N])%list
            RateLimiter.no_quotas).1
   = (replicate 10 true ++ [false])%list
   ∧ ∀ k, RateLimiter.request_count "u1" k 1200
            (RateLimiter.admissions "u1" RateLimiter.free
               (burst ++ [1210%N])%list RateLimiter.no_quotas).2
          = 10%N)
  ∧ ∃ d, RateLimiter.rejection
           (RateLimiter.checkAndConsume "u1" RateLimiter.free 1 1210
              (RateLimiter.admissions "u1" RateLimiter.free burst
                 RateLimiter.no_quotas).2).1
         = Some (RateLimiter.RATE_LIMITED, Some d)
         ∧ (0 < d)%N.
Proof.
  destruct (RateLimiterFacts.limit_then_reject "u1" RateLimiter.free)
    as (_ & _ & Hreject & _ & _ & Hburst & Hnew & _).
  split.
  - assert (Hsame : ∀ t, t ∈ (burst ++ [1210%N])%list
                         → (t / 60 = 1200 / 60)%N).
    { intros t Ht. apply list_elem_of_In in Ht. simpl in Ht.
      repeat (destruct Ht as [<-|Ht]; [reflexivity|]). destruct Ht. }
    pose proof (Hburst 1200%N (burst ++ [1210%N])%list RateLimiter.no_quotas
                  Hsame) as Hfirst.
    cbv zeta in Hfirst. rewrite Hnew in Hfirst. exact Hfirst.
  - apply Hreject. reflexivity.
Defined.

Lemma route_allowed_capable_ordered_witness :
  ("A" ∉ (Router.route wide_table "strategy_audit" () 1030 A_open).1)
  ∧ ∃ first fallbacks,
      (Router.route wide_table "strategy_audit" () 1030 A_open).1
      = Router.id <$> (first ++ fallbacks)%list
      ∧ StronglySorted Router.before fallbacks
      ∧ Forall (fun b => Router.permits (Router.id b) 1030
                           (Router.route wide_table "strategy_audit" () 1030
                              A_open).2)
          (first ++ fallbacks)%list
      ∧ first
        = filter (fun b => (Router.allow (Router.id b) 1030 A_open).1 = true)
            (filter (fun b => Router.id b
                              = Router.primary_of wide_table "strategy_audit")
               (filter (fun b => Router.supports b "strategy_audit" = true)
                  (Router.backends wide_table)))
      ∧ fallbacks
        ≡ₚ filter (fun b => (Router.allow (Router.id b) 1030 A_open).1 = true)
             (filter (fun b => Router.id b
                               ≠ Router.primary_of wide_table "strategy_audit")
                (filter (fun b => Router.supports b "strategy_audit" = true)
                   (Router.backends wide_table))).
Proof.
  destruct (RouterFacts.route_allowed_capable_ordered
              wide_table "strategy_audit" () 1030 A_open)
    as (Hblocked & first & fallbacks & Hroute & _ & _ & _ & Hsorted & Hexact).
  split.
  - apply Hblocked. split; [reflexivity|]. vm_compute. reflexivity.
  - exists first, fallbacks. split; [exact Hroute|]. split; [exact Hsorted|].
    apply Hexact. intros x. simpl. lia.
Defined.

(** With A's breaker open, a strategy audit is routed to the three other
    capable backends, the cheapest first and the quicker of the two that
    cost the same before the slower; once the timeout is over A is tried
    again, ahead of them. *)
Example route_orders_fallbacks :
  (Router.route wide_table "strategy_audit" () 1030 A_open).1 = ["E"; "D"; "B"]
  ∧ (Router.route wide_table "strategy_audit" () 1060 A_open).1
    = ["A"; "E"; "D"; "B"]
  ∧ (Router.route wide_table "code_review" () 1060 A_open).1 = ["E"; "C"; "B"].
Proof. vm_compute. done. Qed.

(** With A's breaker open, a strategy audit is routed to B alone; once the
    timeout is over A is tried again, ahead of B. *)
Example route_skips_open_backend :
  (Router.route table "strategy_audit" () 1030 A_open).1 = ["B"]
  ∧ (Router.route table "strategy_audit" () 1060 A_open).1 = ["A"; "B"]
  ∧ Breaker.state
      (Router.snapshot "A" (Router.route table "strategy_audit" () 1060 A_open).2)
    = Breaker.HALF_OPEN.
Proof. vm_compute. done. Qed.

End ScenarioFacts.

(** ** Python's sorted *)

Module PyFacts.

Lemma strongly_sorted_weaken {A : Type} (R S : A → A → Prop) (l : list A) :
  (∀ a b, R a b → S a b) → StronglySorted R l → StronglySorted S l.
Proof.
  intros HRS. induction 1 as [|x l Hl IH Hx]; constructor; [done|].
  eapply Forall_impl; [exact Hx|]. intros b. apply HRS.
Qed.

Section Sorted.

Context {A : Type} (le : A → A → bool).

Lemma insert_perm (x : A) (l : list A) : Py.insert le x l ≡ₚ x :: l.
Proof.
  induction l as [|y l IH]; simpl; [done|].
  destruct (le x y); [done|]. rewrite IH. apply perm_swap.
Qed.

Lemma sorted_perm (l : list A) : Py.sorted le l ≡ₚ l.
Proof.
  induction l as [|x l IH]; simpl; [done|].
  rewrite insert_perm. by f_equiv.
Qed.

Hypothesis le_total : ∀ x y, le x y = true ∨ le y x = true.
Hypothesis le_trans : ∀ x y z, le x y = true → le y z = true → le x z = true.




End Sorted.

Section SortedOn.

Context {A : Type} (le : A → A → bool) (P : A → Prop) (R : A → A → Prop).

Hypothesis le_R : ∀ x y, P x → P y → le x y = true → R x y.
Hypothesis not_le_R : ∀ x y, P x → P y → le x y = false → R y x.
Hypothesis R_trans : ∀ x y z, R x y → R y z → R x z.

Lemma insert_sorted_on (x : A) (l : list A) :
  P x → Forall P l → StronglySorted R l → StronglySorted R (Py.insert le x l).
Proof.
  intros Hx. induction l as [|y l IH]; simpl; intros HP Hs.
  - repeat constructor.
  - apply Forall_cons in HP as [Hy HP].
    apply StronglySorted_cons in Hs as [Hyl Hl].
    destruct (le x y) eqn:Hxy.
    + apply StronglySorted_cons. split; [|by apply StronglySorted_cons].
      constructor; [by apply le_R|]. eapply Forall_impl; [exact Hyl|].
      intros z Hyz. eapply R_trans; [|exact Hyz]. by apply le_R.
    + apply StronglySorted_cons. split; [|by apply IH].
      rewrite insert_perm. constructor; [|done]. by apply not_le_R.
Qed.

(** Sorting items among which the order is total gives a sorted list. *)
Lemma sorted_sorted_on (l : list A) :
  Forall P l → StronglySorted R (Py.sorted le l).
Proof.
  induction l as [|x l IH]; simpl; intros HP; [constructor|].
  apply Forall_cons in HP as [Hx HP].
  apply insert_sorted_on; [done| |by apply IH].
  by rewrite sorted_perm.
Qed.

End SortedOn.

End PyFacts.

(** ** The order of the floats *)

Module FloatFacts.

Lemma rank_lt_irrefl (r : Z * Z * Z) : ¬ Py.rank_lt r r.
Proof. unfold Py.rank_lt. lia. Qed.

Lemma rank_lt_trans (r s t : Z * Z * Z) :
  Py.rank_lt r s → Py.rank_lt s t → Py.rank_lt r t.
Proof. unfold Py.rank_lt. lia. Qed.

Lemma rank_total (r s : Z * Z * Z) : Py.rank_lt r s ∨ r = s ∨ Py.rank_lt s r.
Proof.
  destruct r as [[a b] c], s as [[a' b'] c']. unfold Py.rank_lt. simpl.
  destruct (Z.lt_trichotomy a a') as [?|[->|?]]; [lia| |lia].
  destruct (Z.lt_trichotomy b b') as [?|[->|?]]; [lia| |lia].
  destruct (Z.lt_trichotomy c c') as [?|[->|?]]; [lia| |lia].
  right. by left.
Qed.

(** What [SFcompare] says, in terms of the places of its arguments. *)
Lemma compare_rank_sf (x y : spec_float) :
  match SFcompare x y with
  | Some Lt => x ≠ S754_nan ∧ y ≠ S754_nan ∧ Py.rank_lt (Py.rank_sf x) (Py.rank_sf y)
  | Some Eq => x ≠ S754_nan ∧ y ≠ S754_nan ∧ Py.rank_sf x = Py.rank_sf y
  | Some Gt => x ≠ S754_nan ∧ y ≠ S754_nan ∧ Py.rank_lt (Py.rank_sf y) (Py.rank_sf x)
  | None => x = S754_nan ∨ y = S754_nan
  end.
Proof.
  destruct x as [sx|sx| |sx mx ex], y as [sy|sy| |sy my ey];
    try destruct sx; try destruct sy; simpl; auto;
    try (repeat split; try discriminate; unfold Py.rank_lt; simpl; lia).
  all: change (Pos.compare_cont Eq mx my) with (Pos.compare mx my).
  all: destruct (Z.compare_spec ex ey) as [->|?|?];
    [destruct (Pos.compare_spec mx my) as [->|?|?]|..]; simpl.
  all: repeat split; try discriminate; unfold Py.rank_lt; simpl; lia.
Qed.

Lemma is_nan_iff (x : float) : is_nan x = true ↔ Prim2SF x = S754_nan.
Proof.
  unfold is_nan. rewrite FloatAxioms.eqb_spec. unfold SFeqb.
  pose proof (compare_rank_sf (Prim2SF x) (Prim2SF x)) as Hc.
  destruct (SFcompare (Prim2SF x) (Prim2SF x)) as [[| |]|]; simpl.
  - split; [done|]. by destruct Hc as (? & _).
  - destruct Hc as (_ & _ & Hlt). by apply rank_lt_irrefl in Hlt.
  - destruct Hc as (_ & _ & Hlt). by apply rank_lt_irrefl in Hlt.
  - split; [|done]. by destruct Hc.
Qed.

Lemma is_number_iff (x : float) : is_nan x = false ↔ Prim2SF x ≠ S754_nan.
Proof. rewrite <- is_nan_iff. by destruct (is_nan x). Qed.

Lemma ltb_iff (x y : float) :
  (x <? y)%float = true
  ↔ is_nan x = false ∧ is_nan y = false ∧ Py.rank_lt (Py.rank x) (Py.rank y).
Proof.
  rewrite FloatAxioms.ltb_spec, !is_number_iff. unfold SFltb, Py.rank.
  pose proof (compare_rank_sf (Prim2SF x) (Prim2SF y)) as Hc.
  destruct (SFcompare (Prim2SF x) (Prim2SF y)) as [[| |]|].
  - destruct Hc as (_ & _ & Hc). split; [done|]. intros (_ & _ & Hlt).
    rewrite Hc in Hlt. by apply rank_lt_irrefl in Hlt.
  - by split.
  - destruct Hc as (_ & _ & Hc). split; [done|]. intros (_ & _ & Hlt).
    destruct (rank_lt_irrefl _ (rank_lt_trans _ _ _ Hlt Hc)).
  - split; [done|]. intros (? & ? & _). by destruct Hc.
Qed.

Lemma leb_iff (x y : float) :
  (x <=? y)%float = true
  ↔ is_nan x = false ∧ is_nan y = false
    ∧ (Py.rank_lt (Py.rank x) (Py.rank y) ∨ Py.rank x = Py.rank y).
Proof.
  rewrite FloatAxioms.leb_spec, !is_number_iff. unfold SFleb, Py.rank.
  pose proof (compare_rank_sf (Prim2SF x) (Prim2SF y)) as Hc.
  destruct (SFcompare (Prim2SF x) (Prim2SF y)) as [[| |]|].
  - destruct Hc as (? & ? & Hc). split; [|done]. intros _. auto.
  - destruct Hc as (? & ? & Hc). split; [|done]. intros _. auto.
  - destruct Hc as (_ & _ & Hc). split; [done|]. intros (_ & _ & [Hlt|Heq]).
    + destruct (rank_lt_irrefl _ (rank_lt_trans _ _ _ Hlt Hc)).
    + rewrite Heq in Hc. by apply rank_lt_irrefl in Hc.
  - split; [done|]. intros (? & ? & _). by destruct Hc.
Qed.

Lemma ltb_leb (x y : float) : (x <? y)%float = true → (x <=? y)%float = true.
Proof. rewrite ltb_iff, leb_iff. tauto. Qed.

Lemma leb_trans (x y z : float) :
  (x <=? y)%float = true → (y <=? z)%float = true → (x <=? z)%float = true.
Proof.
  rewrite !leb_iff. intros (? & ? & Hxy) (_ & ? & Hyz).
  repeat (split; [done|]).
  destruct Hxy as [Hxy| ->]; [|done].
  destruct Hyz as [Hyz| <-]; [|by left].
  left. by eapply rank_lt_trans.
Qed.

Lemma ltb_leb_trans (x y z : float) :
  (x <? y)%float = true → (y <=? z)%float = true → (x <? z)%float = true.
Proof.
  rewrite !ltb_iff, leb_iff. intros (? & ? & Hxy) (_ & ? & Hyz).
  repeat (split; [done|]).
  destruct Hyz as [Hyz| <-]; [|done]. by eapply rank_lt_trans.
Qed.

Lemma ltb_trans (x y z : float) :
  (x <? y)%float = true → (y <? z)%float = true → (x <? z)%float = true.
Proof. intros Hxy Hyz%ltb_leb. by eapply ltb_leb_trans. Qed.

(** Of two floats that are numbers, one is less than the other or the
    other is at most the one. *)
Lemma ltb_negb_leb (x y : float) :
  is_nan x = false → is_nan y = false →
  (x <? y)%float = negb (y <=? x)%float.
Proof.
  intros Hx Hy.
  destruct (rank_total (Py.rank x) (Py.rank y)) as [Hlt|[Heq|Hgt]].
  - rewrite (proj2 (ltb_iff x y)) by done.
    destruct (y <=? x)%float eqn:Hle; [|done].
    apply leb_iff in Hle as (_ & _ & [Hyx|Heq]).
    + destruct (rank_lt_irrefl _ (rank_lt_trans _ _ _ Hlt Hyx)).
    + rewrite Heq in Hlt. by apply rank_lt_irrefl in Hlt.
  - rewrite (proj2 (leb_iff y x)) by (by repeat split; [..|right]).
    destruct (x <? y)%float eqn:Hlt; [|done].
    apply ltb_iff in Hlt as (_ & _ & Hlt).
    rewrite Heq in Hlt. by apply rank_lt_irrefl in Hlt.
  - rewrite (proj2 (leb_iff y x)) by (by repeat split; [..|left]).
    destruct (x <? y)%float eqn:Hlt; [|done].
    apply ltb_iff in Hlt as (_ & _ & Hlt).
    destruct (rank_lt_irrefl _ (rank_lt_trans _ _ _ Hlt Hgt)).
Qed.

(** A float that is no number is neither below nor above anything. *)
Lemma nan_compares (x y : float) :
  is_nan x = true →
  (x <? y)%float = false ∧ (y <? x)%float = false
  ∧ (x <=? y)%float = false ∧ (y <=? x)%float = false.
Proof.
  intros Hx. repeat split; apply not_true_iff_false;
    rewrite ?ltb_iff, ?leb_iff; intros (? & ? & _); congruence.
Qed.

End FloatFacts.

(** ** Sequencing and selection of learning paths *)

Module PathsFacts.

Import Paths.

#[local] Set Warnings "-inexact-float".

(** Three tests of which each item passes at most one split what passes
    any of them. *)
Lemma filter_three {A : Type} (p1 p2 p3 : A → bool) (l : list A) :
  (∀ x, match p1 x, p2 x, p3 x with
        | true, false, false | false, true, false | false, false, true
        | false, false, false => True
        | _, _, _ => False
        end) →
  (List.filter p1 l ++ List.filter p2 l ++ List.filter p3 l)%list
  ≡ₚ List.filter (fun x => p1 x || p2 x || p3 x) l.
Proof.
  intros Hone. induction l as [|x l IH]; simpl; [done|].
  specialize (Hone x).
  destruct (p1 x), (p2 x), (p3 x); simpl; try done.
  - by f_equiv.
  - rewrite <- Permutation_middle. by f_equiv.
  - rewrite app_assoc, <- Permutation_middle, <- app_assoc. by f_equiv.
Qed.

Lemma elem_of_filter_bool {A : Type} (p : A → bool) (l : list A) (x : A) :
  x ∈ List.filter p l ↔ x ∈ l ∧ p x = true.
Proof. rewrite !list_elem_of_In. apply filter_In. Qed.

(** The three difficulty groups of [sequence_sequential] take every
    difficulty that is a number, each into one group, and no other. *)
Lemma difficulty_groups (d : float) :
  match (d <? 0.3)%float, (0.3 <=? d)%float && (d <? 0.7)%float,
        (0.7 <=? d)%float with
  | true, false, false | false, true, false | false, false, true =>
      is_nan d = false
  | false, false, false => is_nan d = true
  | _, _, _ => False
  end.
Proof.
  destruct (is_nan d) eqn:Hnan.
  - destruct (FloatFacts.nan_compares d 0.3 Hnan) as (-> & _ & _ & ->).
    destruct (FloatFacts.nan_compares d 0.7 Hnan) as (-> & _ & _ & ->).
    done.
  - rewrite (FloatFacts.ltb_negb_leb d 0.3), (FloatFacts.ltb_negb_leb d 0.7)
      by done.
    destruct (0.3 <=? d)%float eqn:H3; destruct (0.7 <=? d)%float eqn:H7;
      simpl; try done.
    assert ((0.3 <=? d)%float = true) as Habove; [|congruence].
    eapply FloatFacts.leb_trans; [|exact H7]. reflexivity.
Qed.

Lemma sequence_sequential_ordered (nodes : list LearningNode) :
  ∃ ordered,
    sequence_sequential nodes = id <$> ordered
    ∧ ordered ≡ₚ List.filter (fun n => negb (is_nan (difficulty n))) nodes
    ∧ StronglySorted (fun a b => (difficulty a <=? difficulty b)%float = true)
        ordered.
Proof.
  unfold sequence_sequential.
  set (easy := List.filter (fun n => (difficulty n <? 0.3)%float) nodes).
  set (medium := List.filter (fun n => (0.3 <=? difficulty n)%float
                                       && (difficulty n <? 0.7)%float) nodes).
  set (hard := List.filter (fun n => (0.7 <=? difficulty n)%float) nodes).
  eexists. split; [reflexivity|]. split.
  - rewrite !PyFacts.sorted_perm. unfold easy, medium, hard.
    rewrite filter_three.
    + erewrite filter_ext; [reflexivity|]. intros n. simpl.
      pose proof (difficulty_groups (difficulty n)) as Hg.
      destruct (difficulty n <? 0.3)%float,
        ((0.3 <=? difficulty n)%float && (difficulty n <? 0.7)%float),
        (0.7 <=? difficulty n)%float; simpl; try done; by rewrite Hg.
    + intros n. pose proof (difficulty_groups (difficulty n)) as Hg.
      by destruct (difficulty n <? 0.3)%float,
        ((0.3 <=? difficulty n)%float && (difficulty n <? 0.7)%float),
        (0.7 <=? difficulty n)%float.
  - assert (Hsorted : ∀ l, Forall (fun n => is_nan (difficulty n) = false) l →
                           StronglySorted
                             (fun a b => (difficulty a <=? difficulty b)%float = true)
                             (Py.sorted by_difficulty l)).
    { intros l. apply PyFacts.sorted_sorted_on.
      - intros a b Ha Hb. unfold by_difficulty.
        rewrite (FloatFacts.ltb_negb_leb _ _ Hb Ha), negb_involutive. done.
      - intros a b Ha Hb. unfold by_difficulty. rewrite negb_false_iff.
        apply FloatFacts.ltb_leb.
      - intros a b c. apply FloatFacts.leb_trans. }
    assert (Heasy : ∀ n, n ∈ easy → (difficulty n <? 0.3)%float = true).
    { intros n. unfold easy. rewrite elem_of_filter_bool. tauto. }
    assert (Hmedium : ∀ n, n ∈ medium →
                           (0.3 <=? difficulty n)%float = true
                           ∧ (difficulty n <? 0.7)%float = true).
    { intros n. unfold medium. rewrite elem_of_filter_bool, andb_true_iff. tauto. }
    assert (Hhard : ∀ n, n ∈ hard → (0.7 <=? difficulty n)%float = true).
    { intros n. unfold hard. rewrite elem_of_filter_bool. tauto. }
    apply StronglySorted_app_2; [|apply Hsorted|].
    + intros a b Ha [Hb|Hb]%elem_of_app.
      * rewrite PyFacts.sorted_perm in Ha, Hb.
        apply FloatFacts.ltb_leb.
        eapply FloatFacts.ltb_leb_trans; [by apply Heasy|by apply Hmedium].
      * rewrite PyFacts.sorted_perm in Ha, Hb.
        apply FloatFacts.ltb_leb.
        eapply FloatFacts.ltb_leb_trans; [by apply Heasy|].
        eapply FloatFacts.leb_trans; [|by apply Hhard]. reflexivity.
    + apply Forall_forall. intros n Hn%Heasy.
      by apply FloatFacts.ltb_iff in Hn as (? & _).
    + apply StronglySorted_app_2; [|apply Hsorted..].
      * intros a b Ha Hb. rewrite PyFacts.sorted_perm in Ha, Hb.
        apply FloatFacts.ltb_leb.
        eapply FloatFacts.ltb_leb_trans; [by apply Hmedium|by apply Hhard].
      * apply Forall_forall. intros n [_ Hn]%Hmedium.
        by apply FloatFacts.ltb_iff in Hn as (? & _).
      * apply Forall_forall. intros n Hn%Hhard.
        by apply FloatFacts.leb_iff in Hn as (_ & ? & _).
Qed.

(** X1: sequence_sequential returns the ids of the nodes whose difficulty
    is a number, each as often as it occurs, in an order of non-decreasing
    difficulty over the whole list: the three difficulty groups lose none
    of them and follow one another in order. A node whose difficulty is
    not a number is in none of the groups and is left out. *)
Theorem sequence_sequential_sorted (nodes : list LearningNode) :
  ∃ ordered,
    sequence_sequential nodes = id <$> ordered
    ∧ ordered ≡ₚ List.filter (fun n => negb (is_nan (difficulty n))) nodes
    ∧ StronglySorted (fun a b => (difficulty a <=? difficulty b)%float = true)
        ordered.
Proof. apply sequence_sequential_ordered. Qed.

Lemma filter_filter_bool {A : Type} (t p : A → bool) (l : list A) :
  List.filter p (List.filter t l) = List.filter (fun x => t x && p x) l.
Proof.
  induction l as [|x l IH]; simpl; [done|].
  destruct (t x); simpl; [|done]. destruct (p x); by rewrite IH.
Qed.

(** Four tests of which each item passes at most one. *)
Lemma filter_four {A : Type} (q1 q2 q3 q4 : A → bool) (l : list A) :
  (∀ x, match q1 x, q2 x, q3 x, q4 x with
        | true, false, false, false | false, true, false, false
        | false, false, true, false | false, false, false, true
        | false, false, false, false => True
        | _, _, _, _ => False
        end) →
  (List.filter q1 l ++ List.filter q2 l ++ List.filter q3 l ++ List.filter q4 l)%list
  ≡ₚ List.filter (fun x => q1 x || q2 x || q3 x || q4 x) l.
Proof.
  intros Hone. induction l as [|x l IH]; simpl; [done|].
  specialize (Hone x).
  destruct (q1 x), (q2 x), (q3 x), (q4 x); simpl; try done.
  - by f_equiv.
  - rewrite <- Permutation_middle. by f_equiv.
  - rewrite (app_assoc (List.filter q1 l)), <- Permutation_middle,
      <- app_assoc. by f_equiv.
  - rewrite (app_assoc (List.filter q2 l)), (app_assoc (List.filter q1 l)),
      <- Permutation_middle, <- !app_assoc. by f_equiv.
Qed.

Lemma has_type_exclusive (t1 t2 : string) (n : LearningNode) :
  t1 ≠ t2 → has_type t1 n = true → has_type t2 n = false.
Proof.
  unfold has_type. intros Hne Ht1%bool_decide_eq_true.
  apply bool_decide_eq_false. congruence.
Qed.

(** The two levels at which [sequence_spiral] takes a concept make up the
    concepts below 0.7, and no concept is taken twice. *)
Lemma concept_levels (d : float) :
  (d <? 0.4)%float || ((0.4 <=? d)%float && (d <? 0.7)%float) = (d <? 0.7)%float
  ∧ ((d <? 0.4)%float = true → (0.4 <=? d)%float = false).
Proof.
  destruct (is_nan d) eqn:Hnan.
  - destruct (FloatFacts.nan_compares d 0.4 Hnan) as (-> & _ & _ & ->).
    by destruct (FloatFacts.nan_compares d 0.7 Hnan) as (-> & _).
  - rewrite (FloatFacts.ltb_negb_leb d 0.4) by done.
    destruct (0.4 <=? d)%float eqn:H4; simpl; [done|]. split; [|done].
    symmetry. apply (FloatFacts.ltb_trans d 0.4 0.7); [|reflexivity].
    by rewrite (FloatFacts.ltb_negb_leb d 0.4), H4.
Qed.

(** X2: sequence_spiral returns the ids of exactly the nodes it has a
    place for, each once: concepts below 0.7, skills below 0.4 and
    projects below 0.5. Assessments and harder nodes are left out of the
    sequence. *)
Theorem sequence_spiral_kept (nodes : list LearningNode) :
  ∃ kept,
    sequence_spiral nodes = id <$> kept
    ∧ kept ≡ₚ List.filter in_spiral nodes.
Proof.
  unfold sequence_spiral. rewrite !filter_filter_bool. simpl.
  rewrite <- !fmap_app, <- !app_assoc. eexists. split; [reflexivity|].
  rewrite filter_four.
  - erewrite filter_ext; [reflexivity|]. intros n. simpl. unfold in_spiral.
    destruct (concept_levels (difficulty n)) as [Hlevels _].
    destruct (has_type "concept" n) eqn:Hc; simpl.
    + rewrite (has_type_exclusive "concept" "skill" n), 
        (has_type_exclusive "concept" "project" n) by done. simpl.
      rewrite !orb_false_r. exact Hlevels.
    + by rewrite !orb_false_r.
  - intros n. destruct (concept_levels (difficulty n)) as [_ Honce].
    destruct (has_type "concept" n) eqn:Hc; simpl.
    + rewrite (has_type_exclusive "concept" "skill" n), 
        (has_type_exclusive "concept" "project" n) by done. simpl.
      destruct (difficulty n <? 0.4)%float; [by rewrite Honce|].
      by destruct ((0.4 <=? difficulty n)%float && (difficulty n <? 0.7)%float).
    + destruct (has_type "skill" n) eqn:Hs; simpl.
      * rewrite (has_type_exclusive "skill" "project" n) by done. simpl.
        by destruct (difficulty n <? 0.4)%float.
      * by destruct (has_type "project" n && (difficulty n <? 0.5)%float).
Qed.

Section WithGenerator.

Context {Constraints : Type} `{!Generator Constraints}.


Lemma sequencing_strategies_unknown (learning_style : string) :
  learning_style ∉ ["sequential"; "spiral"; "project_based"; "challenge_based"] →
  sequencing_strategies !! learning_style = None.
Proof.
  intros Hnot. unfold sequencing_strategies. by apply not_elem_of_list_to_map_1.
Qed.

(** X4: sequence_nodes never misses a key of its strategy table: a
    learning style outside the four strategies is served by
    sequence_default, and the style "sequential" returns the ids of the
    nodes whose difficulty is a number, in non-decreasing difficulty. *)
Theorem sequence_nodes_styles (nodes : list LearningNode) :
  (∀ learning_style,
     ∃ sequence,
       sequence_nodes nodes learning_style = Ok sequence
       ∧ (learning_style ∉ ["sequential"; "spiral"; "project_based";
                            "challenge_based"] →
          sequence = sequence_default nodes))
  ∧ ∃ ordered,
      sequence_nodes nodes "sequential" = Ok (id <$> ordered)
      ∧ ordered ≡ₚ List.filter (fun n => negb (is_nan (difficulty n))) nodes
      ∧ StronglySorted (fun a b => (difficulty a <=? difficulty b)%float = true)
          ordered.
Proof.
  split.
  - intros learning_style. unfold sequence_nodes.
    destruct (has_key sequencing_strategies learning_style) eqn:Hk.
    + destruct (OrchestratorFacts.has_key_getitem _ _ Hk) as [strategy Hs].
      rewrite Hs. simpl. eexists. split; [done|].
      intros Hnot%sequencing_strategies_unknown.
      by rewrite (OrchestratorFacts.has_key_false _ _ Hnot) in Hk.
    + eauto.
  - destruct (sequence_sequential_ordered nodes) as (ordered & Hseq & Hperm & Hs).
    exists ordered. split; [|done]. by rewrite <- Hseq.
Qed.

End WithGenerator.

#[local] Existing Instance Examples.shortest_first.


(** The lesson whose difficulty is not a number is in no sequence. *)
Example lessons_in_sequence :
  sequence_sequential Examples.lessons = ["intro"; "drill"; "types"; "loops"]
  ∧ sequence_spiral Examples.lessons = ["intro"; "drill"; "types"]
  ∧ List.filter (fun n => is_nan (difficulty n)) Examples.lessons
    = [Examples.lesson "broken" "concept" (0 / 0)%float].
Proof. vm_compute. done. Qed.

Lemma sequence_nodes_styles_witness :
  ∃ sequence,
    sequence_nodes [] "kinesthetic" = Ok sequence
    ∧ sequence = sequence_default [].
Proof.
  destruct (proj1 (sequence_nodes_styles []) "kinesthetic")
    as (sequence & Hrun & Hdefault).
  exists sequence. split; [exact Hrun|]. apply Hdefault.
  apply (bool_decide_unpack _). vm_compute. exact I.
Defined.

End PathsFacts.

(** ** Learning patterns, predictions and recommendations *)

Module AnalyticsFacts.

Import Analytics.

#[local] Set Warnings "-inexact-float".

(** X5: a learner for whom none of the eight features that
    detect_learning_patterns reads is recorded gets no pattern: the
    defaults of the lookups never trigger one. *)
Theorem no_features_no_patterns (features : gmap string float) :
  (∀ key, key ∈ pattern_features → features !! key = None) →
  detect_learning_patterns features = [].
Proof.
  intros Hnone. unfold detect_learning_patterns, Py.get.
  rewrite !Hnone by (unfold pattern_features; set_solver).
  reflexivity.
Qed.

Lemma no_features_no_patterns_witness :
  detect_learning_patterns {[ "engagement_score" := 0.25%float ]} = [].
Proof.
  apply no_features_no_patterns. intros key Hkey.
  apply lookup_singleton_None. intros <-. revert Hkey.
  apply (bool_decide_unpack _). vm_compute. exact I.
Defined.

(** X6: the patterns detect_learning_patterns returns are a selection from
    rapid_prototyper, deep_thinker, social_learner, needs_support in this
    order: at most four, none twice. *)
Theorem patterns_in_fixed_order (features : gmap string float) :
  detect_learning_patterns features
  `sublist_of` [rapid_prototyper; deep_thinker; social_learner; needs_support].
Proof.
  unfold detect_learning_patterns.
  destruct (_ && _); destruct (_ && _); destruct (_ && _); destruct (_ || _);
    simpl;
    repeat first [apply sublist_nil | apply sublist_skip | apply sublist_cons].
Qed.

Section WithEngine.

Context `{!Engine}.

Lemma clamp_cases (v : float) :
  (((v <? 1) = false ∧ Py.max 0 (Py.min 1 v) = 1)
   ∨ ((v <? 1) = true ∧ (0 <? v) = false ∧ Py.max 0 (Py.min 1 v) = 0)
   ∨ ((v <? 1) = true ∧ (0 <? v) = true ∧ Py.max 0 (Py.min 1 v) = v))%float.
Proof.
  unfold Py.max, Py.min.
  destruct (v <? 1)%float eqn:Hhigh.
  - destruct (0 <? v)%float eqn:Hlow; auto.
  - left. split; [done|]. reflexivity.
Qed.

(** X7: predict_learning_outcomes gives a prediction for exactly the keys
    of the model's prediction, and each prediction is 0, 1, or strictly
    between them: the adjusted value itself when that is strictly between
    0 and 1, and 1 when the adjusted value is not below 1, which includes
    a value that is not a number. *)
Theorem predictions_clamped (features : gmap string float)
    (patterns : list LearningPattern) (key : string) :
  (is_Some (predict_learning_outcomes features patterns !! key)
   ↔ is_Some (predict features !! key))
  ∧ (∀ v, predict_learning_outcomes features patterns !! key = Some v →
          v = 0%float ∨ v = 1%float
          ∨ ((0 <? v)%float = true ∧ (v <? 1)%float = true))
  ∧ (∀ base,
       predict features !! key = Some base →
       let adjusted :=
         (base * Py.get (calculate_pattern_adjustments patterns) key 1)%float in
       ((adjusted <? 1)%float = false →
        predict_learning_outcomes features patterns !! key = Some 1%float)
       ∧ ((0 <? adjusted)%float = true → (adjusted <? 1)%float = true →
          predict_learning_outcomes features patterns !! key = Some adjusted)).
Proof.
  unfold predict_learning_outcomes. rewrite lookup_fmap, map_lookup_imap.
  destruct (predict features !! key) as [base|] eqn:Hbase; simpl.
  - split; [split; eauto|]. split.
    + intros v [= <-].
      destruct (clamp_cases
                  (base * Py.get (calculate_pattern_adjustments patterns) key 1)%float)
        as [[_ ->]|[(_ & _ & ->)|(Hh & Hl & ->)]]; auto.
    + intros base' [= <-]. simpl. split.
      * intros Hhigh.
        destruct (clamp_cases
                    (base * Py.get (calculate_pattern_adjustments patterns) key 1)%float)
          as [[_ ->]|[(Hh & _)|(Hh & _)]]; [done|congruence..].
      * intros Hlow Hhigh.
        destruct (clamp_cases
                    (base * Py.get (calculate_pattern_adjustments patterns) key 1)%float)
          as [[Hh _]|[(_ & Hl & _)|(_ & _ & ->)]]; [congruence..|done].
  - split; [split; intros [? ?]; done|]. split; [done|]. done.
Qed.


End WithEngine.

#[local] Existing Instance Examples.engine.

Lemma predictions_clamped_witness :
  predict_learning_outcomes ∅ [] !! "completion_probability" = Some 1%float.
Proof.
  destruct (predictions_clamped ∅ [] "completion_probability") as (_ & _ & Hedge).
  destruct (Hedge 0.9%float eq_refl) as [Hhigh _].
  apply Hhigh. reflexivity.
Defined.


End AnalyticsFacts.

(** ** Sessions, history and streaming of the assistant *)

Module AssistantFacts.

Import Orchestrator Assistant.

Section WithWorld.

Context {World : Type} `{!Helpers (World := World)}
        `{!Collaborators SessionContext World}.

Lemma now_sessions (st : AState) :
  active_sessions (now st).2 = active_sessions st
  ∧ session_contexts (now st).2 = session_contexts st.
Proof.
  unfold now. by destruct (utcnow (world (orchestrator st))).
Qed.

Lemma has_key_true {V} (d : gmap string V) (key : string) (v : V) :
  d !! key = Some v → has_key d key = true.
Proof. intros Hv. unfold has_key. apply bool_decide_eq_true. eauto. Qed.

(** What one [send_message] to a connected session changes. *)
Lemma send_message_connected (session_id role content : string) (st : AState)
    (frames : list Frame) :
  active_sessions st !! session_id = Some frames →
  ∃ t,
    active_sessions (send_message session_id role content st)
    = <[session_id := (frames ++ [Message role content t])%list]> (active_sessions st)
    ∧ match session_contexts st !! session_id with
      | Some context =>
          ∃ t',
            session_contexts (send_message session_id role content st)
            = <[session_id :=
                  set_history
                    (message_history context
                     ++ [{| Assistant.role := role; content := JStr content;
                            timestamp := t' |}])%list
                    context]> (session_contexts st)
      | None =>
          session_contexts (send_message session_id role content st)
          = session_contexts st
      end.
Proof.
  intros Hsock. unfold send_message.
  rewrite (has_key_true _ _ _ Hsock).
  destruct (now_sessions st) as [Ha Hc].
  destruct (now st) as [t st1]. simpl in Ha, Hc.
  remember (send_json session_id (Message role content t) st1) as sent eqn:Hsent.
  assert (Ha1 : active_sessions sent
                = <[session_id := (frames ++ [Message role content t])%list]>
                    (active_sessions st)).
  { subst sent. unfold send_json, Py.get. simpl. by rewrite Ha, Hsock. }
  assert (Hc1 : session_contexts sent = session_contexts st).
  { subst sent. done. }
  clear Hsent. exists t. rewrite Hc1.
  destruct (session_contexts st !! session_id) as [context|] eqn:Hctx; [|done].
  destruct (now_sessions sent) as [Ha2 Hc2].
  destruct (now sent) as [t' st2]. simpl in *.
  split; [by rewrite Ha2|]. exists t'. by rewrite Hc2, Hc1.
Qed.

(** X9: send_message to a session without an open WebSocket does nothing
    at all; to a connected session it sends exactly one message frame and
    adds exactly one entry with that role and content to the session's
    history (when the session has a context), leaving every other session
    as it was. It does not cut the history. *)
Theorem send_message_effect (session_id role content : string) (st : AState) :
  (active_sessions st !! session_id = None →
   send_message session_id role content st = st)
  ∧ ∀ frames,
      active_sessions st !! session_id = Some frames →
      ∃ t,
        active_sessions (send_message session_id role content st)
        = <[session_id := (frames ++ [Message role content t])%list]>
            (active_sessions st)
        ∧ match session_contexts st !! session_id with
          | Some context =>
              ∃ t',
                session_contexts (send_message session_id role content st)
                = <[session_id :=
                      set_history
                        (message_history context
                         ++ [{| Assistant.role := role; content := JStr content;
                                timestamp := t' |}])%list
                        context]> (session_contexts st)
          | None =>
              session_contexts (send_message session_id role content st)
              = session_contexts st
          end.
Proof.
  split; [|apply send_message_connected].
  intros Hnone. unfold send_message.
  by rewrite (OrchestratorFacts.has_key_false _ _ Hnone).
Qed.

(** X10: after connect the session's WebSocket has had exactly the welcome
    sent on it and the session's history holds exactly the welcome,
    whatever was kept under that session id before; other sessions are
    untouched. *)
Theorem connect_starts_afresh (session_id : string) (st : AState) :
  ∃ t t1 t2,
    active_sessions (connect session_id st)
    = <[session_id := [Message "system" welcome t1]]> (active_sessions st)
    ∧ session_contexts (connect session_id st)
      = <[session_id :=
            {| connected_at := t;
               message_history :=
                 [{| Assistant.role := "system"; content := JStr welcome;
                     timestamp := t2 |}];
               current_track := None; user_context := ∅ |}]>
          (session_contexts st).
Proof.
  unfold connect.
  match goal with |- context [now ?s] =>
    destruct (now_sessions s) as [Ha Hc]; destruct (now s) as [t st1]
  end.
  simpl in Ha, Hc.
  match goal with |- context [send_message _ _ _ ?s] =>
    destruct (send_message_connected session_id "system" welcome s [])
      as (t1 & Hsock & Hctx)
  end.
  { simpl. by rewrite Ha, lookup_insert_eq. }
  simpl in Hsock, Hctx. rewrite Hc, lookup_insert_eq in Hctx.
  destruct Hctx as [t2 Hctx].
  exists t, t1, t2. rewrite Hsock, Hctx, ?Ha, ?Hc.
  by rewrite !insert_insert_eq.
Qed.

(** X11: handle_chat_message raises KeyError for a session without a
    context and changes nothing; otherwise the intent handlers run on a
    state in which the session's history ends with the user's message and
    holds the last 20 entries at most, the older ones being dropped. *)
Theorem chat_history_bounded (session_id : string) (message : gmap string Json)
    (st : AState) :
  (session_contexts st !! session_id = None →
   handle_chat_message session_id message st = (Raise "KeyError", st))
  ∧ ∀ context,
      session_contexts st !! session_id = Some context →
      ∃ t st1 history,
        handle_chat_message session_id message st
        = respond_by_intent session_id (Py.get message "content" (JStr "")) st1
        ∧ session_contexts st1
          = <[session_id := set_history history context]> (session_contexts st)
        ∧ active_sessions st1 = active_sessions st
        ∧ history `suffix_of`
            (message_history context
             ++ [{| Assistant.role := "user";
                    content := Py.get message "content" (JStr "");
                    timestamp := t |}])%list
        ∧ length history = Nat.min 20 (S (length (message_history context)))
        ∧ last history
          = Some {| Assistant.role := "user";
                    content := Py.get message "content" (JStr "");
                    timestamp := t |}.
Proof.
  unfold handle_chat_message, record_user_message. split.
  - by intros ->.
  - intros context ->.
    destruct (now_sessions st) as [Ha Hc]. destruct (now st) as [t st1].
    simpl in Ha, Hc.
    set (entry := {| Assistant.role := "user";
                     content := Py.get message "content" (JStr "");
                     timestamp := t |}).
    set (grown := (message_history context ++ [entry])%list).
    exists t,
      (set_context session_id
         (set_history
            (if (20 <? length grown)%nat
             then drop (length grown - 20) grown else grown) context) st1),
      (if (20 <? length grown)%nat
       then drop (length grown - 20) grown else grown).
    split; [reflexivity|].
    split; [unfold set_context; cbn [session_contexts]; by rewrite Hc|].
    split; [exact Ha|].
    assert (Hlen : length grown = S (length (message_history context))).
    { unfold grown. rewrite length_app. simpl. lia. }
    destruct (20 <? length grown)%nat eqn:Hlong.
    + apply Nat.ltb_lt in Hlong. split; [apply suffix_drop|].
      split; [rewrite length_drop; lia|].
      rewrite Hlen. unfold grown. rewrite drop_app_le by lia. apply last_snoc.
    + apply Nat.ltb_ge in Hlong. split; [done|].
      split; [lia|]. unfold grown. apply last_snoc.
Qed.

(** X12: handle_message treats a message without a "type", with a type
    that is no string, or with a type outside its six handlers as a chat
    message; a type that is a list or a dictionary raises TypeError and
    changes nothing. *)
Theorem unknown_message_is_chat (session_id : string) (message : gmap string Json)
    (st : AState) :
  match message !! "type" with
  | None | Some JNull | Some (JBool _) | Some (JNum _) =>
      handle_message session_id message st
      = handle_chat_message session_id message st
  | Some (JStr name) =>
      name = "chat" ∨ name ∉ message_types →
      handle_message session_id message st
      = handle_chat_message session_id message st
  | Some (JList _) | Some (JDict _) =>
      handle_message session_id message st = (Raise "TypeError", st)
  end.
Proof.
  unfold handle_message, Py.get.
  destruct (message !! "type") as [[| | |name| |]|]; try done.
  intros [->|Hnot]; [done|].
  assert (handlers !! name = None) as Hnone.
  { unfold handlers. by apply not_elem_of_list_to_map_1. }
  by rewrite (OrchestratorFacts.has_key_false _ _ Hnone).
Qed.

Lemma send_json_connected (session_id : string) (frame : Frame)
    (st : AState (World := World)) (frames : list Frame) :
  active_sessions st !! session_id = Some frames →
  active_sessions (send_json session_id frame st)
  = <[session_id := (frames ++ [frame])%list]> (active_sessions st).
Proof. intros Hsock. unfold send_json, Py.get. simpl. by rewrite Hsock. Qed.

Lemma send_chunks_frames (session_id : string) (chunks : list string)
    (st : AState) (frames : list Frame) :
  active_sessions st !! session_id = Some frames →
  ∃ ts,
    length ts = length chunks
    ∧ active_sessions (send_chunks session_id chunks st)
      = <[session_id := (frames ++ zip_with StreamChunk chunks ts)%list]>
          (active_sessions st).
Proof.
  revert st frames. induction chunks as [|chunk rest IH]; intros st frames Hsock.
  - exists []. split; [done|]. simpl. rewrite app_nil_r. by rewrite insert_id.
  - simpl. destruct (now_sessions st) as [Ha _]. destruct (now st) as [t st1].
    simpl in Ha.
    pose proof (send_json_connected session_id (StreamChunk chunk t) st1 frames)
      as Hsent.
    rewrite Ha in Hsent. specialize (Hsent Hsock).
    destruct (IH (send_json session_id (StreamChunk chunk t) st1)
                (frames ++ [StreamChunk chunk t])%list) as (ts & Hlen & Hrest).
    { by rewrite Hsent, lookup_insert_eq. }
    exists (t :: ts). split; [simpl; by rewrite Hlen|].
    rewrite Hrest, Hsent, insert_insert_eq. simpl.
    by rewrite <- app_assoc.
Qed.

(** X13: when every model fails transport or validation, handle_strategy_audit
    on a connected session returns normally having sent exactly two
    frames, the notice that the audit has started and the fixed apology
    with role "error": neither the orchestrator's error, nor its
    fallback_response, nor a provider's error text goes to the client. *)
Theorem failed_audit_sends_fixed_apology (session_id : string)
    (message : gmap string Json) (st : AState) (frames : list Frame)
    (context : SessionContext) :
  active_sessions st !! session_id = Some frames →
  session_contexts st !! session_id = Some context →
  (∀ context1 primary,
     session_contexts (send_message session_id "system" audit_started st)
       !! session_id = Some context1 →
     route_request "strategy_audit" context1 = Ok primary →
     System.all_fail (primary :: get_fallback_models primary "strategy_audit")
       (build_9_pillar_prompt (Py.get message "project_data" (JDict []))
          (Py.get message "focus_pillars" JNull))
       "strategy_audit" context1
       (world (orchestrator (send_message session_id "system" audit_started st)))) →
  ∃ t1 t2,
    (handle_strategy_audit session_id message st).1 = Ok ()
    ∧ active_sessions (handle_strategy_audit session_id message st).2
      = <[session_id :=
            (frames ++ [Message "system" audit_started t1;
                        Message "error" audit_failed t2])%list]>
          (active_sessions st).
Proof.
  intros Hsock Hctx Hfail. unfold handle_strategy_audit. rewrite Hctx.
  destruct (send_message_connected session_id "system" audit_started st frames Hsock)
    as (t1 & Hsock1 & Hctx1).
  rewrite Hctx in Hctx1. destruct Hctx1 as [t1' Hctx1].
  remember (send_message session_id "system" audit_started st) as st1 eqn:Hst1.
  clear Hst1. rewrite Hctx1, lookup_insert_eq in Hfail |- *.
  match goal with |- context [process_with_fallback ?p ?tt ?c ?o] =>
    destruct (ProcessFacts.process_attempts p tt c o)
      as (primary & evs & w' & res & Hroute & Hatt & Hrun)
  end.
  specialize (Hfail _ primary eq_refl Hroute).
  rewrite (ProcessFacts.attempts_all_fail _ _ _ _ _ _ _ _ Hatt Hfail) in Hrun.
  rewrite Hrun. simpl.
  destruct (ProcessFacts.all_failed_result_fields "strategy_audit") as (Hs & _).
  unfold getitem. rewrite Hs. simpl.
  match goal with |- context [send_message _ _ _ ?s] =>
    destruct (send_message_connected session_id "error" audit_failed s
                (frames ++ [Message "system" audit_started t1])%list)
      as (t2 & Hsock2 & _)
  end.
  { simpl. by rewrite Hsock1, lookup_insert_eq. }
  exists t1, t2. split; [done|].
  rewrite Hsock2. simpl. rewrite Hsock1, insert_insert_eq.
  by rewrite <- app_assoc.
Qed.

(** X14: stream_response raises KeyError for a session without a WebSocket
    and sends nothing; otherwise it sends stream_start naming the routed
    model, one stream_chunk per chunk in order, a stream_error if an
    Exception was raised in the loop, and always stream_end as the last
    frame. It returns normally unless what was raised is no Exception, as
    a CancelledError is: that is not reported to the client and leaves the
    function after stream_end has been sent. *)
Theorem stream_always_ends (session_id prompt task_type : string)
    (context : SessionContext) (st : AState) :
  (active_sessions st !! session_id = None →
   stream_response session_id prompt task_type context st = (Raise "KeyError", st))
  ∧ ∀ frames,
      active_sessions st !! session_id = Some frames →
      ∃ model ts t_end,
        route_request task_type context = Ok model
        ∧ (stream_response session_id prompt task_type context st).1
          = match (stream_model model prompt context
                     (world (orchestrator st))).1.2 with
            | Some e => if is_exception e then Ok () else Raise e
            | None => Ok ()
            end
        ∧ length ts
          = length (stream_model model prompt context
                      (world (orchestrator st))).1.1
        ∧ active_sessions (stream_response session_id prompt task_type context st).2
          = <[session_id :=
                (frames
                 ++ [StreamStart task_type (value model)]
                 ++ zip_with StreamChunk
                      (stream_model model prompt context
                         (world (orchestrator st))).1.1 ts
                 ++ match (stream_model model prompt context
                             (world (orchestrator st))).1.2 with
                    | Some e => if is_exception e then [StreamError e] else []
                    | None => []
                    end
                 ++ [StreamEnd t_end])%list]>
              (active_sessions st).
Proof.
  unfold stream_response. split.
  - intros Hnone. by rewrite (OrchestratorFacts.has_key_false _ _ Hnone).
  - intros frames Hsock. rewrite (has_key_true _ _ _ Hsock).
    destruct (OrchestratorFacts.route_request_total task_type context)
      as [model Hroute].
    rewrite Hroute. exists model.
    pose proof (send_json_connected session_id
                  (StreamStart task_type (value model)) st frames Hsock) as Hstart.
    remember (send_json session_id (StreamStart task_type (value model)) st)
      as st1 eqn:Hst1.
    assert (Hworld : world (orchestrator st1) = world (orchestrator st))
      by (by subst st1).
    clear Hst1. rewrite Hworld.
    destruct (stream_model model prompt context (world (orchestrator st)))
      as [[chunks raised] w]. simpl.
    destruct (send_chunks_frames session_id chunks (with_world w st1)
                (frames ++ [StreamStart task_type (value model)])%list)
      as (ts & Hlen & Hchunks).
    { simpl. by rewrite Hstart, lookup_insert_eq. }
    simpl in Hchunks. rewrite Hstart, insert_insert_eq in Hchunks.
    remember (send_chunks session_id chunks (with_world w st1)) as st2 eqn:Hst2.
    clear Hst2.
    set (st3 := match raised with
                | Some e =>
                    if is_exception e
                    then send_json session_id (StreamError e) st2 else st2
                | None => st2
                end).
    assert (Herr : active_sessions st3
                   = <[session_id :=
                         ((frames ++ [StreamStart task_type (value model)])
                          ++ zip_with StreamChunk chunks ts
                          ++ match raised with
                             | Some e =>
                                 if is_exception e then [StreamError e] else []
                             | None => []
                             end)%list]> (active_sessions st)).
    { unfold st3. destruct raised as [e|]; [destruct (is_exception e)|].
      - rewrite (send_json_connected _ _ _
                   ((frames ++ [StreamStart task_type (value model)])
                    ++ zip_with StreamChunk chunks ts)%list)
          by (by rewrite Hchunks, lookup_insert_eq).
        by rewrite Hchunks, insert_insert_eq, <- !app_assoc.
      - by rewrite app_nil_r.
      - by rewrite app_nil_r. }
    destruct (now_sessions st3) as [Ha _]. destruct (now st3) as [t_end st4].
    simpl in Ha. exists ts, t_end. split; [done|].
    split; [by destruct raised as [e|]; [destruct (is_exception e)|]|].
    split; [done|].
    assert (Hend : active_sessions (send_json session_id (StreamEnd t_end) st4)
                   = <[session_id :=
                         (frames
                          ++ [StreamStart task_type (value model)]
                          ++ zip_with StreamChunk chunks ts
                          ++ match raised with
                             | Some e =>
                                 if is_exception e then [StreamError e] else []
                             | None => []
                             end
                          ++ [StreamEnd t_end])%list]> (active_sessions st)).
    { rewrite (send_json_connected _ _ _
                 ((frames ++ [StreamStart task_type (value model)])
                  ++ zip_with StreamChunk chunks ts
                  ++ match raised with
                     | Some e =>
                         if is_exception e then [StreamError e] else []
                     | None => []
                     end)%list)
        by (by rewrite Ha, Herr, lookup_insert_eq).
      rewrite Ha, Herr, insert_insert_eq. by rewrite <- !app_assoc. }
    by destruct raised as [e|]; [destruct (is_exception e)|].
Qed.

End WithWorld.

#[local] Existing Instance Examples.helpers.
#[local] Existing Instance Examples.failing_collaborators.

Lemma send_message_effect_witness :
  send_message "s2" "assistant" "Hello" Examples.one_session = Examples.one_session
  ∧ ∃ t,
      active_sessions (send_message "s1" "assistant" "Hello" Examples.one_session)
      = <[ "s1" := [Message "system" welcome Examples.clock_reading;
                    Message "assistant" "Hello" t] ]>
          (active_sessions Examples.one_session).
Proof.
  split.
  - apply (proj1 (send_message_effect "s2" "assistant" "Hello" Examples.one_session)).
    reflexivity.
  - destruct (proj2 (send_message_effect "s1" "assistant" "Hello" Examples.one_session)
                [Message "system" welcome Examples.clock_reading] eq_refl)
      as (t & Hsent & _).
    exists t. exact Hsent.
Defined.

Lemma chat_history_bounded_witness :
  ∃ t st1 history,
    handle_chat_message "s1" {[ "content" := JStr "Where do I start?" ]}
      Examples.one_session
    = respond_by_intent "s1"
        (Py.get ({[ "content" := JStr "Where do I start?" ]} : gmap string Json)
           "content" (JStr "")) st1
    ∧ session_contexts st1
      = <[ "s1" := set_history history Examples.welcomed ]>
          (session_contexts Examples.one_session)
    ∧ active_sessions st1 = active_sessions Examples.one_session
    ∧ history `suffix_of`
        (message_history Examples.welcomed
         ++ [{| Assistant.role := "user";
                content :=
                  Py.get ({[ "content" := JStr "Where do I start?" ]}
                          : gmap string Json) "content" (JStr "");
                timestamp := t |}])%list
    ∧ length history = Nat.min 20 (S (length (message_history Examples.welcomed)))
    ∧ last history
      = Some {| Assistant.role := "user";
                content :=
                  Py.get ({[ "content" := JStr "Where do I start?" ]}
                          : gmap string Json) "content" (JStr "");
                timestamp := t |}.
Proof.
  apply (proj2 (chat_history_bounded "s1" {[ "content" := JStr "Where do I start?" ]}
                  Examples.one_session)).
  reflexivity.
Defined.

Lemma unknown_message_is_chat_witness :
  handle_message "s1" {[ "type" := JStr "ping" ]} Examples.one_session
  = handle_chat_message "s1" {[ "type" := JStr "ping" ]} Examples.one_session.
Proof.
  pose proof (unknown_message_is_chat "s1" {[ "type" := JStr "ping" ]}
                Examples.one_session) as Hchat.
  rewrite lookup_singleton_eq in Hchat. apply Hchat. right.
  apply (bool_decide_unpack _). vm_compute. exact I.
Defined.

Lemma failed_audit_sends_fixed_apology_witness :
  ∃ t1 t2,
    (handle_strategy_audit "s1" {[ "type" := JStr "strategy_audit" ]}
       Examples.one_session).1 = Ok ()
    ∧ active_sessions
        (handle_strategy_audit "s1" {[ "type" := JStr "strategy_audit" ]}
           Examples.one_session).2
      = <[ "s1" := [Message "system" welcome Examples.clock_reading;
                    Message "system" audit_started t1;
                    Message "error" audit_failed t2] ]>
          (active_sessions Examples.one_session).
Proof.
  apply (failed_audit_sends_fixed_apology "s1" {[ "type" := JStr "strategy_audit" ]}
           Examples.one_session [Message "system" welcome Examples.clock_reading]
           Examples.welcomed).
  - reflexivity.
  - reflexivity.
  - intros context1 primary _ Hroute. vm_compute in Hroute.
    injection Hroute as <-. simpl. repeat split; discriminate.
Defined.

Lemma stream_always_ends_witness :
  ∃ model ts t_end,
    route_request "real_time_tutoring" Examples.no_context = Ok model
    ∧ (stream_response "s1" "Explain pillars" "real_time_tutoring"
         Examples.no_context Examples.one_session).1
      = match (stream_model model "Explain pillars" Examples.no_context
                 (world (orchestrator Examples.one_session))).1.2 with
        | Some e => if is_exception e then Ok () else Raise e
        | None => Ok ()
        end
    ∧ length ts
      = length (stream_model model "Explain pillars" Examples.no_context
                  (world (orchestrator Examples.one_session))).1.1
    ∧ active_sessions
        (stream_response "s1" "Explain pillars" "real_time_tutoring"
           Examples.no_context Examples.one_session).2
      = <[ "s1" :=
             ([Message "system" welcome Examples.clock_reading]
              ++ [StreamStart "real_time_tutoring" (value model)]
              ++ zip_with StreamChunk
                   (stream_model model "Explain pillars" Examples.no_context
                      (world (orchestrator Examples.one_session))).1.1 ts
              ++ match (stream_model model "Explain pillars" Examples.no_context
                          (world (orchestrator Examples.one_session))).1.2 with
                 | Some e => if is_exception e then [StreamError e] else []
                 | None => []
                 end
              ++ [StreamEnd t_end])%list ]>
          (active_sessions Examples.one_session).
Proof.
  apply (proj2 (stream_always_ends "s1" "Explain pillars" "real_time_tutoring"
                  Examples.no_context Examples.one_session)).
  reflexivity.
Defined.

(** A stream that breaks after two chunks, as the client sees it. *)
Example broken_stream_frames :
  stream_response "s1" "Explain pillars" "real_time_tutoring"
    Examples.no_context Examples.one_session
  = (Ok (),
     send_json "s1" (StreamEnd Examples.clock_reading)
       (send_json "s1" (StreamError "stream broken")
          (send_json "s1" (StreamChunk "lo" Examples.clock_reading)
             (send_json "s1" (StreamChunk "Hel" Examples.clock_reading)
                (send_json "s1"
                   (StreamStart "real_time_tutoring" "gpt-4-turbo-preview")
                   Examples.one_session))))).
Proof. vm_compute. reflexivity. Qed.

(** A stream that is cancelled after its first chunk: the client is sent
    no stream_error, stream_end is still sent, and the CancelledError
    leaves the function. *)
Example cancelled_stream_frames :
  stream_response (H := Examples.cancelled_stream) "s1" "Explain pillars"
    "real_time_tutoring" Examples.no_context Examples.one_session
  = (Raise "CancelledError",
     send_json "s1" (StreamEnd Examples.clock_reading)
       (send_json "s1" (StreamChunk "Hel" Examples.clock_reading)
          (send_json "s1"
             (StreamStart "real_time_tutoring" "gpt-4-turbo-preview")
             Examples.one_session))).
Proof. vm_compute. reflexivity. Qed.

End AssistantFacts.

(** ** The collaboration mediator *)

Module MediatorFacts.

Import Orchestrator System Mediator.

Lemma prefix_append (sub rest : string) : String.prefix sub (sub +:+ rest) = true.
Proof.
  induction sub as [|c sub IH]; simpl; [by destruct rest|].
  by destruct (ascii_dec c c).
Qed.

Lemma contains_here (sub rest : string) : contains sub (sub +:+ rest) = true.
Proof.
  generalize (prefix_append sub rest). generalize (sub +:+ rest).
  intros s Hp. destruct s as [|c s]; [exact Hp|].
  change (String.prefix sub (String c s) || contains sub s = true).
  by rewrite Hp.
Qed.

Lemma contains_skip (sub before s : string) :
  contains sub s = true → contains sub (before +:+ s) = true.
Proof.
  intros Hs. induction before as [|c before IH]; simpl; [exact Hs|].
  rewrite IH. apply orb_true_r.
Qed.

Lemma py_map_ok {A B} (f : A → PyResult B) (l : list A) :
  Forall (fun x => ∃ y, f x = Ok y) l → ∃ ys, py_map f l = Ok ys.
Proof.
  induction 1 as [|x rest [y Hy] _ [ys Hys]]; simpl; [by eexists|].
  rewrite Hy. simpl. rewrite Hys. simpl. by eexists.
Qed.

Lemma py_map_raise {A B} (f : A → PyResult B) (l : list A) (e : string) :
  (∀ x e', f x = Raise e' → e' = e) →
  Exists (fun x => f x = Raise e) l → py_map f l = Raise e.
Proof.
  intros Honly. induction 1 as [x rest Hx|x rest _ IH]; simpl.
  - by rewrite Hx.
  - destruct (f x) as [y|e'] eqn:Hx; simpl.
    + by rewrite IH.
    + by rewrite (Honly x e' Hx).
Qed.

Lemma getitem_raises {V} (d : gmap string V) (key e : string) :
  getitem d key = Raise e → e = "KeyError" ∧ d !! key = None.
Proof. unfold getitem. destruct (d !! key); [done|]. by intros [= <-]. Qed.

Lemma unlisted_unrouted :
  ("collaboration_facilitation" ∉ known_task_types)
  ∧ ("document_synthesis" ∉ known_task_types).
Proof. split; apply (bool_decide_unpack _); vm_compute; exact I. Qed.

Lemma unlisted_unvalidated :
  ("collaboration_facilitation" ∉ validated_task_types)
  ∧ ("document_synthesis" ∉ validated_task_types).
Proof. split; apply (bool_decide_unpack _); vm_compute; exact I. Qed.

Section WithCollaborators.

Context {PyDict World : Type} `{!Collaborators PyDict World}.

(** What [process_with_fallback] hands back for a task type that has no
    routing rule and no validator of its own. *)
Lemma process_unlisted (prompt task_type : string) (context : PyDict)
    (st : OState) :
  task_type ∉ known_task_types →
  task_type ∉ validated_task_types →
  ∃ evs w' res,
    process_with_fallback prompt task_type context st
    = (returned task_type (trace st ++ evs) res,
       {| world := w'; trace := trace st ++ evs; cache := cache st |})
    ∧ match res with
      | Ok (Some (model, result)) =>
          model ∈ route_default context
                  :: get_fallback_models (route_default context) task_type
          ∧ default_validation result = true
          ∧ ∃ w0 w1, call_model model prompt context w0 = (Ok result, w1)
      | Ok None =>
          all_fail (route_default context
                    :: get_fallback_models (route_default context) task_type)
            prompt task_type context (world st)
      | Raise e =>
          is_exception e = false
          ∧ ∃ model, last evs = Some (Call model prompt)
      end.
Proof.
  intros Hroute Hvalid.
  destruct (ProcessFacts.process_attempts prompt task_type context st)
    as (primary & evs & w' & res & Hp & Hatt & Hrun).
  unfold route_request in Hp.
  rewrite (OrchestratorFacts.has_key_false _ _
             (OrchestratorFacts.routing_rules_unknown _ Hroute)) in Hp.
  injection Hp as <-.
  exists evs, w', res. split; [exact Hrun|].
  destruct (ProcessFacts.attempts_called _ _ _ _ _ _ _ _ Hatt) as [Hprefix Hres].
  destruct res as [[[model result]|]|e].
  - destruct Hres as [Hlast Hval]. split; [|split].
    + apply last_Some in Hlast as [before Hbefore].
      destruct Hprefix as [after Hafter]. rewrite Hafter, Hbefore.
      set_solver.
    + unfold validate_response_quality in Hval.
      rewrite (OrchestratorFacts.has_key_false _ _
                 (OrchestratorFacts.validators_unknown _ Hvalid)) in Hval.
      by injection Hval.
    + destruct (ProcessFacts.attempts_response _ _ _ _ _ _ _ _ _ Hatt)
        as (w0 & w1 & Hcall & _).
      by exists w0, w1.
  - by eapply ProcessFacts.attempts_exhausted_all_fail.
  - destruct Hres as (Hexn & model & _ & Hlast). eauto.
Qed.

End WithCollaborators.

Section WithWorld.

Context {World : Type} `{!Facilitator (World := World)}
  `{!Collaborators Context World}.

Lemma build_collaboration_prompt_total (artifact : Artifact)
    (session : CollaborationSession) (response_type : string) :
  ∃ prompt, build_collaboration_prompt artifact session response_type = Ok prompt.
Proof.
  unfold build_collaboration_prompt.
  destruct (has_key prompts response_type) eqn:Hk; [|by eexists].
  destruct (OrchestratorFacts.has_key_getitem _ _ Hk) as [build Hbuild].
  rewrite Hbuild. simpl. by eexists.
Qed.

(** X15: the facilitation prompt quotes the participant's message, the
    session's focus area and the recent discussion word for word. *)
Theorem facilitation_prompt_quotes_message (artifact : Artifact)
    (session : CollaborationSession) :
  ∃ prompt,
    build_collaboration_prompt artifact session "facilitation" = Ok prompt
    ∧ contains (artifact_content artifact) prompt = true
    ∧ contains (focus_area session) prompt = true
    ∧ contains (get_recent_context session 5) prompt = true.
Proof.
  exists (build_facilitation_prompt artifact session). split; [reflexivity|].
  unfold build_facilitation_prompt.
  repeat split; repeat first [apply contains_here | apply contains_skip].
Qed.

(** X16: when [should_ai_respond] says no, [generate_ai_response] returns
    None and no model has been called. A suggestion it returns carries the
    response type chosen for the message, a response that a model returned
    to the prompt of that type and that passed the default validation, the
    name of that model, which is among the default route and its
    fallbacks, and the triggers found in the response. When it returns
    None although it was to respond, every candidate model has failed. *)
Theorem suggestion_is_validated (artifact : Artifact)
    (session : CollaborationSession) (st : OState) :
  let context := {| session := session; artifact := Some artifact |} in
  let candidates :=
    route_default context
    :: get_fallback_models (route_default context) "collaboration_facilitation" in
  ((should_ai_respond artifact session (world st)).1 = Ok false →
   (generate_ai_response artifact session st).1 = Ok None
   ∧ trace (generate_ai_response artifact session st).2 = trace st)
  ∧ (∀ s, (generate_ai_response artifact session st).1 = Ok (Some s) →
       (should_ai_respond artifact session (world st)).1 = Ok true
       ∧ determine_response_type artifact session = Ok (suggestion_type s)
       ∧ ∃ prompt model result w0 w1,
           build_collaboration_prompt artifact session (suggestion_type s)
           = Ok prompt
           ∧ call_model model prompt context w0 = (Ok result, w1)
           ∧ default_validation result = true
           ∧ model ∈ candidates
           ∧ suggestion_content s = VStr result
           ∧ suggestion_model s = VStr (value model)
           ∧ extract_response_triggers (VStr result) = Ok (triggers s))
  ∧ (∀ response_type prompt,
       (should_ai_respond artifact session (world st)).1 = Ok true →
       determine_response_type artifact session = Ok response_type →
       build_collaboration_prompt artifact session response_type = Ok prompt →
       (generate_ai_response artifact session st).1 = Ok None →
       all_fail candidates prompt "collaboration_facilitation" context
         (should_ai_respond artifact session (world st)).2).
Proof.
  intros context candidates. subst context candidates.
  unfold generate_ai_response.
  destruct (should_ai_respond artifact session (world st)) as [[[|]|e] w];
    simpl.
  2: { split; [done|]. split; [done|]. done. }
  2: { split; [done|]. split; [done|]. done. }
  split; [done|].
  destruct (determine_response_type artifact session) as [response_type|e];
    [|split; [done|]; done].
  destruct (build_collaboration_prompt artifact session response_type)
    as [prompt|e] eqn:Hprompt;
    [|split; [done|]; intros rt p _ [= <-] Hp; congruence].
  destruct (process_unlisted prompt "collaboration_facilitation"
              {| session := session; artifact := Some artifact |}
              (set_world w st) (proj1 unlisted_unrouted)
              (proj1 unlisted_unvalidated))
    as (evs & w' & res & -> & Hres).
  destruct res as [[[model result]|]|e]; simpl.
  - destruct Hres as (Hin & Hval & w0 & w1 & Hcall).
    destruct (ProcessFacts.success_result_fields model result
                (get_latency (trace st ++ evs))) as (Hs & Hm & Hr & _).
    unfold getitem. rewrite Hs, Hm, Hr. simpl.
    destruct (utcnow w') as [t w'']. simpl.
    destruct (extract_response_triggers (VStr result)) as [found|e] eqn:Hfound;
      simpl; (split; [|done]); [|by intros s [=]].
    intros s [= <-]. simpl. split; [done|]. split; [done|].
    by exists prompt, model, result, w0, w1.
  - destruct (ProcessFacts.all_failed_result_fields "collaboration_facilitation")
      as (Hs & _).
    unfold getitem. rewrite Hs. simpl. split; [done|].
    intros response_type' prompt' _ [= <-] Hp' _.
    rewrite Hprompt in Hp'. by injection Hp' as <-.
  - split; [done|]. done.
Qed.

Lemma decision_line_raises (d : gmap string Assistant.Json) (e : string) :
  decision_line d = Raise e → e = "KeyError".
Proof.
  unfold decision_line.
  destruct (getitem d "description") eqn:Hd; simpl; [done|].
  intros [= <-]. by apply getitem_raises in Hd as [-> _].
Qed.

Lemma action_line_raises (a : gmap string Assistant.Json) (e : string) :
  action_line a = Raise e → e = "KeyError".
Proof.
  unfold action_line.
  destruct (getitem a "description") eqn:H1; simpl;
    [|intros [= <-]; by apply getitem_raises in H1 as [-> _]].
  destruct (getitem a "owner") eqn:H2; simpl;
    [|intros [= <-]; by apply getitem_raises in H2 as [-> _]].
  destruct (getitem a "due_date") eqn:H3; simpl;
    [done|intros [= <-]; by apply getitem_raises in H3 as [-> _]].
Qed.

Lemma summary_prompt_raises (session : CollaborationSession) (now : string)
    (key_points : list string)
    (decisions action_items : list (gmap string Assistant.Json)) (e : string) :
  summary_prompt session now key_points decisions action_items = Raise e →
  e = "KeyError".
Proof.
  unfold summary_prompt.
  assert (∀ A (f : A → PyResult string) l,
            (∀ x e', f x = Raise e' → e' = "KeyError") →
            py_map f l = Raise e → e = "KeyError") as Hmap.
  { intros A f l Honly. induction l as [|x rest IH]; simpl; [done|].
    destruct (f x) as [y|e'] eqn:Hx; simpl.
    - destruct (py_map f rest); simpl; [done|]. intros [= <-]. by apply IH.
    - intros [= <-]. by eapply Honly. }
  destruct (py_map decision_line decisions) as [ds|e'] eqn:Hd; simpl.
  - destruct (py_map action_line action_items) as [acts|e'] eqn:Ha; simpl; [done|].
    intros [= <-]. eapply Hmap; [|exact Ha]. apply action_line_raises.
  - intros [= <-]. eapply Hmap; [|exact Hd]. apply decision_line_raises.
Qed.

(** X17: when a decision has no "description", or an action item lacks
    its "description", "owner" or "due_date", [create_session_summary]
    raises KeyError while building the prompt, before any model is
    called. *)
Theorem summary_key_error_calls_no_model (session : CollaborationSession)
    (key_points : list string)
    (decisions action_items : list (gmap string Assistant.Json)) (st : OState) :
  Exists (fun d => d !! "description" = None) decisions
  ∨ Exists (fun a => a !! "description" = None ∨ a !! "owner" = None
                     ∨ a !! "due_date" = None) action_items →
  (create_session_summary session key_points decisions action_items st).1
  = Raise "KeyError"
  ∧ trace (create_session_summary session key_points decisions action_items st).2
    = trace st.
Proof.
  intros Hmissing. unfold create_session_summary.
  destruct (utcnow (world st)) as [t w].
  assert (∃ e, summary_prompt session t key_points decisions action_items = Raise e)
    as [e He].
  { unfold summary_prompt. destruct Hmissing as [Hd|Ha].
    - rewrite (py_map_raise decision_line decisions "KeyError").
      + by eexists.
      + apply decision_line_raises.
      + eapply Exists_impl; [exact Hd|]. intros d Hnone. simpl in Hnone.
        unfold decision_line, getitem. by rewrite Hnone.
    - destruct (py_map decision_line decisions) as [lines|e']; simpl;
        [|by eexists].
      rewrite (py_map_raise action_line action_items "KeyError").
      + by eexists.
      + apply action_line_raises.
      + eapply Exists_impl; [exact Ha|]. intros item Hnone. simpl in Hnone.
        unfold action_line, getitem.
        destruct (item !! "description") as [v1|]; [|done]. simpl.
        destruct (item !! "owner") as [v2|]; [|done]. simpl.
        destruct (item !! "due_date") as [v3|]; [|done]. simpl.
        by destruct Hnone as [?|[?|?]]. }
  rewrite He. apply summary_prompt_raises in He as ->. done.
Qed.

(** X18: when every decision and action item has the keys the prompt
    reads, [create_session_summary] returns a dictionary unless an
    exception that [process_with_fallback] does not catch left a model's
    call. The "summary" of the dictionary is either a model response that
    passed the default validation, next to the session's "participants"
    and "focus_area", or the fixed failure text, and then those two keys
    are missing. *)
Theorem summary_validated_or_fixed (session : CollaborationSession)
    (key_points : list string)
    (decisions action_items : list (gmap string Assistant.Json)) (st : OState) :
  Forall (fun d => is_Some (d !! "description")) decisions →
  Forall (fun a => is_Some (a !! "description") ∧ is_Some (a !! "owner")
                   ∧ is_Some (a !! "due_date")) action_items →
  match (create_session_summary session key_points decisions action_items st).1
  with
  | Ok d =>
      (∃ result,
         d !! "summary" = Some (FValue (VStr result))
         ∧ default_validation result = true
         ∧ d !! "participants" = Some (FStrs (participants session))
         ∧ d !! "focus_area" = Some (FStr (focus_area session)))
      ∨ (d !! "summary" = Some (FValue (VStr summary_failed))
         ∧ d !! "participants" = None
         ∧ d !! "focus_area" = None)
  | Raise e =>
      is_exception e = false
      ∧ ∃ model prompt,
          last (trace (create_session_summary session key_points decisions
                         action_items st).2)
          = Some (Call model prompt)
  end.
Proof.
  intros Hd Ha. unfold create_session_summary.
  destruct (utcnow (world st)) as [t w].
  assert (∃ prompt,
            summary_prompt session t key_points decisions action_items = Ok prompt)
    as [prompt ->].
  { unfold summary_prompt.
    destruct (py_map_ok decision_line decisions) as [ds ->].
    { eapply Forall_impl; [exact Hd|]. intros d [v Hv].
      unfold decision_line, getitem. rewrite Hv. simpl. by eexists. }
    destruct (py_map_ok action_line action_items) as [acts ->].
    { eapply Forall_impl; [exact Ha|]. intros a ([v1 H1] & [v2 H2] & [v3 H3]).
      unfold action_line, getitem. rewrite H1, H2, H3. simpl. by eexists. }
    simpl. by eexists. }
  destruct (process_unlisted prompt "document_synthesis"
              {| session := session; artifact := None |}
              (set_world w st) (proj2 unlisted_unrouted)
              (proj2 unlisted_unvalidated))
    as (evs & w' & res & -> & Hres).
  destruct res as [[[model result]|]|e].
  - destruct Hres as (_ & Hval & _). simpl.
    destruct (ProcessFacts.success_result_fields model result
                (get_latency (trace st ++ evs))) as (Hs & _ & Hr & _).
    unfold getitem. rewrite Hs, Hr. simpl.
    destruct (utcnow w') as [t' w'']. simpl.
    left. exists result. by repeat split.
  - simpl.
    destruct (ProcessFacts.all_failed_result_fields "document_synthesis")
      as (Hs & _).
    unfold getitem. rewrite Hs. simpl.
    destruct (utcnow w') as [t' w'']. simpl.
    right. by repeat split.
  - simpl. destruct Hres as (Hexn & model & Hlast). split; [done|].
    exists model, prompt. rewrite last_app, Hlast. done.
Qed.

End WithWorld.

#[local] Existing Instance Examples.facilitator.
#[local] Existing Instance Examples.answering_collaborators.

Lemma summary_key_error_calls_no_model_witness :
  (create_session_summary Examples.crew_session ["Talk to users"] [∅] []
     Examples.fresh).1 = Raise "KeyError"
  ∧ trace (create_session_summary Examples.crew_session ["Talk to users"] [∅] []
             Examples.fresh).2 = trace Examples.fresh.
Proof.
  apply (summary_key_error_calls_no_model Examples.crew_session ["Talk to users"]
           [∅] [] Examples.fresh).
  left. apply Exists_cons_hd. reflexivity.
Defined.

Lemma summary_validated_or_fixed_witness :
  match (create_session_summary Examples.crew_session ["Talk to users"]
           [{[ "description" := Assistant.JStr "Interview first" ]}] []
           Examples.fresh).1
  with
  | Ok d =>
      (∃ result,
         d !! "summary" = Some (FValue (VStr result))
         ∧ default_validation result = true
         ∧ d !! "participants" = Some (FStrs (participants Examples.crew_session))
         ∧ d !! "focus_area" = Some (FStr (focus_area Examples.crew_session)))
      ∨ (d !! "summary" = Some (FValue (VStr summary_failed))
         ∧ d !! "participants" = None
         ∧ d !! "focus_area" = None)
  | Raise e =>
      is_exception e = false
      ∧ ∃ model prompt,
          last (trace (create_session_summary Examples.crew_session
                         ["Talk to users"]
                         [{[ "description" := Assistant.JStr "Interview first" ]}]
                         [] Examples.fresh).2)
          = Some (Call model prompt)
  end.
Proof.
  apply (summary_validated_or_fixed Examples.crew_session ["Talk to users"]
           [{[ "description" := Assistant.JStr "Interview first" ]}] []
           Examples.fresh).
  - constructor; [|constructor]. eexists. reflexivity.
  - constructor.
Defined.

Lemma suggestion_is_validated_witness :
  ((generate_ai_response (Examples.idea "observer") Examples.crew_session
      Examples.fresh).1 = Ok None
   ∧ trace (generate_ai_response (Examples.idea "observer")
              Examples.crew_session Examples.fresh).2 = trace Examples.fresh)
  ∧ determine_response_type (Examples.idea "ada") Examples.crew_session
    = Ok (suggestion_type Examples.ada_suggestion)
  ∧ ∃ prompt model result w0 w1,
      build_collaboration_prompt (Examples.idea "ada") Examples.crew_session
        (suggestion_type Examples.ada_suggestion) = Ok prompt
      ∧ call_model model prompt
          {| session := Examples.crew_session;
             artifact := Some (Examples.idea "ada") |} w0 = (Ok result, w1)
      ∧ default_validation result = true
      ∧ model ∈ route_default
                  {| session := Examples.crew_session;
                     artifact := Some (Examples.idea "ada") |}
                :: get_fallback_models
                     (route_default
                        {| session := Examples.crew_session;
                           artifact := Some (Examples.idea "ada") |})
                     "collaboration_facilitation"
      ∧ suggestion_content Examples.ada_suggestion = VStr result
      ∧ suggestion_model Examples.ada_suggestion = VStr (value model)
      ∧ extract_response_triggers (VStr result)
        = Ok (triggers Examples.ada_suggestion).
Proof.
  split.
  - apply (proj1 (suggestion_is_validated (Examples.idea "observer")
                    Examples.crew_session Examples.fresh)).
    reflexivity.
  - apply (proj1 (proj2 (suggestion_is_validated (Examples.idea "ada")
                           Examples.crew_session Examples.fresh))
             Examples.ada_suggestion).
    reflexivity.
Defined.

(** The prompt the models are given for a participant's message. *)
Example facilitation_prompt_of_idea :
  ∃ prompt,
    build_collaboration_prompt (Examples.idea "ada") Examples.crew_session
      "facilitation" = Ok prompt
    ∧ contains "Interview five users first" prompt = true
    ∧ contains "Participants: 2 crew members" prompt = true.
Proof. eexists. split; [reflexivity|]. vm_compute. done. Qed.

End MediatorFacts.

(** ** What the metrics collector sees *)

Module MetricsFacts.

Import Orchestrator System.

Section WithCollaborators.

Context {PyDict World : Type} `{!Collaborators PyDict World}.

Lemma records_refl (model : AIModel) (task_type : string) :
  records model task_type (RecordSuccess model task_type) = true
  ∧ records model task_type (RecordQualityIssue model task_type) = true
  ∧ ∀ e, records model task_type (RecordFailure model task_type e) = true.
Proof.
  unfold records. repeat split; intros; by rewrite !bool_decide_eq_true_2.
Qed.

Lemma paired_step (prompt task_type : string) (model : AIModel)
    (record : Event) (evs : list Event) :
  records model task_type record = true →
  paired prompt task_type evs = true →
  paired prompt task_type (Call model prompt :: record :: evs) = true.
Proof.
  intros Hr Hp. simpl. by rewrite bool_decide_eq_true_2, Hr, Hp.
Qed.

Lemma paired_open_step (prompt task_type : string) (model : AIModel)
    (record : Event) (evs : list Event) :
  records model task_type record = true →
  (∃ before m, evs = (before ++ [Call m prompt])%list
               ∧ paired prompt task_type before = true) →
  ∃ before m, Call model prompt :: record :: evs
              = (before ++ [Call m prompt])%list
              ∧ paired prompt task_type before = true.
Proof.
  intros Hr (before & m & -> & Hp).
  exists (Call model prompt :: record :: before), m.
  split; [done|]. by apply paired_step.
Qed.

Lemma attempts_records (prompt task_type : string) (context : PyDict)
    (models : list AIModel) (w w' : World) (evs : list Event)
    (res : PyResult (option (AIModel * string))) :
  attempts prompt task_type context models w evs w' res →
  match res with
  | Ok (Some (model, _)) =>
      paired prompt task_type evs = true
      ∧ last evs = Some (RecordSuccess model task_type)
  | Ok None =>
      paired prompt task_type evs = true
      ∧ ∀ model, RecordSuccess model task_type ∉ evs
  | Raise e =>
      ∃ before model,
        evs = (before ++ [Call model prompt])%list
        ∧ paired prompt task_type before = true
  end.
Proof.
  assert (Hstep : ∀ model record evs0
                    (res0 : PyResult (option (AIModel * string))),
            records model task_type record = true →
            (∀ m, record ≠ RecordSuccess m task_type) →
            match res0 with
            | Ok (Some (m, _)) =>
                paired prompt task_type evs0 = true
                ∧ last evs0 = Some (RecordSuccess m task_type)
            | Ok None =>
                paired prompt task_type evs0 = true
                ∧ ∀ m, RecordSuccess m task_type ∉ evs0
            | Raise e =>
                ∃ before m,
                  evs0 = (before ++ [Call m prompt])%list
                  ∧ paired prompt task_type before = true
            end →
            match res0 with
            | Ok (Some (m, _)) =>
                paired prompt task_type (Call model prompt :: record :: evs0) = true
                ∧ last (Call model prompt :: record :: evs0)
                  = Some (RecordSuccess m task_type)
            | Ok None =>
                paired prompt task_type (Call model prompt :: record :: evs0) = true
                ∧ ∀ m, RecordSuccess m task_type
                       ∉ Call model prompt :: record :: evs0
            | Raise e =>
                ∃ before m,
                  Call model prompt :: record :: evs0
                  = (before ++ [Call m prompt])%list
                  ∧ paired prompt task_type before = true
            end).
  { intros model record evs0 res0 Hr Hnot IH.
    destruct res0 as [[[m r]|]|e].
    - destruct IH as [Hp Hl]. split; [by apply paired_step|].
      by destruct evs0.
    - destruct IH as [Hp Hno]. split; [by apply paired_step|].
      intros m Hin. apply elem_of_cons in Hin as [?|Hin]; [done|].
      apply elem_of_cons in Hin as [Heq|Hin]; [by eapply Hnot|].
      by apply (Hno m).
    - by apply paired_open_step. }
  induction 1.
  - split; [done|]. intros model. apply not_elem_of_nil.
  - split; [|done]. apply paired_step; [apply records_refl|done].
  - apply Hstep; [apply records_refl|done|done].
  - apply Hstep; [apply records_refl|done|done].
  - apply Hstep; [apply records_refl|done|done].
  - by exists [], model.
  - by exists [], model.
Qed.

(** X19: a run of [process_with_fallback] only adds to the record of
    calls: it calls candidates of the loop in their order, each with the
    prompt, and every call is followed by exactly one entry for the model
    called with the metrics collector, of its success, of a rejected
    response or of a failure. A result that says success names the model
    whose success record is the last entry; a failed run records no
    success at all; and when an exception leaves the function, the last
    entry is the call that raised it, the only one without a record. *)
Theorem one_record_per_call (prompt task_type : string) (context : PyDict)
    (st : OState) :
  ∃ primary evs,
    route_request task_type context = Ok primary
    ∧ trace (process_with_fallback prompt task_type context st).2
      = (trace st ++ evs)%list
    ∧ called evs `prefix_of` primary :: get_fallback_models primary task_type
    ∧ match (process_with_fallback prompt task_type context st).1 with
      | Ok d =>
          paired prompt task_type evs = true
          ∧ ((∃ model,
                d !! "success" = Some (VBool true)
                ∧ d !! "model" = Some (VStr (value model))
                ∧ last evs = Some (RecordSuccess model task_type))
             ∨ (d !! "success" = Some (VBool false)
                ∧ ∀ model, RecordSuccess model task_type ∉ evs))
      | Raise e =>
          ∃ before model,
            evs = (before ++ [Call model prompt])%list
            ∧ paired prompt task_type before = true
      end.
Proof.
  destruct (ProcessFacts.process_attempts prompt task_type context st)
    as (primary & evs & w' & res & Hp & Hatt & ->).
  exists primary, evs. simpl. split; [done|]. split; [done|].
  destruct (ProcessFacts.attempts_called _ _ _ _ _ _ _ _ Hatt) as [Hpre _].
  split; [done|].
  pose proof (attempts_records _ _ _ _ _ _ _ _ Hatt) as Hres.
  destruct res as [[[model result]|]|e]; simpl.
  - destruct Hres as [Hpaired Hlast]. split; [done|].
    left. exists model. by repeat split.
  - destruct Hres as [Hpaired Hno]. split; [done|]. right. by split.
  - exact Hres.
Qed.

End WithCollaborators.

End MetricsFacts.
